(** * shell.c: a command interpreter with job control

    A shallow embedding of [shell.c] and the properties of its process
    execution and job-control core.

    The shell is a C program that talks to the operating system through
    system calls.  The embedding follows the code statement by statement in
    a small state-and-halt monad [M]:

    - the process-wide globals of [shell.c] ([num_bprocesses],
      [shell_pgid], ...) and the part of the kernel state the shell can
      observe (its descriptor table, working directory, unreaped children,
      [errno]) are fields of [state];
    - every system call and every [fprintf] appends an [event] to the
      [trace] of the state, so orderings of calls can be stated;
    - what the environment decides (whether a path can be executed, whether
      a file can be opened, which child is reaped first, what [fork]
      returns) is read from a [World] record;
    - a computation either returns ([Ret]) or stops the process ([Halt]):
      the process image was replaced by [execv], [exit] was called, or the
      program crashes there (a null pointer handed to a library function).

    What the embedding leaves out:

    - C strings are values of type [string]; the bytes of the stack arrays
      they are copied into are not modelled (the three arrays of the PATH
      loop of [exec_func] are each one byte shorter than what is copied
      into them);
    - the buffer of the stream [stdout] is not modelled: an [EWrite] event
      records a call of [fprintf] or [printf] and the file descriptor 1
      refers to at the call, not the moment the bytes leave the buffer;
    - signals are not delivered: only the calls that set dispositions or
      send signals are recorded. *)

From Stdlib Require Import ZArith String Ascii List Lia Bool.
From stdpp Require Import base list strings pretty.
From Equations Require Import Equations.

Open Scope Z_scope.

(** ** C integer types *)

(** [size_t] is an unsigned 64-bit integer: arithmetic wraps modulo 2^64. *)
Definition SIZE_MOD : Z := 2 ^ 64.

Definition size_sub (a b : Z) : Z := (a - b) mod SIZE_MOD.

(** [int] is a signed 32-bit integer.  C leaves the overflow of [++]
    undefined; the compiled program adds in two's complement, so that the
    successor of [INT_MAX] is [INT_MIN], and the model does the same. *)
Definition INT_MAX : Z := 2147483647.
Definition INT_MIN : Z := -2147483648.

Definition int_succ (n : Z) : Z := if n <? INT_MAX then n + 1 else INT_MIN.
Arguments int_succ : simpl never.

(** Linux error numbers the model itself produces. *)
Definition ECHILD : Z := 10.
Definition EBADF : Z := 9.
Definition EFAULT : Z := 14.
Definition EINVAL : Z := 22.
Definition EMFILE : Z := 24.

(** ** C string functions *)

Definition nl : string := String (ascii_of_nat 10) EmptyString.

(** [strcmp]: zero exactly on equal strings; only the sign of a non-zero
    result is specified. *)
Definition strcmp (a b : string) : Z :=
  match String.compare a b with
  | Eq => 0
  | Lt => -1
  | Gt => 1
  end.

(** [strncpy(temp, path, 1); temp[1] = '\0'] *)
Definition strncpy1 (path : string) : string := String.substring 0 1 path.

Definition is_delim (delim : string) (c : ascii) : bool :=
  existsb (Ascii.eqb c) (list_ascii_of_string delim).

(** [s + strspn(s, delim)] *)
Fixpoint strspn_skip (delim s : string) : string :=
  match s with
  | EmptyString => EmptyString
  | String c s' => if is_delim delim c then strspn_skip delim s' else s
  end.

(** The characters before the first delimiter ([strcspn]), and what follows
    that delimiter, if there is one. *)
Fixpoint strcspn_split (delim s : string) : string * option string :=
  match s with
  | EmptyString => (EmptyString, None)
  | String c s' =>
      if is_delim delim c then (EmptyString, Some s')
      else let '(tok, rest) := strcspn_split delim s' in (String c tok, rest)
  end.

(** One call of [strtok] on the string its saved pointer designates: the
    token found, if any, and the new saved position. *)
Definition strtok_r (delim s : string) : option string * string :=
  match strspn_skip delim s with
  | EmptyString => (None, EmptyString)
  | String c s1 =>
      match strcspn_split delim (String c s1) with
      | (tok, None) => (Some tok, EmptyString)
      | (tok, Some rest) => (Some tok, rest)
      end
  end.

(** ** The tokenizer interface *)

(** Modelled from the spec: [tokenizer.h] and its implementation are not
    part of the sources.  The spec gives the contract
    [length(seq) -> n] and [token(seq, i) -> string | absent-if-out-of-range];
    a token sequence is an ordered list of strings. *)
Definition tokens_get_length (tokens : list string) : Z :=
  Z.of_nat (length tokens).

(** Modelled from the spec: [tokens_get_token] of the same interface; the
    index is a [size_t], and a token outside the sequence is absent (NULL). *)
Definition tokens_get_token (tokens : list string) (n : Z) : option string :=
  if (0 <=? n) && (n <? tokens_get_length tokens)
  then tokens !! Z.to_nat n
  else None.

(** ** Processes, descriptors and events *)

(** What a descriptor refers to. *)
Inductive ofile : Type :=
| Inherited (n : nat)          (* the file the shell was started with on descriptor n *)
| Opened (name mode : string). (* a file opened by fopen *)

Inductive signal_t : Type :=
| SIGINT | SIGQUIT | SIGKILL | SIGTERM | SIGTSTP | SIGCONT | SIGTTIN | SIGTTOU.

Inductive handler_t : Type := SIG_DFL | SIG_IGN.

Inductive event : Type :=
| EFork (r : Z)
| ESetpgid (p g : Z)
| ESignal (sig : signal_t) (h : handler_t)
| EExecv (path : string) (argv : list (option string))
| EWrite (dst : option ofile) (text : string)
| ETcsetpgrp (fd : Z) (pgrp : Z)
| EWait (r : Z)
| EChdir (path : option string) (r : Z)
| EFopen (name : option string) (mode : string) (fd : option nat)
| EDup (fd : Z) (r : Z)
| EDup2 (oldfd newfd : Z) (r : Z)
| EKill (target : Z) (sig : signal_t)
| ETcgetattr (fd : Z).

Record state : Type := mkState {
  (* globals of shell.c *)
  num_bprocesses : Z;
  shell_is_interactive : bool;
  shell_terminal : Z;
  shell_pgid : Z;
  shell_tmodes : option ofile;
  (* the process as the kernel sees it *)
  pid : Z;
  pgrp : Z;
  cwd : string;
  fds : list (option ofile);
  children : list Z;
  errno : Z;
  (* history of calls *)
  trace : list event
}.

Definition set_num_bprocesses (v : Z) (s : state) : state :=
  mkState v (shell_is_interactive s) (shell_terminal s) (shell_pgid s)
    (shell_tmodes s) (pid s) (pgrp s) (cwd s) (fds s) (children s) (errno s)
    (trace s).

Definition set_shell_is_interactive (v : bool) (s : state) : state :=
  mkState (num_bprocesses s) v (shell_terminal s) (shell_pgid s)
    (shell_tmodes s) (pid s) (pgrp s) (cwd s) (fds s) (children s) (errno s)
    (trace s).

Definition set_shell_terminal (v : Z) (s : state) : state :=
  mkState (num_bprocesses s) (shell_is_interactive s) v (shell_pgid s)
    (shell_tmodes s) (pid s) (pgrp s) (cwd s) (fds s) (children s) (errno s)
    (trace s).

Definition set_shell_pgid (v : Z) (s : state) : state :=
  mkState (num_bprocesses s) (shell_is_interactive s) (shell_terminal s) v
    (shell_tmodes s) (pid s) (pgrp s) (cwd s) (fds s) (children s) (errno s)
    (trace s).

Definition set_shell_tmodes (v : option ofile) (s : state) : state :=
  mkState (num_bprocesses s) (shell_is_interactive s) (shell_terminal s)
    (shell_pgid s) v (pid s) (pgrp s) (cwd s) (fds s) (children s) (errno s)
    (trace s).

Definition set_pid (v : Z) (s : state) : state :=
  mkState (num_bprocesses s) (shell_is_interactive s) (shell_terminal s)
    (shell_pgid s) (shell_tmodes s) v (pgrp s) (cwd s) (fds s) (children s)
    (errno s) (trace s).

Definition set_pgrp (v : Z) (s : state) : state :=
  mkState (num_bprocesses s) (shell_is_interactive s) (shell_terminal s)
    (shell_pgid s) (shell_tmodes s) (pid s) v (cwd s) (fds s) (children s)
    (errno s) (trace s).

Definition set_cwd (v : string) (s : state) : state :=
  mkState (num_bprocesses s) (shell_is_interactive s) (shell_terminal s)
    (shell_pgid s) (shell_tmodes s) (pid s) (pgrp s) v (fds s) (children s)
    (errno s) (trace s).

Definition set_fds (v : list (option ofile)) (s : state) : state :=
  mkState (num_bprocesses s) (shell_is_interactive s) (shell_terminal s)
    (shell_pgid s) (shell_tmodes s) (pid s) (pgrp s) (cwd s) v (children s)
    (errno s) (trace s).

Definition set_children (v : list Z) (s : state) : state :=
  mkState (num_bprocesses s) (shell_is_interactive s) (shell_terminal s)
    (shell_pgid s) (shell_tmodes s) (pid s) (pgrp s) (cwd s) (fds s) v
    (errno s) (trace s).

Definition set_errno (v : Z) (s : state) : state :=
  mkState (num_bprocesses s) (shell_is_interactive s) (shell_terminal s)
    (shell_pgid s) (shell_tmodes s) (pid s) (pgrp s) (cwd s) (fds s)
    (children s) v (trace s).

Definition log_event (e : event) (s : state) : state :=
  mkState (num_bprocesses s) (shell_is_interactive s) (shell_terminal s)
    (shell_pgid s) (shell_tmodes s) (pid s) (pgrp s) (cwd s) (fds s)
    (children s) (errno s) (trace s ++ [e]).

(** What the environment decides. *)
Record World : Type := mkWorld {
  executable : string -> bool;        (* execv on this path succeeds *)
  exec_errno : string -> Z;           (* errno of a failed execv *)
  env_PATH : option string;           (* getenv("PATH") *)
  fopen_errno : string -> string -> option Z; (* None: the open succeeds *)
  resolve_dir : string -> string -> option string; (* cwd, path: the new cwd *)
  chdir_errno : string -> string -> Z;
  getcwd_errno : string -> option Z;  (* None: getcwd succeeds *)
  pick_child : list Z -> nat;         (* which child changes state first *)
  strerror : Z -> string;
  is_tty : ofile -> bool;
  tcgetpgrp_answers : list Z;         (* successive foreground groups at startup *)
  fd_room : nat      (* descriptors the process may have beyond 0, 1 and 2 *)
}.

(** The limit on the number of a descriptor (RLIMIT_NOFILE): descriptors
    are numbered below it. *)
Definition open_max (w : World) : nat := 3 + fd_room w.

(** What [fork] turns out to be for the process that is followed. *)
Inductive fork_outcome : Type :=
| ForkFailed (e : Z)
| ForkChild (newpid : positive)
| ForkParent (child : positive).

(** ** The monad *)

Inductive halt_reason : Type :=
| Replaced (path : string) (argv : list (option string)) (* execv succeeded *)
| Exited (code : Z)                                      (* exit(code) *)
| Undefined (what : string)     (* no defined behaviour in C: a crash *)
| Suspended.                    (* stopped and never continued *)

Inductive outcome (A : Type) : Type :=
| Ret (a : A) (s : state)
| Halt (h : halt_reason) (s : state).
Arguments Ret {A} a s.
Arguments Halt {A} h s.

Definition M (A : Type) : Type := state -> outcome A.

Definition ret {A} (a : A) : M A := fun s => Ret a s.

Definition bind {A B} (m : M A) (f : A -> M B) : M B :=
  fun s =>
    match m s with
    | Ret a s' => f a s'
    | Halt h s' => Halt h s'
    end.

Definition halt {A} (h : halt_reason) : M A := fun s => Halt h s.

Definition gets {A} (f : state -> A) : M A := fun s => Ret (f s) s.

Definition modify (f : state -> state) : M unit := fun s => Ret tt (f s).

Declare Scope shell_scope.
Delimit Scope shell_scope with shell.
Notation "x <- c1 ;; c2" := (bind c1 (fun x => c2))
  (at level 100, c1 at next level, right associativity) : shell_scope.
Notation "c1 ;; c2" := (bind c1 (fun _ => c2))
  (at level 100, right associativity) : shell_scope.
Open Scope shell_scope.

(** The state in which a computation ends, whichever way it ends. *)
Definition final {A} (o : outcome A) : state :=
  match o with
  | Ret _ s => s
  | Halt _ s => s
  end.

Definition returns {A} (o : outcome A) : bool :=
  match o with
  | Ret _ _ => true
  | Halt _ _ => false
  end.

(** ** The descriptor table *)

Definition fd_lookup (t : list (option ofile)) (fd : Z) : option ofile :=
  if fd <? 0 then None
  else match t !! Z.to_nat fd with
       | Some (Some f) => Some f
       | _ => None
       end.

(** The lowest-numbered unused descriptor receives [x].  The callers,
    [fopen] and [dup], compare its number with the limit of the process. *)
Fixpoint fd_alloc (x : ofile) (t : list (option ofile))
  : nat * list (option ofile) :=
  match t with
  | [] => (0%nat, [Some x])
  | None :: t' => (0%nat, Some x :: t')
  | Some y :: t' => let '(i, t'') := fd_alloc x t' in (S i, Some y :: t'')
  end.

(** Descriptor [fd] is made to refer to [x], whatever it referred to. *)
Definition fd_install (fd : nat) (x : ofile) (t : list (option ofile))
  : list (option ofile) :=
  if (fd <? length t)%nat then <[fd := Some x]> t
  else t ++ replicate (fd - length t) None ++ [Some x].

(** ** System calls and library functions *)

Section Shell.

Variable w : World.

(** [fprintf(stdout, ...)] and [printf]: the call is recorded with the file
    descriptor 1 refers to when it is made.  When [stdout] is a terminal
    the stream is line-buffered and a text ending in a newline is written
    there during the call; otherwise the bytes stay in the buffer of the
    stream and are written to what descriptor 1 refers to when the buffer
    is flushed. *)
Definition fprintf_stdout (text : string) : M unit :=
  modify (fun s => log_event (EWrite (fd_lookup (fds s) 1) text) s).

Definition getpid : M Z := gets pid.

Definition getpgrp : M Z := gets pgrp.

Definition setpgid (p g : Z) : M unit :=
  modify (fun s =>
    log_event (ESetpgid p g) (if p =? pid s then set_pgrp g s else s)).

(** The disposition of SIGKILL cannot be changed: the call fails with
    EINVAL.  The shell never looks at the result. *)
Definition signal (sig : signal_t) (h : handler_t) : M unit :=
  modify (fun s =>
    log_event (ESignal sig h)
      (match sig with
       | SIGKILL => set_errno EINVAL s
       | _ => s
       end)).

(** [execv] returns only when it fails. *)
Definition execv (path : string) (argv : list (option string)) : M Z :=
  fun s =>
    let s1 := log_event (EExecv path argv) s in
    if executable w path then Halt (Replaced path argv) s1
    else Ret (-1) (set_errno (exec_errno w path) s1).

Definition fork (fk : fork_outcome) : M Z :=
  fun s =>
    match fk with
    | ForkFailed e => Ret (-1) (log_event (EFork (-1)) (set_errno e s))
    | ForkChild newpid =>
        Ret 0 (log_event (EFork 0) (set_children [] (set_pid (Z.pos newpid) s)))
    | ForkParent c =>
        Ret (Z.pos c)
          (log_event (EFork (Z.pos c)) (set_children (children s ++ [Z.pos c]) s))
    end.

(** [wait(NULL)]: returns when any child has changed state, and reaps it;
    the environment decides which one.  Without children it fails at once. *)
Definition wait : M Z :=
  fun s =>
    match children s with
    | [] => Ret (-1) (log_event (EWait (-1)) (set_errno ECHILD s))
    | c0 :: _ =>
        let c := nth (pick_child w (children s) mod length (children s))%nat
                   (children s) c0 in
        Ret c (log_event (EWait c) (set_children (remove Z.eq_dec c (children s)) s))
    end.

Definition tcsetpgrp (fd pg : Z) : M unit :=
  modify (log_event (ETcsetpgrp fd pg)).

Definition kill (target : Z) (sig : signal_t) : M unit :=
  modify (log_event (EKill target sig)).

Definition isatty (fd : Z) : M bool :=
  gets (fun s =>
    match fd_lookup (fds s) fd with
    | Some f => is_tty w f
    | None => false
    end).

Definition tcgetattr_shell_tmodes (fd : Z) : M unit :=
  modify (fun s =>
    log_event (ETcgetattr fd) (set_shell_tmodes (fd_lookup (fds s) fd) s)).

Definition chdir (path : option string) : M Z :=
  fun s =>
    match path with
    | None => Ret (-1) (log_event (EChdir None (-1)) (set_errno EFAULT s))
    | Some p =>
        match resolve_dir w (cwd s) p with
        | Some d => Ret 0 (log_event (EChdir path 0) (set_cwd d s))
        | None =>
            Ret (-1)
              (log_event (EChdir path (-1)) (set_errno (chdir_errno w (cwd s) p) s))
        end
    end.

Definition getcwd : M (option string) :=
  fun s =>
    match getcwd_errno w (cwd s) with
    | None => Ret (Some (cwd s)) s
    | Some e => Ret None (set_errno e s)
    end.

(** A [FILE*] is modelled by the descriptor behind it; [None] is NULL.
    The open fails with EMFILE when no descriptor below the limit is
    unused. *)
Definition fopen (name : option string) (mode : string) : M (option nat) :=
  fun s =>
    match name with
    | None => Ret None (log_event (EFopen None mode None) (set_errno EFAULT s))
    | Some n =>
        match fopen_errno w n mode with
        | Some e => Ret None (log_event (EFopen name mode None) (set_errno e s))
        | None =>
            let '(fd, t) := fd_alloc (Opened n mode) (fds s) in
            if (fd <? open_max w)%nat then
              Ret (Some fd) (log_event (EFopen name mode (Some fd)) (set_fds t s))
            else
              Ret None (log_event (EFopen name mode None) (set_errno EMFILE s))
        end
    end.

(** [fileno] reads a field of the stream it is given. *)
Definition fileno (file : option nat) : M Z :=
  match file with
  | None => halt (Undefined "fileno(NULL)")
  | Some fd => ret (Z.of_nat fd)
  end.

(** [dup] fails with EBADF on a descriptor that is not open and with
    EMFILE when no descriptor below the limit is unused. *)
Definition dup (fd : Z) : M Z :=
  fun s =>
    match fd_lookup (fds s) fd with
    | None => Ret (-1) (log_event (EDup fd (-1)) (set_errno EBADF s))
    | Some x =>
        let '(n, t) := fd_alloc x (fds s) in
        if (n <? open_max w)%nat then
          Ret (Z.of_nat n) (log_event (EDup fd (Z.of_nat n)) (set_fds t s))
        else
          Ret (-1) (log_event (EDup fd (-1)) (set_errno EMFILE s))
    end.

(** [dup2] onto descriptor 0 or 1, the only targets in this program; both
    are below the limit. *)
Definition dup2 (oldfd newfd : Z) : M Z :=
  fun s =>
    match fd_lookup (fds s) oldfd with
    | None => Ret (-1) (log_event (EDup2 oldfd newfd (-1)) (set_errno EBADF s))
    | Some x =>
        if newfd <? 0 then
          Ret (-1) (log_event (EDup2 oldfd newfd (-1)) (set_errno EBADF s))
        else if oldfd =? newfd then
          Ret newfd (log_event (EDup2 oldfd newfd newfd) s)
        else
          Ret newfd
            (log_event (EDup2 oldfd newfd newfd)
               (set_fds (fd_install (Z.to_nat newfd) x (fds s)) s))
    end.

Definition exit {A} (code : Z) : M A := halt (Exited code).

(** [n++] on an [int]. *)
Definition int_incr (n : Z) : M Z := ret (int_succ n).

(** A string function handed a null pointer. *)
Definition deref (what : string) (p : option string) : M string :=
  match p with
  | Some str => ret str
  | None => halt (Undefined what)
  end.

(** ** shell.c *)

(** The handlers a [fun_desc_t] can point to. *)
Inductive cmd_fun_t : Type :=
| fn_cmd_help | fn_cmd_exit | fn_cmd_pwd | fn_cmd_cd | fn_cmd_wait.

Record fun_desc_t : Type := mkFunDesc {
  fun_ : cmd_fun_t;
  cmd : string;
  doc : string
}.

Definition cmd_table : list fun_desc_t :=
  [ mkFunDesc fn_cmd_help "?" "show this help menu";
    mkFunDesc fn_cmd_exit "exit" "exit the command shell";
    mkFunDesc fn_cmd_pwd "pwd" "prints current working directory";
    mkFunDesc fn_cmd_cd "cd" "changes current working directory";
    mkFunDesc fn_cmd_wait "wait" "waits for all processes in background to finish" ].

(** [printf("%s - %s\n", ...)] for each entry from index [i] on. *)
Fixpoint cmd_help_loop (table : list fun_desc_t) : M unit :=
  match table with
  | [] => ret tt
  | d :: rest =>
      fprintf_stdout (cmd d +:+ " - " +:+ doc d +:+ nl) ;;
      cmd_help_loop rest
  end.

Definition cmd_help (tokens : list string) : M Z :=
  cmd_help_loop cmd_table ;;
  ret 1.

Definition cmd_exit (tokens : list string) : M Z :=
  exit 0.

Definition cmd_pwd (tokens : list string) : M Z :=
  buf <- getcwd ;;
  match buf with
  | Some dir => fprintf_stdout (dir +:+ nl)
  | None =>
      e <- gets errno ;;
      fprintf_stdout ("getcwd error: " +:+ strerror w e +:+ nl)
  end ;;
  ret 1.

Definition cmd_cd (tokens : list string) : M Z :=
  let line_size := tokens_get_length tokens in
  if line_size =? 1 then
    fprintf_stdout ("cd error: no arguments" +:+ nl) ;;
    ret 0
  else
    let path := tokens_get_token tokens 1 in
    r <- chdir path ;;
    (if r =? -1 then
       e <- gets errno ;;
       fprintf_stdout ("chdir error: " +:+ strerror w e +:+ nl)
     else ret tt) ;;
    ret 1.

(** One pass through the body of the loop of [cmd_wait]:
    [wait(NULL); num_bprocesses--;] *)
Definition cmd_wait_body : M unit :=
  wait ;;
  modify (fun s => set_num_bprocesses (num_bprocesses s - 1) s).

Definition inspect {A} (a : A) : {b : A | a = b} := exist _ a eq_refl.

(** [while (num_bprocesses > 0) { ... }] *)
Equations? cmd_wait_loop (s : state) : outcome unit
  by wf (Z.to_nat (num_bprocesses s)) lt :=
  cmd_wait_loop s with inspect (0 <? num_bprocesses s) => {
    | exist _ false _ := Ret tt s;
    | exist _ true e with inspect (cmd_wait_body s) => {
        | exist _ (Halt h s') _ := Halt h s';
        | exist _ (Ret _ s') e' := cmd_wait_loop s' } }.
Proof.
  apply Z.ltb_lt in e.
  unfold cmd_wait_body, bind, modify, wait in e'.
  destruct (children s); inversion e'; subst; simpl; lia.
Qed.

Definition cmd_wait (tokens : list string) : M Z :=
  cmd_wait_loop ;;
  ret 1.

(** The [while (tokens != NULL)] loop of [exec_func].  [tokens] is the
    directory [strtok] returned last and [save] the position it saved. *)
Equations? path_loop (path : string) (argv : list (option string))
    (tokens : option string) (save : string) (s : state) : outcome unit
  by wf (match tokens with Some _ => S (String.length save) | None => 0%nat end) lt :=
  path_loop path argv None save s := Ret tt s;
  path_loop path argv (Some dir) save s
    with inspect (execv ((dir +:+ "/") +:+ path) argv s) => {
    | exist _ (Halt h s') _ := Halt h s';
    | exist _ (Ret _ s') _ with inspect (strtok_r ":" save) => {
        | exist _ (tokens', save') e := path_loop path argv tokens' save' s' } }.
Proof.
  destruct tokens' as [d|]; [|lia].
  assert (String.length save' < String.length save)%nat; [|lia].
  clear -e. symmetry in e. revert e.
  unfold strtok_r.
  assert (Hskip : forall t, (String.length (strspn_skip ":" t) <= String.length t)%nat).
  { induction t as [|c t IH]; simpl; [lia|].
    destruct (is_delim ":" c); simpl; lia. }
  assert (Hsplit : forall t tok rest,
             strcspn_split ":" t = (tok, Some rest) ->
             (String.length rest < String.length t)%nat).
  { induction t as [|c t IH]; simpl; intros tok rest H; [discriminate|].
    destruct (is_delim ":" c).
    - inversion H; subst; lia.
    - destruct (strcspn_split ":" t) as [t0 r0]. inversion H; subst.
      specialize (IH _ _ eq_refl). lia. }
  specialize (Hskip save).
  destruct (strspn_skip ":" save) as [|c s1]; [discriminate|].
  destruct (strcspn_split ":" (String c s1)) as [t0 [r0|]] eqn:E2;
    intros H; inversion H; subst.
  - apply Hsplit in E2. lia.
  - simpl in *. lia.
Qed.

(** The argument vector: [argv[i] = tokens_get_token(tokens, i)] for
    [i < arg_len], then [argv[arg_len] = NULL]. *)
Definition build_argv (tokens : list string) (arg_len : Z) : list (option string) :=
  map (fun i => tokens_get_token tokens (Z.of_nat i)) (seq 0 (Z.to_nat arg_len))
  ++ [None].

(** [p != NULL && strcmp(p, lit) == 0] *)
Definition is_str (p : option string) (lit : string) : bool :=
  match p with
  | Some str => strcmp str lit =? 0
  | None => false
  end.

Definition exec_func (fk : fork_outcome) (tokens : list string)
    (redirect_check : option string) (run_in_fg : Z) : M Z :=
  pid <- fork fk ;;
  if pid =? -1 then
    fprintf_stdout ("fork error" +:+ nl) ;;
    ret 0
  else if pid =? 0 then
    g_pid <- getpid ;;
    setpgid g_pid g_pid ;;
    signal SIGINT SIG_DFL ;;
    signal SIGQUIT SIG_DFL ;;
    signal SIGKILL SIG_DFL ;;
    signal SIGTERM SIG_DFL ;;
    signal SIGTSTP SIG_DFL ;;
    signal SIGCONT SIG_DFL ;;
    signal SIGTTIN SIG_DFL ;;
    signal SIGTTOU SIG_DFL ;;
    let arg_len := tokens_get_length tokens in
    let arg_len :=
      if is_str redirect_check ">" || is_str redirect_check "<"
      then size_sub arg_len 2 else arg_len in
    path <- deref "strncpy(temp, NULL, 1)" (tokens_get_token tokens 0) ;;
    let argv := build_argv tokens arg_len in
    let temp := strncpy1 path in
    (if strcmp temp "/" =? 0 then
       r <- execv path argv ;;
       if r =? -1 then
         e <- gets errno ;;
         fprintf_stdout ("execv error: " +:+ strerror w e +:+ nl)
       else ret tt
     else
       env_path <- deref "strtok(NULL, ...) with no saved string" (env_PATH w) ;;
       let '(tokens, save) := strtok_r ":" env_path in
       path_loop path argv tokens save ;;
       e <- gets errno ;;
       fprintf_stdout ("execv error: " +:+ strerror w e +:+ nl)) ;;
    ret 1
  else
    (if negb (run_in_fg =? 0) then
       tcsetpgrp 0 pid ;;
       wait ;;
       self <- getpid ;;
       tcsetpgrp 0 self
     else
       n <- gets num_bprocesses ;;
       n' <- int_incr n ;;
       modify (set_num_bprocesses n')) ;;
    ret 1.

(** [for (i = 0; i < 5; i++) if (cmd && strcmp(cmd_table[i].cmd, cmd) == 0)
    return i;] over the entries from index [i] on, then [return -1]. *)
Fixpoint lookup_from (i : Z) (table : list fun_desc_t) (c : option string) : Z :=
  match table with
  | [] => -1
  | d :: rest =>
      if match c with
         | Some str => strcmp (cmd d) str =? 0
         | None => false
         end
      then i
      else lookup_from (i + 1) rest c
  end.

Definition lookup (c : option string) : Z := lookup_from 0 cmd_table c.

(** The shell waits, stopped, until it is the foreground group:
    [while (tcgetpgrp(shell_terminal) != (shell_pgid = getpgrp()))
       kill(-shell_pgid, SIGTTIN);]
    [answers] are the foreground groups the terminal reports from now on. *)
Fixpoint init_shell_loop (answers : list Z) : M unit :=
  match answers with
  | [] => halt Suspended
  | fg :: rest =>
      g <- getpgrp ;;
      modify (set_shell_pgid g) ;;
      if negb (fg =? g) then
        kill (- g) SIGTTIN ;;
        init_shell_loop rest
      else ret tt
  end.

Definition init_shell : M unit :=
  modify (set_shell_terminal 0) ;;
  term <- gets shell_terminal ;;
  tty <- isatty term ;;
  modify (set_shell_is_interactive tty) ;;
  (if tty then
     init_shell_loop (tcgetpgrp_answers w) ;;
     self <- getpid ;;
     modify (set_shell_pgid self) ;;
     tcsetpgrp term self ;;
     tcgetattr_shell_tmodes term
   else ret tt) ;;
  modify (set_num_bprocesses 0).

(** Calling through the function pointer of a table entry. *)
Definition call (f : cmd_fun_t) (tokens : list string) : M Z :=
  match f with
  | fn_cmd_help => cmd_help tokens
  | fn_cmd_exit => cmd_exit tokens
  | fn_cmd_pwd => cmd_pwd tokens
  | fn_cmd_cd => cmd_cd tokens
  | fn_cmd_wait => cmd_wait tokens
  end.

(** [main], lines 250-259: run the builtin, or launch a program. *)
Definition dispatch (fk : fork_outcome) (tokens : list string)
    (redirect_check : option string) (run_in_fg : Z) : M Z :=
  let fundex := lookup (tokens_get_token tokens 0) in
  if 0 <=? fundex then
    match cmd_table !! Z.to_nat fundex with
    | Some d => call (fun_ d) tokens
    | None => halt (Undefined "cmd_table index out of range")
    end
  else
    exec_func fk tokens redirect_check run_in_fg.

(** [main], lines 235-248: the two redirection blocks.  The result is the
    pair of the locals [std_out] and [std_in]. *)
Definition redirect (tokens : list string) (redirect_check : option string)
  : M (Z * Z) :=
  let line_size := tokens_get_length tokens in
  std_out <-
    (if is_str redirect_check ">" then
       let file_name := tokens_get_token tokens (size_sub line_size 1) in
       file <- fopen file_name "w" ;;
       saved <- dup 1 ;;
       fd <- fileno file ;;
       dup2 fd 1 ;;
       ret saved
     else ret 1) ;;
  std_in <-
    (if is_str redirect_check "<" then
       let file_name := tokens_get_token tokens (size_sub line_size 1) in
       file <- fopen file_name "r" ;;
       saved <- dup 0 ;;
       fd <- fileno file ;;
       dup2 fd 0 ;;
       ret saved
     else ret 0) ;;
  ret (std_out, std_in).

(** The body of the [while (fgets(...))] loop of [main] for one line that
    the tokenizer split into [tokens].  [line_num] is the local of [main];
    its new value is returned. *)
Definition main_loop_body (fk : fork_outcome) (tokens : list string)
    (line_num : Z) : M Z :=
  signal SIGINT SIG_IGN ;;
  signal SIGQUIT SIG_IGN ;;
  signal SIGKILL SIG_IGN ;;
  signal SIGTERM SIG_IGN ;;
  signal SIGTSTP SIG_IGN ;;
  signal SIGCONT SIG_IGN ;;
  signal SIGTTIN SIG_IGN ;;
  signal SIGTTOU SIG_IGN ;;
  let line_size := tokens_get_length tokens in
  let redirect_check := tokens_get_token tokens (size_sub line_size 2) in
  let background_check := tokens_get_token tokens (size_sub line_size 1) in
  bg <- deref "strcmp(NULL, ...)" background_check ;;
  let run_in_fg := strcmp bg "&" in
  saved <- redirect tokens redirect_check ;;
  let std_out := fst saved in
  let std_in := snd saved in
  dispatch fk tokens redirect_check run_in_fg ;;
  dup2 std_out 1 ;;
  dup2 std_in 0 ;;
  interactive <- gets shell_is_interactive ;;
  if interactive then
    n <- int_incr line_num ;;
    fprintf_stdout (pretty n +:+ ": ") ;;
    ret n
  else ret line_num.

(** The read loop over the lines that [fgets] delivers, each with what
    [fork] does if that line calls it. *)
Fixpoint main_loop (lines : list (list string * fork_outcome)) (line_num : Z)
  : M Z :=
  match lines with
  | [] => ret 0
  | (tokens, fk) :: rest =>
      line_num' <- main_loop_body fk tokens line_num ;;
      main_loop rest line_num'
  end.

Definition main (lines : list (list string * fork_outcome)) : M Z :=
  init_shell ;;
  let line_num := 0 in
  interactive <- gets shell_is_interactive ;;
  (if interactive then fprintf_stdout (pretty line_num +:+ ": ") else ret tt) ;;
  main_loop lines line_num.

End Shell.

(** ** Notions used to state the properties *)

(** A command name that begins with the path separator. *)
Definition is_absolute (name : string) : bool :=
  match name with
  | String c _ => Ascii.eqb c "/"
  | EmptyString => false
  end.

(** Splitting a string on [':'], every field kept. *)
Fixpoint split_colon (s : string) : list string :=
  match s with
  | EmptyString => [EmptyString]
  | String c s' =>
      if is_delim ":" c then EmptyString :: split_colon s'
      else match split_colon s' with
           | [] => [String c EmptyString]
           | f :: fs => String c f :: fs
           end
  end.

Definition nonempty (s : string) : bool :=
  match s with
  | EmptyString => false
  | String _ _ => true
  end.

(** The directories [strtok] finds in a PATH value: its fields, left to
    right, without the fields of length zero. *)
Definition path_dirs (p : string) : list string :=
  List.filter nonempty (split_colon p).

(** The candidate paths for a command name, in the order of the PATH. *)
Definition path_candidates (p name : string) : list string :=
  map (fun dir => (dir +:+ "/") +:+ name) (path_dirs p).

(** The candidates when every field of PATH counts as a directory, as
    "split on [':']" reads: for ":/bin" and [ls] they are [/ls] and
    [/bin/ls]. *)
Definition split_candidates (p name : string) : list string :=
  map (fun dir => (dir +:+ "/") +:+ name) (split_colon p).

(** The candidates that are tried when trying stops at the first success. *)
Fixpoint attempted_until (ok : string -> bool) (cands : list string) : list string :=
  match cands with
  | [] => []
  | c :: rest => c :: (if ok c then [] else attempted_until ok rest)
  end.


(** What the child has done when it reaches the search for the executable. *)
Definition child_prologue (p : Z) : list event :=
  [ EFork 0; ESetpgid p p;
    ESignal SIGINT SIG_DFL; ESignal SIGQUIT SIG_DFL; ESignal SIGKILL SIG_DFL;
    ESignal SIGTERM SIG_DFL; ESignal SIGTSTP SIG_DFL; ESignal SIGCONT SIG_DFL;
    ESignal SIGTTIN SIG_DFL; ESignal SIGTTOU SIG_DFL ].


Definition is_write (e : event) : bool :=
  match e with
  | EWrite _ _ => true
  | _ => false
  end.

(** A computation leaves a component of the state as it found it, however
    it ends. *)
Definition preserves {A T} (f : state -> T) (m : M A) : Prop :=
  forall s, f (final (m s)) = f s.

(** ** The child's search, restated over a list *)

(** The argument count [exec_func] arrives at. *)
Definition argv_len (tokens : list string) (redirect_check : option string) : Z :=
  if is_str redirect_check ">" || is_str redirect_check "<"
  then size_sub (tokens_get_length tokens) 2
  else tokens_get_length tokens.

(** The state of the child when it has set its process group and signal
    dispositions. *)
Definition child_start (w : World) (p : positive) (s : state) : state :=
  final ((fork (ForkChild p) ;;
          g_pid <- getpid ;;
          setpgid g_pid g_pid ;;
          signal SIGINT SIG_DFL ;;
          signal SIGQUIT SIG_DFL ;;
          signal SIGKILL SIG_DFL ;;
          signal SIGTERM SIG_DFL ;;
          signal SIGTSTP SIG_DFL ;;
          signal SIGCONT SIG_DFL ;;
          signal SIGTTIN SIG_DFL ;;
          signal SIGTTOU SIG_DFL) s).

(** [execv] on each path of a list in turn. *)
Fixpoint try_all (w : World) (argv : list (option string)) (cands : list string)
    (s : state) : outcome unit :=
  match cands with
  | [] => Ret tt s
  | c :: rest =>
      match execv w c argv s with
      | Halt h s' => Halt h s'
      | Ret _ s' => try_all w argv rest s'
      end
  end.

(** [fprintf(stdout, "execv error: %s\n", strerror(errno))] *)
Definition report_exec_failure (w : World) (s : state) : state :=
  log_event
    (EWrite (fd_lookup (fds s) 1) ("execv error: " +:+ strerror w (errno s) +:+ nl)) s.

(** The paths [exec_func] hands to [execv] for a command name; none when
    the name is relative and PATH is not set. *)
Definition search_candidates (w : World) (name : string) : option (list string) :=
  if is_absolute name then Some [name]
  else match env_PATH w with
       | Some p => Some (path_candidates p name)
       | None => None
       end.

(** [run], the child's side of [exec_func], tried the candidates [cands] in
    order: the calls of [execv] stop at the first that succeeds, which
    replaces the process image; when none succeeds the failure is written
    once, with the text of the last error, and the function returns. *)
Definition tries_in_order (w : World) (argv : list (option string))
    (cands : list string) (p : positive) (s : state) (run : outcome Z) : Prop :=
  trace (final run) =
    trace s ++ child_prologue (Z.pos p)
      ++ map (fun c => EExecv c argv) (attempted_until (executable w) cands)
      ++ (if existsb (executable w) cands then []
          else [EWrite (fd_lookup (fds s) 1)
                  ("execv error: " +:+ strerror w (errno (final run)) +:+ nl)])
  /\ match List.find (executable w) cands with
     | Some c => exists s', run = Halt (Replaced c argv) s'
     | None =>
         exists s', run = Ret 1 s'
                    /\ errno s' = List.last (EINVAL :: map (exec_errno w) cands) 0
     end.

(** ** Foreground waiting, as the spec words it *)


(** ** Pre- and postconditions *)

(** From a state that satisfies [P], the computation [m] returns in a
    state that satisfies [Q], or halts in one that satisfies [E]. *)
Definition triple {A} (P : state -> Prop) (m : M A)
    (Q : A -> state -> Prop) (E : halt_reason -> state -> Prop) : Prop :=
  forall s, P s ->
    match m s with
    | Ret a s' => Q a s'
    | Halt h s' => E h s'
    end.

Definition never : halt_reason -> state -> Prop := fun _ _ => False.

(** The counter is zero when the computation returns, and untouched when
    it halts. *)
Definition counter_reset {A} (s : state) (o : outcome A) : Prop :=
  match o with
  | Ret _ s' => num_bprocesses s' = 0
  | Halt _ s' => num_bprocesses s' = num_bprocesses s
  end.

(** After the redirection blocks the saved descriptors refer to the files
    that descriptors 1 and 0 referred to, and restoring one does not
    disturb the other. *)
Definition saved_ok (o0 o1 : ofile) (saved : Z * Z) (t : list (option ofile)) : Prop :=
  fd_lookup t (fst saved) = Some o1
  /\ fd_lookup t (snd saved) = Some o0
  /\ (fst saved = 1 \/ snd saved <> 1)
  /\ is_Some (fd_lookup t 0)
  /\ is_Some (fd_lookup t 1).

(** ** A sample environment *)

Module Sample.

(** A file system with [/bin/ls] and [/bin/sleep], a directory [/tmp],
    and no directory [/nonexistent]; at most 1024 open descriptors. *)
Definition world : World :=
  mkWorld
    (fun p => String.eqb p "/bin/ls" || String.eqb p "/bin/sleep")
    (fun _ => 2)
    (Some "/usr/bin:/bin")
    (fun name _ => if String.prefix "/nonexistent/" name then Some 2 else None)
    (fun _ p => if String.eqb p "/tmp" then Some "/tmp" else None)
    (fun _ _ => 2)
    (fun _ => None)
    (fun _ => 0%nat)
    (fun e => if e =? 2 then "No such file or directory" else "Invalid argument")
    (fun f => match f with Inherited _ => true | Opened _ _ => false end)
    [100]
    1021.

(** The shell, process 100, after [init_shell] on a terminal. *)
Definition shell : state :=
  mkState 0 true 0 100 (Some (Inherited 0)) 100 100 "/home"
    [Some (Inherited 0); Some (Inherited 1); Some (Inherited 2)] [] 0 [].

(** The same shell with one background job, process 5, outstanding. *)
Definition shell_with_job : state :=
  set_children [5] (set_num_bprocesses 1 shell).

End Sample.

(** ** Notions for the further properties *)

(** The lines [cmd_help] prints for a table. *)
Definition help_lines (table : list fun_desc_t) : list string :=
  map (fun d => cmd d +:+ " - " +:+ doc d +:+ nl) table.

(** The number of descriptors in use. *)
Fixpoint open_count (t : list (option ofile)) : nat :=
  match t with
  | [] => 0%nat
  | Some _ :: t' => S (open_count t')
  | None :: t' => open_count t'
  end.

(** Every way the computation can halt satisfies [P]. *)
Definition halts_only {A} (P : halt_reason -> Prop) (m : M A) : Prop :=
  forall s h s', m s = Halt h s' -> P h.

(** An exit status, if the process exits, is zero. *)
Definition exits_zero (h : halt_reason) : Prop :=
  match h with
  | Exited code => code = 0
  | _ => True
  end.

(** The signals [main] ignores before each line, in the order of the calls. *)
Definition ignored_signals : list event :=
  [ ESignal SIGINT SIG_IGN; ESignal SIGQUIT SIG_IGN; ESignal SIGKILL SIG_IGN;
    ESignal SIGTERM SIG_IGN; ESignal SIGTSTP SIG_IGN; ESignal SIGCONT SIG_IGN;
    ESignal SIGTTIN SIG_IGN; ESignal SIGTTOU SIG_IGN ].

(** The mode in which [main] opens the target of a redirection, and the
    descriptor it replaces. *)
Definition redirect_mode (op : string) : string :=
  if String.eqb op ">" then "w" else "r".

Definition redirect_slot (op : string) : Z :=
  if String.eqb op ">" then 1 else 0.

(** The sample environment under a limit of 16 open descriptors
    ([ulimit -n 16]). *)
Definition world_ulimit_16 : World :=
  mkWorld (executable Sample.world) (exec_errno Sample.world)
    (env_PATH Sample.world) (fopen_errno Sample.world) (resolve_dir Sample.world)
    (chdir_errno Sample.world) (getcwd_errno Sample.world)
    (pick_child Sample.world) (strerror Sample.world) (is_tty Sample.world)
    (tcgetpgrp_answers Sample.world) 13.

(** The sample environment with another value of PATH. *)
Definition with_PATH (p : option string) : World :=
  mkWorld (executable Sample.world) (exec_errno Sample.world) p
    (fopen_errno Sample.world) (resolve_dir Sample.world)
    (chdir_errno Sample.world) (getcwd_errno Sample.world)
    (pick_child Sample.world) (strerror Sample.world) (is_tty Sample.world)
    (tcgetpgrp_answers Sample.world) (fd_room Sample.world).

(** The sample environment with PATH removed from it. *)
Definition world_without_PATH : World :=
  mkWorld (executable Sample.world) (exec_errno Sample.world) None
    (fopen_errno Sample.world) (resolve_dir Sample.world)
    (chdir_errno Sample.world) (getcwd_errno Sample.world)
    (pick_child Sample.world) (strerror Sample.world) (is_tty Sample.world)
    (tcgetpgrp_answers Sample.world) (fd_room Sample.world).

(** The ways to stop that are neither [exit] nor a new program image. *)
Definition not_replaced (h : halt_reason) : Prop :=
  match h with Replaced _ _ => False | _ => True end.

Definition undefined_only (h : halt_reason) : Prop :=
  match h with Undefined _ => True | _ => False end.

(** * Properties *)

(** ** Strings *)

Lemma string_compare_refl (a : string) : String.compare a a = Eq.
Proof.
  pose proof (String.compare_antisym a a) as H.
  destruct (String.compare a a); simpl in H; congruence.
Qed.

Lemma strcmp_eqb (a b : string) : (strcmp a b =? 0) = String.eqb a b.
Proof.
  unfold strcmp. destruct (String.eqb_spec a b) as [->|Hne].
  - rewrite string_compare_refl. reflexivity.
  - destruct (String.compare a b) eqn:E; try reflexivity.
    apply String.compare_eq_iff in E. contradiction.
Qed.

Lemma strcmp_zero_iff (a b : string) : strcmp a b = 0 <-> a = b.
Proof.
  rewrite <- Z.eqb_eq, strcmp_eqb. split.
  - intros H. destruct (String.eqb_spec a b); [assumption | discriminate].
  - intros ->. apply String.eqb_refl.
Qed.

Lemma is_str_eqb (p : option string) (lit : string) :
  is_str p lit = match p with Some str => String.eqb str lit | None => false end.
Proof. destruct p; simpl; [apply strcmp_eqb | reflexivity]. Qed.

Lemma tokens_get_token_nat (tokens : list string) (i : nat) :
  tokens_get_token tokens (Z.of_nat i) = tokens !! i.
Proof.
  unfold tokens_get_token, tokens_get_length. rewrite Nat2Z.id.
  destruct (Z.leb_spec 0 (Z.of_nat i)); [|lia].
  destruct (Z.ltb_spec (Z.of_nat i) (Z.of_nat (length tokens))); cbn [andb].
  - reflexivity.
  - symmetry. apply lookup_ge_None. lia.
Qed.

Lemma strncpy1_absolute (name : string) :
  (strcmp (strncpy1 name) "/" =? 0) = is_absolute name.
Proof.
  rewrite strcmp_eqb. destruct name as [|c r]; simpl; [reflexivity|].
  destruct r; simpl; destruct (Ascii.eqb c "/"); reflexivity.
Qed.

(** ** [strtok] and the fields of a string *)

Lemma strcspn_split_colon (s tok : string) (rest : option string) :
  strcspn_split ":" s = (tok, rest) ->
  split_colon s = tok :: match rest with Some r => split_colon r | None => [] end.
Proof.
  revert tok rest. induction s as [|c s IH]; simpl; intros tok rest H.
  - inversion H; subst. reflexivity.
  - destruct (is_delim ":" c).
    + inversion H; subst. reflexivity.
    + destruct (strcspn_split ":" s) as [t r]. inversion H; subst.
      rewrite (IH t rest eq_refl). reflexivity.
Qed.

Lemma path_dirs_skip (s : string) : path_dirs (strspn_skip ":" s) = path_dirs s.
Proof.
  induction s as [|c s IH]; simpl; [reflexivity|].
  destruct (is_delim ":" c) eqn:E; [|reflexivity].
  rewrite IH. unfold path_dirs. simpl. rewrite E. reflexivity.
Qed.

Lemma strspn_skip_head (s : string) (c : ascii) (s1 : string) :
  strspn_skip ":" s = String c s1 -> is_delim ":" c = false.
Proof.
  induction s as [|a s IH]; simpl; [discriminate|].
  destruct (is_delim ":" a) eqn:E; [exact IH|].
  intros H. inversion H; subst. exact E.
Qed.

Lemma strtok_r_path_dirs (s : string) :
  path_dirs s =
  match strtok_r ":" s with
  | (None, _) => []
  | (Some dir, save) => dir :: path_dirs save
  end.
Proof.
  rewrite <- path_dirs_skip. unfold strtok_r.
  destruct (strspn_skip ":" s) as [|c s1] eqn:E; [reflexivity|].
  apply strspn_skip_head in E.
  destruct (strcspn_split ":" (String c s1)) as [tok rest] eqn:E2.
  unfold path_dirs. rewrite (strcspn_split_colon _ _ _ E2).
  simpl in E2. rewrite E in E2.
  destruct (strcspn_split ":" s1) as [t r]. inversion E2; subst.
  destruct rest; reflexivity.
Qed.

(** ** The loops, unfolded once *)

Lemma path_loop_once w path argv tokens save s :
  path_loop w path argv tokens save s =
  match tokens with
  | None => Ret tt s
  | Some dir =>
      match execv w ((dir +:+ "/") +:+ path) argv s with
      | Halt h s' => Halt h s'
      | Ret _ s' =>
          let '(tokens', save') := strtok_r ":" save in
          path_loop w path argv tokens' save' s'
      end
  end.
Proof.
  funelim (path_loop w path argv tokens save s).
  all: repeat match goal with
         | E : execv _ _ _ _ = _ |- _ => rewrite E
         | E : strtok_r _ _ = _ |- _ => rewrite E
         end; reflexivity.
Qed.

Lemma cmd_wait_loop_once w s :
  cmd_wait_loop w s =
  if 0 <? num_bprocesses s then
    match cmd_wait_body w s with
    | Ret _ s' => cmd_wait_loop w s'
    | Halt h s' => Halt h s'
    end
  else Ret tt s.
Proof.
  funelim (cmd_wait_loop w s).
  all: repeat match goal with
         | E : (0 <? _) = _ |- _ => rewrite E
         | E : cmd_wait_body _ _ = _ |- _ => rewrite E
         end; reflexivity.
Qed.

Lemma strspn_skip_length (s : string) :
  (String.length (strspn_skip ":" s) <= String.length s)%nat.
Proof.
  induction s as [|c s IH]; simpl; [lia|].
  destruct (is_delim ":" c); simpl; lia.
Qed.

Lemma strcspn_split_length (s tok rest : string) :
  strcspn_split ":" s = (tok, Some rest) ->
  (String.length rest < String.length s)%nat.
Proof.
  revert tok rest. induction s as [|c s IH]; simpl; intros tok rest H; [discriminate|].
  destruct (is_delim ":" c).
  - inversion H; subst. lia.
  - destruct (strcspn_split ":" s) as [t r]. inversion H; subst.
    specialize (IH _ _ eq_refl). lia.
Qed.

Lemma strtok_r_length (s dir save : string) :
  strtok_r ":" s = (Some dir, save) ->
  (String.length save < String.length s)%nat.
Proof.
  unfold strtok_r. pose proof (strspn_skip_length s) as Hs.
  destruct (strspn_skip ":" s) as [|c s1]; [discriminate|].
  destruct (strcspn_split ":" (String c s1)) as [t [r|]] eqn:E;
    intros H; inversion H; subst.
  - apply strcspn_split_length in E. lia.
  - simpl in Hs. simpl. lia.
Qed.

Lemma path_loop_try_all w path argv :
  forall (n : nat) save tokens s,
    (String.length save <= n)%nat ->
    path_loop w path argv tokens save s =
    try_all w argv
      (map (fun dir => (dir +:+ "/") +:+ path)
         (match tokens with Some dir => dir :: path_dirs save | None => [] end)) s.
Proof.
  induction n as [|n IH]; intros save tokens s Hlen;
    rewrite path_loop_once; destruct tokens as [dir|]; try reflexivity; simpl;
    destruct (execv w ((dir +:+ "/") +:+ path) argv s) as [r s'|h s']; try reflexivity;
    rewrite (strtok_r_path_dirs save);
    destruct (strtok_r ":" save) as [[d|] save'] eqn:E;
    try (rewrite path_loop_once; reflexivity);
    apply strtok_r_length in E.
  - lia.
  - apply IH. lia.
Qed.

Lemma path_search_try_all w path argv env_path s :
  (let '(tokens, save) := strtok_r ":" env_path in
   path_loop w path argv tokens save s) =
  try_all w argv (path_candidates env_path path) s.
Proof.
  unfold path_candidates. rewrite (strtok_r_path_dirs env_path).
  destruct (strtok_r ":" env_path) as [tokens save].
  rewrite (path_loop_try_all w path argv (String.length save)); [|lia].
  destruct tokens; reflexivity.
Qed.

Lemma child_start_facts w p s :
  trace (child_start w p s) = trace s ++ child_prologue (Z.pos p)
  /\ fds (child_start w p s) = fds s
  /\ errno (child_start w p s) = EINVAL
  /\ pid (child_start w p s) = Z.pos p
  /\ num_bprocesses (child_start w p s) = num_bprocesses s
  /\ children (child_start w p s) = [].
Proof.
  unfold child_start, bind, fork, getpid, setpgid, signal, modify, gets. simpl.
  rewrite Pos.eqb_refl. simpl. repeat rewrite <- app_assoc. simpl. repeat split.
Qed.

Lemma exec_func_child w p tokens rc fg s name cands :
  tokens_get_token tokens 0 = Some name ->
  search_candidates w name = Some cands ->
  exec_func w (ForkChild p) tokens rc fg s =
  match try_all w (build_argv tokens (argv_len tokens rc)) cands (child_start w p s) with
  | Halt h s' => Halt h s'
  | Ret _ s' => Ret 1 (report_exec_failure w s')
  end.
Proof.
  intros Htok Hc. unfold exec_func, child_start, search_candidates, argv_len in *.
  unfold bind, fork, getpid, setpgid, signal, modify, gets, ret, fprintf_stdout.
  cbn [final pid set_pid log_event set_children Z.eqb].
  rewrite Htok. unfold deref, ret. rewrite strncpy1_absolute.
  destruct (is_absolute name).
  - inversion Hc; subst. cbn [try_all]. unfold execv.
    destruct (executable w name); [reflexivity|].
    cbn [Z.eqb Z.opp]. reflexivity.
  - destruct (env_PATH w) as [env_path|]; [|discriminate]. inversion Hc; subst.
    rewrite <- path_search_try_all.
    destruct (strtok_r ":" env_path) as [t0 sv].
    match goal with
    | |- context [path_loop ?a ?b ?c ?d ?e ?f] =>
        destruct (path_loop a b c d e f); reflexivity
    end.
Qed.

(** ** What a candidate search does *)

Lemma try_all_trace w argv cands s :
  trace (final (try_all w argv cands s)) =
  trace s ++ map (fun c => EExecv c argv) (attempted_until (executable w) cands).
Proof.
  revert s. induction cands as [|c rest IH]; intros s; simpl.
  - rewrite app_nil_r. reflexivity.
  - unfold execv. destruct (executable w c); simpl.
    + reflexivity.
    + rewrite IH. simpl. rewrite <- app_assoc. reflexivity.
Qed.

Lemma try_all_fds w argv cands s :
  fds (final (try_all w argv cands s)) = fds s.
Proof.
  revert s. induction cands as [|c rest IH]; intros s; simpl; [reflexivity|].
  unfold execv. destruct (executable w c); simpl; [reflexivity|].
  rewrite IH. reflexivity.
Qed.

Lemma try_all_outcome w argv cands s :
  match List.find (executable w) cands with
  | Some c => exists s', try_all w argv cands s = Halt (Replaced c argv) s'
  | None =>
      exists s', try_all w argv cands s = Ret tt s'
                 /\ errno s' = List.last (errno s :: map (exec_errno w) cands) 0
  end.
Proof.
  revert s. induction cands as [|c rest IH]; intros s; simpl.
  - eexists; split; reflexivity.
  - unfold execv. destruct (executable w c) eqn:E.
    + eexists; reflexivity.
    + specialize (IH (set_errno (exec_errno w c) (log_event (EExecv c argv) s))).
      destruct (List.find (executable w) rest) as [c'|].
      * exact IH.
      * destruct IH as (s' & H1 & H2). exists s'. split; [exact H1|].
        rewrite H2. reflexivity.
Qed.

Lemma find_existsb {A} (f : A -> bool) (l : list A) :
  existsb f l = match List.find f l with Some _ => true | None => false end.
Proof.
  induction l as [|a l IH]; simpl; [reflexivity|].
  destruct (f a); simpl; [reflexivity | exact IH].
Qed.

Lemma exec_func_child_tries w p tokens rc fg s name cands :
  tokens_get_token tokens 0 = Some name ->
  search_candidates w name = Some cands ->
  tries_in_order w (build_argv tokens (argv_len tokens rc)) cands p s
    (exec_func w (ForkChild p) tokens rc fg s).
Proof.
  intros Htok Hc. rewrite (exec_func_child w p tokens rc fg s name cands Htok Hc).
  set (argv := build_argv tokens (argv_len tokens rc)).
  destruct (child_start_facts w p s) as (Htr & Hfd & Herr & _).
  pose proof (try_all_trace w argv cands (child_start w p s)) as Ht.
  pose proof (try_all_fds w argv cands (child_start w p s)) as Hf.
  pose proof (try_all_outcome w argv cands (child_start w p s)) as Ho.
  unfold tries_in_order. rewrite find_existsb.
  destruct (List.find (executable w) cands) as [c|].
  - destruct Ho as (s' & Hs'). rewrite Hs' in *. cbn [final] in *. split.
    + rewrite Ht, Htr, app_nil_r, <- app_assoc. reflexivity.
    + eexists; reflexivity.
  - destruct Ho as (s' & Hs' & He). rewrite Hs' in *. cbn [final] in *. split.
    + unfold report_exec_failure. cbn [trace log_event errno].
      rewrite Ht, Htr, Hf, Hfd, <- !app_assoc. reflexivity.
    + eexists; split; [reflexivity|].
      unfold report_exec_failure. cbn [errno log_event].
      rewrite He, Herr. reflexivity.
Qed.

(** C1: in the child, a command name that begins with ['/'] is handed to
    [execv] as it is and no PATH candidate is attempted; for every other
    name, when PATH is set, [execv] is attempted on directory + "/" + name
    for each field of PATH that is not empty, from left to right, until
    one succeeds, and the final error is reported when all are exhausted.
    PATH "/usr/bin:/bin" with "ls" gives /usr/bin/ls then /bin/ls. *)
Theorem C1_executable_resolution (w : World) (p : positive)
    (tokens : list string) (rc : option string) (fg : Z) (s : state)
    (name : string) :
  tokens_get_token tokens 0 = Some name ->
  let argv := build_argv tokens (argv_len tokens rc) in
  let run := exec_func w (ForkChild p) tokens rc fg s in
  (is_absolute name = true -> tries_in_order w argv [name] p s run)
  /\ (is_absolute name = false ->
      forall env_path, env_PATH w = Some env_path ->
      tries_in_order w argv
        (map (fun dir => (dir +:+ "/") +:+ name) (path_dirs env_path)) p s run)
  /\ map (fun dir => (dir +:+ "/") +:+ "ls") (path_dirs "/usr/bin:/bin")
     = ["/usr/bin/ls"; "/bin/ls"].
Proof.
  intros Htok argv run. split; [|split].
  - intros Habs. apply (exec_func_child_tries w p tokens rc fg s name); [exact Htok|].
    unfold search_candidates. rewrite Habs. reflexivity.
  - intros Habs env_path Henv.
    apply (exec_func_child_tries w p tokens rc fg s name); [exact Htok|].
    unfold search_candidates. rewrite Habs, Henv. reflexivity.
  - reflexivity.
Qed.

(** C1 at [ls], found in the second directory of the PATH, and at the
    absolute name [/bin/ls]. *)
Lemma C1_executable_resolution_witness :
  tries_in_order Sample.world [Some "ls"; None] ["/usr/bin/ls"; "/bin/ls"] 7
    Sample.shell
    (exec_func Sample.world (ForkChild 7) ["ls"] None 1 Sample.shell)
  /\ tries_in_order Sample.world [Some "/bin/ls"; None] ["/bin/ls"] 7
       Sample.shell
       (exec_func Sample.world (ForkChild 7) ["/bin/ls"] None 1 Sample.shell).
Proof.
  split.
  - exact (proj1 (proj2 (C1_executable_resolution Sample.world 7 ["ls"] None 1
                           Sample.shell "ls" eq_refl))
             eq_refl "/usr/bin:/bin" eq_refl).
  - exact (proj1 (C1_executable_resolution Sample.world 7 ["/bin/ls"] None 1
                    Sample.shell "/bin/ls" eq_refl)
             eq_refl).
Defined.

(** C1 as the claim words it fails in two ways.  With PATH ":/bin" the
    split on [':'] gives the candidates [/ls] and [/bin/ls], but the code
    never tries [/ls]: [strtok] passes over the empty field.  With PATH
    unset the child reaches [strtok] with a null pointer and stops: no
    candidate is tried and no error is reported. *)
Lemma C1_counterexample :
  let argv := [Some "ls"; None] in
  let w := with_PATH (Some ":/bin") in
  let run := exec_func w (ForkChild 7) ["ls"] None 1 Sample.shell in
  let run_unset :=
    exec_func (with_PATH None) (ForkChild 7) ["ls"] None 1 Sample.shell in
  (split_candidates ":/bin" "ls" = ["/ls"; "/bin/ls"]
   /\ ~ tries_in_order w argv (split_candidates ":/bin" "ls") 7 Sample.shell run
   /\ ~ In (EExecv "/ls" argv) (trace (final run))
   /\ trace (final run)
      = trace Sample.shell ++ child_prologue 7 ++ [EExecv "/bin/ls" argv])
  /\ (returns run_unset = false
      /\ trace (final run_unset) = trace Sample.shell ++ child_prologue 7).
Proof.
  cbv zeta.
  assert (Htrace : trace (final (exec_func (with_PATH (Some ":/bin")) (ForkChild 7)
                                   ["ls"] None 1 Sample.shell))
                   = trace Sample.shell ++ child_prologue 7
                       ++ [EExecv "/bin/ls" [Some "ls"; None]])
    by (vm_compute; reflexivity).
  split; [split; [|split; [|split]]|split].
  - reflexivity.
  - intros [Htr _]. rewrite Htrace in Htr. vm_compute in Htr. discriminate.
  - rewrite Htrace. vm_compute. intuition discriminate.
  - exact Htrace.
  - vm_compute. reflexivity.
  - vm_compute. reflexivity.
Qed.

(** C2: when the search for the executable fails, the forked child of
    [exec_func] writes the error once and then returns 1 to [main], whose
    loop goes on reading lines in the child: for the input line
    [doesnotexist123] the child, process 7, is still running the loop and
    answers the next line, [pwd], itself. *)
Theorem C2_child_returns_into_read_loop :
  let w := Sample.world in
  let run := exec_func w (ForkChild 7) ["doesnotexist123"] None 1 Sample.shell in
  let session :=
    main_loop w [(["doesnotexist123"], ForkChild 7); (["pwd"], ForkFailed 0)] 0
      Sample.shell in
  (exists s', run = Ret 1 s' /\ pid s' = 7)
  /\ List.filter is_write (trace (final run))
     = [EWrite (Some (Inherited 1))
          ("execv error: No such file or directory" +:+ nl)]
  /\ (exists n s', session = Ret n s' /\ pid s' = 7)
  /\ List.filter is_write (trace (final session))
     = [EWrite (Some (Inherited 1))
          ("execv error: No such file or directory" +:+ nl);
        EWrite (Some (Inherited 1)) "1: ";
        EWrite (Some (Inherited 1)) ("/home" +:+ nl);
        EWrite (Some (Inherited 1)) "2: "].
Proof.
  cbv zeta. split; [|split; [|split]].
  - eexists. split; [vm_compute; reflexivity | reflexivity].
  - vm_compute. reflexivity.
  - do 2 eexists. split; [vm_compute; reflexivity | reflexivity].
  - vm_compute. reflexivity.
Qed.

(** ** Components of the state that a computation leaves alone *)

Lemma final_bind {A B} (m : M A) (k : A -> M B) (s : state) :
  final (bind m k s) =
  match m s with
  | Ret a s1 => final (k a s1)
  | Halt _ s1 => s1
  end.
Proof. unfold bind. destruct (m s); reflexivity. Qed.

Lemma preserves_ret {A T} (f : state -> T) (a : A) : preserves f (ret a).
Proof. intros s. reflexivity. Qed.

Lemma preserves_halt {A T} (f : state -> T) (h : halt_reason) :
  preserves f (@halt A h).
Proof. intros s. reflexivity. Qed.

Lemma preserves_gets {A T} (f : state -> T) (g : state -> A) :
  preserves f (gets g).
Proof. intros s. reflexivity. Qed.

Lemma preserves_bind {A B T} (f : state -> T) (m : M A) (k : A -> M B) :
  preserves f m -> (forall a, preserves f (k a)) -> preserves f (bind m k).
Proof.
  intros Hm Hk s. rewrite final_bind. specialize (Hm s).
  destruct (m s) as [a s1|h s1]; simpl in Hm.
  - rewrite (Hk a s1). exact Hm.
  - exact Hm.
Qed.

(** What follows a computation cannot undo what it left unchanged. *)
Lemma final_bind_after {A B T} (f : state -> T) (m : M A) (k : A -> M B) (s : state) :
  (forall a, preserves f (k a)) ->
  f (final (bind m k s)) = f (final (m s)).
Proof.
  intros Hk. rewrite final_bind. destruct (m s) as [a s1|h s1]; simpl.
  - apply Hk.
  - reflexivity.
Qed.

(** System calls that touch neither the globals nor the descriptors. *)
Ltac case_innermost :=
  match goal with
  | |- context [match ?x with _ => _ end] =>
      lazymatch x with
      | context [match _ with _ => _ end] => fail
      | _ => destruct x
      end
  end.

Ltac prim_cases :=
  repeat (cbn; case_innermost);
  cbn; try reflexivity.

Ltac prim :=
  let s := fresh "s" in
  intros s;
  unfold fprintf_stdout, getpid, getpgrp, setpgid, signal, execv, fork, wait,
    tcsetpgrp, kill, isatty, tcgetattr_shell_tmodes, chdir, getcwd, fopen,
    fileno, dup, dup2, exit, int_incr, deref, modify, gets, ret, halt;
  prim_cases.

Ltac pres_step :=
  lazymatch goal with
  | |- preserves _ (bind _ _) => apply preserves_bind; [|intros ?]
  | |- preserves _ (ret _) => apply preserves_ret
  | |- preserves _ (halt _) => apply preserves_halt
  | |- preserves _ (gets _) => apply preserves_gets
  | |- preserves _ (if ?b then _ else _) => destruct b
  | |- preserves _ (match ?x with _ => _ end) => destruct x
  end.

Create HintDb shell_pres.

Ltac pres := repeat pres_step; try solve [prim]; auto with shell_pres.

Lemma cmd_help_loop_preserves {T} (f : state -> T) (table : list fun_desc_t) :
  (forall text, preserves f (fprintf_stdout text)) ->
  preserves f (cmd_help_loop table).
Proof.
  intros H. induction table as [|d rest IH]; simpl cmd_help_loop.
  - apply preserves_ret.
  - apply preserves_bind; [apply H | intros _; exact IH].
Qed.

Lemma try_all_preserves {T} (f : state -> T) w argv cands :
  (forall c, preserves f (execv w c argv)) ->
  preserves f (try_all w argv cands).
Proof.
  intros H. induction cands as [|c rest IH]; intros s; simpl; [reflexivity|].
  specialize (H c s). destruct (execv w c argv s) as [r s1|h s1]; simpl in H.
  - rewrite IH. exact H.
  - exact H.
Qed.

Lemma path_loop_preserves {T} (f : state -> T) w path argv tokens save :
  (forall c, preserves f (execv w c argv)) ->
  preserves f (path_loop w path argv tokens save).
Proof.
  intros H s. rewrite (path_loop_try_all w path argv (String.length save)); [|lia].
  apply try_all_preserves. exact H.
Qed.

Lemma cmd_wait_loop_preserves {T} (f : state -> T) w :
  preserves f (cmd_wait_body w) ->
  preserves f (cmd_wait_loop w).
Proof.
  intros H.
  assert (Hn : forall (n : nat) s,
             (Z.to_nat (num_bprocesses s) <= n)%nat ->
             f (final (cmd_wait_loop w s)) = f s).
  { induction n as [|n IH]; intros s Hle; rewrite cmd_wait_loop_once;
      destruct (Z.ltb_spec 0 (num_bprocesses s)) as [Hpos|Hnpos];
      try reflexivity; try lia.
    pose proof (H s) as Hb.
    assert (Hdec : num_bprocesses (final (cmd_wait_body w s)) = num_bprocesses s - 1).
    { unfold cmd_wait_body, bind, modify, wait.
      destruct (children s); reflexivity. }
    destruct (cmd_wait_body w s) as [r s1|h s1]; simpl in *.
    - rewrite IH; [exact Hb | lia].
    - exact Hb. }
  intros s. apply (Hn (Z.to_nat (num_bprocesses s))). lia.
Qed.

Lemma cmd_wait_body_preserves_fds w : preserves fds (cmd_wait_body w).
Proof. unfold cmd_wait_body. pres. Qed.

Lemma execv_preserves_fds w c argv : preserves fds (execv w c argv).
Proof. prim. Qed.

Lemma execv_preserves_counter w c argv : preserves num_bprocesses (execv w c argv).
Proof. prim. Qed.

Lemma fprintf_stdout_preserves_fds text : preserves fds (fprintf_stdout text).
Proof. prim. Qed.

Lemma fprintf_stdout_preserves_counter text :
  preserves num_bprocesses (fprintf_stdout text).
Proof. prim. Qed.

#[export] Hint Resolve cmd_wait_body_preserves_fds execv_preserves_fds
  execv_preserves_counter fprintf_stdout_preserves_fds
  fprintf_stdout_preserves_counter : shell_pres.
#[export] Hint Extern 2 (preserves _ (cmd_help_loop _)) =>
  apply cmd_help_loop_preserves : shell_pres.
#[export] Hint Extern 2 (preserves _ (path_loop _ _ _ _ _)) =>
  apply path_loop_preserves : shell_pres.
#[export] Hint Extern 2 (preserves _ (cmd_wait_loop _)) =>
  apply cmd_wait_loop_preserves : shell_pres.

Lemma exec_func_preserves_fds w fk tokens rc fg :
  preserves fds (exec_func w fk tokens rc fg).
Proof. unfold exec_func. pres. Qed.

Lemma call_preserves_fds w f tokens : preserves fds (call w f tokens).
Proof.
  destruct f; unfold call, cmd_help, cmd_exit, cmd_pwd, cmd_cd, cmd_wait; pres.
Qed.

Lemma dispatch_preserves_fds w fk tokens rc fg :
  preserves fds (dispatch w fk tokens rc fg).
Proof.
  unfold dispatch.
  destruct (0 <=? lookup (tokens_get_token tokens 0)).
  - destruct (cmd_table !! Z.to_nat (lookup (tokens_get_token tokens 0))).
    + apply call_preserves_fds.
    + apply preserves_halt.
  - apply exec_func_preserves_fds.
Qed.


Lemma wait_spec w s :
  exists r s',
    wait w s = Ret r s'
    /\ trace s' = trace s ++ [EWait r]
    /\ (children s = [] -> r = -1)
    /\ (children s <> [] -> In r (children s))
    /\ num_bprocesses s' = num_bprocesses s
    /\ pid s' = pid s
    /\ fds s' = fds s.
Proof.
  unfold wait. destruct (children s) as [|c0 cs] eqn:E.
  - exists (-1). eexists. split; [reflexivity|]. cbn.
    repeat split; try reflexivity. intros H. contradiction.
  - do 2 eexists. split; [reflexivity|].
    cbn [trace log_event set_children num_bprocesses pid fds].
    split; [reflexivity|]. split; [discriminate|]. split; [|repeat split].
    intros _. apply nth_In. apply Nat.mod_upper_bound. simpl. lia.
Qed.




(** ** The background-job counter *)

Lemma cmd_wait_body_spec w s :
  exists r s1,
    wait w s = Ret r s1
    /\ cmd_wait_body w s = Ret tt (set_num_bprocesses (num_bprocesses s - 1) s1)
    /\ trace s1 = trace s ++ [EWait r].
Proof.
  destruct (wait_spec w s) as (r & s1 & Hw & Htr & _ & _ & Hn & _).
  exists r, s1. split; [exact Hw|]. split; [|exact Htr].
  unfold cmd_wait_body, bind, modify. rewrite Hw, Hn. reflexivity.
Qed.

Lemma cmd_wait_loop_spec w :
  forall (n : nat) s,
    num_bprocesses s = Z.of_nat n ->
    exists rs s',
      cmd_wait_loop w s = Ret tt s'
      /\ num_bprocesses s' = 0
      /\ trace s' = trace s ++ map EWait rs
      /\ length rs = n.
Proof.
  induction n as [|n IH]; intros s Hn; rewrite cmd_wait_loop_once.
  - rewrite Hn. cbn. exists [], s. rewrite app_nil_r. repeat split. exact Hn.
  - destruct (Z.ltb_spec 0 (num_bprocesses s)) as [_|Hle]; [|lia].
    destruct (cmd_wait_body_spec w s) as (r & s1 & _ & Hb & Htr). rewrite Hb.
    destruct (IH (set_num_bprocesses (num_bprocesses s - 1) s1)) as (rs & s' & Hl & Hz & Ht & Hlen).
    { cbn. lia. }
    exists (r :: rs), s'. split; [exact Hl|]. split; [exact Hz|]. split.
    + rewrite Ht. cbn. rewrite Htr, <- app_assoc. reflexivity.
    + cbn. rewrite Hlen. reflexivity.
Qed.

Lemma cmd_wait_loop_idle w s :
  num_bprocesses s <= 0 -> cmd_wait_loop w s = Ret tt s.
Proof.
  intros H. rewrite cmd_wait_loop_once.
  destruct (Z.ltb_spec 0 (num_bprocesses s)); [lia | reflexivity].
Qed.

Lemma cmd_wait_counter w tokens s :
  num_bprocesses (final (cmd_wait w tokens s)) =
  if 0 <? num_bprocesses s then 0 else num_bprocesses s.
Proof.
  unfold cmd_wait, bind. destruct (Z.ltb_spec 0 (num_bprocesses s)) as [Hpos|Hle].
  - destruct (cmd_wait_loop_spec w (Z.to_nat (num_bprocesses s)) s)
      as (rs & s' & Hl & Hz & _); [lia|].
    rewrite Hl. exact Hz.
  - rewrite cmd_wait_loop_idle by exact Hle. reflexivity.
Qed.

Lemma exec_func_counter w fk tokens rc fg s :
  let n' := num_bprocesses (final (exec_func w fk tokens rc fg s)) in
  n' = num_bprocesses s
  \/ (n' = int_succ (num_bprocesses s)
      /\ (exists child, fk = ForkParent child) /\ fg = 0).
Proof.
  cbv zeta. destruct fk as [e|newpid|child].
  - left. unfold exec_func, bind, fork. cbn. reflexivity.
  - left. unfold exec_func. rewrite final_bind. unfold fork at 1. cbv beta iota.
    cbn [Z.eqb].
    match goal with
    | |- num_bprocesses (final (?m ?s1)) = _ =>
        assert (Hp : preserves num_bprocesses m) by pres; rewrite (Hp s1)
    end.
    reflexivity.
  - unfold exec_func. rewrite final_bind. unfold fork at 1. cbv beta iota.
    cbn [Z.eqb].
    destruct (Z.eqb_spec fg 0) as [->|Hfg]; cbn [negb Z.eqb].
    + unfold bind, gets, int_incr, modify, ret, halt. cbn.
      right. repeat split. eexists; reflexivity.
    + left.
      match goal with
      | |- num_bprocesses (final (?m ?s1)) = _ =>
          assert (Hp : preserves num_bprocesses m) by pres; rewrite (Hp s1)
      end.
      reflexivity.
Qed.

Lemma call_counter w f tokens :
  f <> fn_cmd_wait -> preserves num_bprocesses (call w f tokens).
Proof.
  intros Hf.
  destruct f; unfold call, cmd_help, cmd_exit, cmd_pwd, cmd_cd; try pres.
  contradiction.
Qed.

Lemma lookup_some_cases (c : string) :
  (lookup (Some c) = -1 /\ ~ In c (map cmd cmd_table))
  \/ exists i d, lookup (Some c) = Z.of_nat i /\ cmd_table !! i = Some d
                 /\ cmd d = c.
Proof.
  unfold lookup, cmd_table, lookup_from. rewrite !strcmp_eqb. cbn [cmd].
  destruct (String.eqb_spec "?" c) as [<-|H0];
    [right; exists 0%nat; eexists; repeat split|].
  destruct (String.eqb_spec "exit" c) as [<-|H1];
    [right; exists 1%nat; eexists; repeat split|].
  destruct (String.eqb_spec "pwd" c) as [<-|H2];
    [right; exists 2%nat; eexists; repeat split|].
  destruct (String.eqb_spec "cd" c) as [<-|H3];
    [right; exists 3%nat; eexists; repeat split|].
  destruct (String.eqb_spec "wait" c) as [<-|H4];
    [right; exists 4%nat; eexists; repeat split|].
  left. split; [reflexivity|]. cbn. intuition congruence.
Qed.

Lemma dispatch_counter w fk tokens rc fg s :
  let n := num_bprocesses s in
  let n' := num_bprocesses (final (dispatch w fk tokens rc fg s)) in
  n' = n
  \/ (n' = int_succ n /\ (exists child, fk = ForkParent child) /\ fg = 0
      /\ lookup (tokens_get_token tokens 0) = -1)
  \/ (0 < n /\ n' = 0 /\ tokens_get_token tokens 0 = Some "wait").
Proof.
  cbv zeta. unfold dispatch.
  destruct (tokens_get_token tokens 0) as [c|].
  - destruct (lookup_some_cases c) as [[Hl Hnot]|(i & d & Hl & Hd & Hc)]; rewrite Hl.
    + cbn [Z.leb Z.compare].
      destruct (exec_func_counter w fk tokens rc fg s) as [H|(H1 & H2 & H3)];
        [left; exact H | right; left; repeat split; assumption].
    + destruct (Z.leb_spec 0 (Z.of_nat i)); [|lia]. rewrite Nat2Z.id, Hd.
      assert (Hcases : (fun_ d <> fn_cmd_wait) \/ (fun_ d = fn_cmd_wait /\ c = "wait")).
      { unfold cmd_table in Hd.
        do 5 (destruct i as [|i]; cbn in Hd;
              [inversion Hd; subst; cbn;
               first [left; discriminate | right; split; reflexivity]|]).
        discriminate. }
      destruct Hcases as [Hw|[Hw ->]].
      * left. apply call_counter. exact Hw.
      * rewrite Hw. cbn [call]. rewrite cmd_wait_counter.
        destruct (Z.ltb_spec 0 (num_bprocesses s)); [|left; reflexivity].
        right; right. repeat split; assumption.
  - cbn.
    destruct (exec_func_counter w fk tokens rc fg s) as [H|(H1 & H2 & H3)];
      [left; exact H | right; left; repeat split; assumption].
Qed.

Lemma final_bind_before {A B T} (f : state -> T) (m : M A) (k : A -> M B) (s : state) :
  preserves f m ->
  f (final (bind m k s)) = f s
  \/ exists a s1, m s = Ret a s1 /\ f s1 = f s
                  /\ final (bind m k s) = final (k a s1).
Proof.
  intros Hm. rewrite final_bind. specialize (Hm s).
  destruct (m s) as [a s1|h s1]; simpl in Hm.
  - right. exists a, s1. repeat split. exact Hm.
  - left. exact Hm.
Qed.

Lemma deref_ret what p s a s1 :
  deref what p s = Ret a s1 -> p = Some a /\ s1 = s.
Proof.
  destruct p; unfold deref, ret, halt; intros H; inversion H; subst. split; reflexivity.
Qed.

Lemma redirect_preserves_counter w tokens rc :
  preserves num_bprocesses (redirect w tokens rc).
Proof. unfold redirect. pres. Qed.

Lemma signal_preserves_counter sig h : preserves num_bprocesses (signal sig h).
Proof. prim. Qed.

Lemma signal_preserves_fds sig h : preserves fds (signal sig h).
Proof. prim. Qed.

Lemma deref_preserves {T} (f : state -> T) what p : preserves f (deref what p).
Proof. destruct p as [str|]; intros st; reflexivity. Qed.

#[export] Hint Resolve redirect_preserves_counter signal_preserves_counter
  signal_preserves_fds : shell_pres.
#[export] Hint Extern 1 (preserves _ (deref _ _)) =>
  apply deref_preserves : shell_pres.

Ltac step_before f :=
  match goal with
  | |- context [final (bind ?m ?k ?s0)] =>
      let H := fresh "H" in
      let a := fresh "a" in
      let s1 := fresh "s" in
      let Hm := fresh "Hm" in
      let Hn := fresh "Hn" in
      let Hf := fresh "Hf" in
      destruct (final_bind_before f m k s0) as [H|(a & s1 & Hm & Hn & Hf)];
      [ auto with shell_pres
      | left; rewrite H; reflexivity
      | rewrite Hf; clear Hf; rewrite <- Hn; clear Hn ]
  end.

(** One line of input changes the counter in one of three ways. *)
Lemma main_loop_body_counter w fk tokens line_num s :
  let n := num_bprocesses s in
  let n' := num_bprocesses (final (main_loop_body w fk tokens line_num s)) in
  n' = n
  \/ (n' = int_succ n /\ (exists child, fk = ForkParent child)
      /\ tokens_get_token tokens (size_sub (tokens_get_length tokens) 1) = Some "&"
      /\ lookup (tokens_get_token tokens 0) = -1)
  \/ (0 < n /\ n' = 0 /\ tokens_get_token tokens 0 = Some "wait").
Proof.
  cbv zeta. unfold main_loop_body.
  do 8 (step_before num_bprocesses; clear Hm).
  step_before num_bprocesses. apply deref_ret in Hm. destruct Hm as [Hbg _].
  step_before num_bprocesses. clear Hm.
  rewrite (final_bind_after num_bprocesses); [|intros ?; pres].
  match goal with
  | |- context [dispatch w fk tokens ?rc ?fg ?s0] =>
      destruct (dispatch_counter w fk tokens rc fg s0)
        as [H|[(H1 & H2 & H3 & H4)|(H1 & H2 & H3)]]
  end.
  - left. exact H.
  - right. left. repeat split; try assumption.
    apply strcmp_zero_iff in H3. rewrite Hbg, H3. reflexivity.
  - right. right. repeat split; assumption.
Qed.

Lemma init_shell_loop_preserves_counter answers :
  preserves num_bprocesses (init_shell_loop answers).
Proof.
  induction answers as [|fg rest IH]; simpl init_shell_loop.
  - apply preserves_halt.
  - pres; try exact IH.
Qed.

#[export] Hint Resolve init_shell_loop_preserves_counter : shell_pres.

Lemma counter_reset_bind {A B} (m : M A) (k : A -> M B) (s : state) :
  preserves num_bprocesses m ->
  (forall a s1, counter_reset s1 (k a s1)) ->
  counter_reset s (bind m k s).
Proof.
  intros Hm Hk. unfold bind. specialize (Hm s).
  destruct (m s) as [a s1|h s1]; cbn [final] in Hm.
  - specialize (Hk a s1). unfold counter_reset in *.
    destruct (k a s1); congruence.
  - exact Hm.
Qed.

Lemma init_shell_counter w s : counter_reset s (init_shell w s).
Proof.
  unfold init_shell.
  do 5 (apply counter_reset_bind; [solve [pres] | intros ? ?]).
  reflexivity.
Qed.

Lemma int_succ_below (n : Z) : n < INT_MAX -> int_succ n = n + 1.
Proof.
  intros H. unfold int_succ. destruct (Z.ltb_spec n INT_MAX); [reflexivity | lia].
Qed.

Lemma int_succ_at_max : int_succ INT_MAX = INT_MIN.
Proof. reflexivity. Qed.

(** Each line adds at most one to the counter, so a run of fewer lines
    than there are values left below [INT_MAX] keeps it non-negative. *)
Lemma main_loop_nonneg w lines :
  forall line_num s,
    0 <= num_bprocesses s ->
    num_bprocesses s + Z.of_nat (length lines) <= INT_MAX ->
    0 <= num_bprocesses (final (main_loop w lines line_num s)).
Proof.
  induction lines as [|[tokens fk] rest IH]; intros line_num s Hs Hmax;
    simpl main_loop.
  - exact Hs.
  - cbn [length] in Hmax. rewrite final_bind.
    pose proof (main_loop_body_counter w fk tokens line_num s) as Hc. cbv zeta in Hc.
    rewrite (int_succ_below (num_bprocesses s)) in Hc by lia.
    destruct (main_loop_body w fk tokens line_num s) as [n s1|h s1]; cbn [final] in Hc.
    + apply IH; lia.
    + lia.
Qed.




(** C10: while fewer than [INT_MAX] jobs are counted, the counter
    [num_bprocesses] is never negative.  [init_shell] sets it to zero;
    every line of input leaves it non-negative if it was non-negative and
    below [INT_MAX], and the only line that does not is a background spawn
    at [INT_MAX] itself; [cmd_wait] changes nothing unless it is strictly
    positive; so it is non-negative at every point of a run of [main] over
    at most [INT_MAX] lines. *)
Theorem C10_counter_never_negative (w : World) :
  (forall s s', init_shell w s = Ret tt s' -> num_bprocesses s' = 0)
  /\ (forall fk tokens line_num s,
        0 <= num_bprocesses s < INT_MAX ->
        0 <= num_bprocesses (final (main_loop_body w fk tokens line_num s)))
  /\ (forall fk tokens line_num s,
        0 <= num_bprocesses s <= INT_MAX ->
        num_bprocesses (final (main_loop_body w fk tokens line_num s)) < 0 ->
        num_bprocesses s = INT_MAX
        /\ (exists child, fk = ForkParent child)
        /\ tokens_get_token tokens (size_sub (tokens_get_length tokens) 1)
           = Some "&")
  /\ (forall tokens s,
        num_bprocesses s <= 0 ->
        num_bprocesses (final (cmd_wait w tokens s)) = num_bprocesses s)
  /\ (forall lines s,
        num_bprocesses s = 0 ->
        Z.of_nat (length lines) <= INT_MAX ->
        0 <= num_bprocesses (final (main w lines s))).
Proof.
  split; [|split; [|split; [|split]]].
  - intros s s' H. pose proof (init_shell_counter w s) as Hi.
    rewrite H in Hi. exact Hi.
  - intros fk tokens line_num s [Hs Hmax].
    pose proof (main_loop_body_counter w fk tokens line_num s) as Hc. cbv zeta in Hc.
    rewrite (int_succ_below _ Hmax) in Hc. lia.
  - intros fk tokens line_num s Hs Hneg.
    pose proof (main_loop_body_counter w fk tokens line_num s) as Hc. cbv zeta in Hc.
    destruct Hc as [H|[(H1 & H2 & H3 & _)|(H1 & H2 & H3)]]; try lia.
    split; [|split; assumption].
    destruct (Z.lt_ge_cases (num_bprocesses s) INT_MAX) as [Hlt|Hge]; [|lia].
    rewrite (int_succ_below _ Hlt) in H1. lia.
  - intros tokens s Hs. rewrite cmd_wait_counter.
    destruct (Z.ltb_spec 0 (num_bprocesses s)); [lia | reflexivity].
  - intros lines s Hs Hlen. unfold main. rewrite final_bind.
    pose proof (init_shell_counter w s) as Hi. unfold counter_reset in Hi.
    destruct (init_shell w s) as [[] s1|h s1]; [|cbn [final]; lia].
    rewrite final_bind. unfold gets at 1. cbv beta iota.
    rewrite final_bind.
    match goal with
    | |- context [match ?m s1 with _ => _ end] =>
        assert (Hp : preserves num_bprocesses m) by pres;
        specialize (Hp s1); destruct (m s1) as [[] s2|h s2]; cbn [final] in Hp
    end.
    + apply main_loop_nonneg; lia.
    + lia.
Qed.

(** C10 on a session that spawns a background job and waits twice. *)
Lemma C10_counter_never_negative_witness :
  0 <= num_bprocesses
         (final (main Sample.world
                   [ (["sleep"; "1"; "&"], ForkParent 7);
                     (["wait"], ForkFailed 0);
                     (["wait"], ForkFailed 0) ]
                   Sample.shell))
  /\ 0 <= num_bprocesses
            (final (main_loop_body Sample.world (ForkParent 7) ["sleep"; "1"; "&"] 0
                      Sample.shell_with_job))
  /\ (num_bprocesses (set_num_bprocesses INT_MAX Sample.shell) = INT_MAX
      /\ (exists child, ForkParent 7 = ForkParent child)
      /\ tokens_get_token ["sleep"; "1"; "&"]
           (size_sub (tokens_get_length ["sleep"; "1"; "&"]) 1) = Some "&")
  /\ num_bprocesses (final (cmd_wait Sample.world ["wait"] Sample.shell))
     = num_bprocesses Sample.shell
  /\ num_bprocesses (final (init_shell Sample.world Sample.shell_with_job)) = 0.
Proof.
  pose proof (C10_counter_never_negative Sample.world) as (Ha & Hb & Hb' & Hc & Hd).
  split; [apply Hd; [reflexivity | vm_compute; discriminate]|].
  split; [apply Hb; split; vm_compute; [discriminate | reflexivity]|].
  split; [apply (Hb' (ForkParent 7) ["sleep"; "1"; "&"] 0
                   (set_num_bprocesses INT_MAX Sample.shell));
          [split; vm_compute; discriminate | vm_compute; reflexivity]|].
  split; [apply Hc; vm_compute; discriminate|].
  apply (Ha Sample.shell_with_job). vm_compute. reflexivity.
Defined.

(** C10 as the claim words it fails where the counter is [INT_MAX]: it is
    non-negative before the line [sleep 1 &] and negative after it. *)
Lemma C10_counterexample :
  let s := set_num_bprocesses INT_MAX Sample.shell in
  let s' := final (main_loop_body Sample.world (ForkParent 7) ["sleep"; "1"; "&"] 0 s) in
  0 <= num_bprocesses s
  /\ num_bprocesses s' = INT_MIN
  /\ ~ 0 <= num_bprocesses s'.
Proof.
  cbv zeta.
  assert (Hrun : num_bprocesses
                   (final (main_loop_body Sample.world (ForkParent 7)
                             ["sleep"; "1"; "&"] 0
                             (set_num_bprocesses INT_MAX Sample.shell))) = INT_MIN)
    by (vm_compute; reflexivity).
  rewrite Hrun. split; [discriminate|]. split; [reflexivity|].
  intros H. apply H. reflexivity.
Qed.

Lemma lookup_from_spec (table : list fun_desc_t) (c : string) :
  forall k,
    lookup_from k table (Some c) =
    match list_find (fun d => cmd d = c) table with
    | Some (i, _) => k + Z.of_nat i
    | None => -1
    end.
Proof.
  induction table as [|d rest IH]; intros k; [reflexivity|].
  cbn [lookup_from list_find]. rewrite strcmp_eqb.
  destruct (String.eqb_spec (cmd d) c) as [Heq|Hne].
  - rewrite decide_True by exact Heq. cbn. lia.
  - rewrite decide_False by exact Hne. rewrite IH.
    destruct (list_find (fun d0 => cmd d0 = c) rest) as [[i d']|]; cbn; lia.
Qed.

(** C5: the first token is compared with the registry names [?], [exit],
    [pwd], [cd], [wait] by exact, case-sensitive string equality; the
    first entry that matches is run, and when no name matches ("Exit",
    for one) the line is launched as an external command. *)
Theorem C5_builtin_dispatch (w : World) :
  map cmd cmd_table = ["?"; "exit"; "pwd"; "cd"; "wait"]
  /\ (forall c : string,
        lookup (Some c) =
        match list_find (fun d => cmd d = c) cmd_table with
        | Some (i, _) => Z.of_nat i
        | None => -1
        end)
  /\ (forall fk c rest rc fg,
        dispatch w fk (c :: rest) rc fg =
        match list_find (fun d => cmd d = c) cmd_table with
        | Some (_, d) => call w (fun_ d) (c :: rest)
        | None => exec_func w fk (c :: rest) rc fg
        end)
  /\ lookup (Some "Exit") = -1
  /\ (forall fk rest rc fg,
        dispatch w fk ("Exit" :: rest) rc fg = exec_func w fk ("Exit" :: rest) rc fg).
Proof.
  assert (Hlookup : forall c : string,
             lookup (Some c) =
             match list_find (fun d => cmd d = c) cmd_table with
             | Some (i, _) => Z.of_nat i
             | None => -1
             end).
  { intros c. unfold lookup. rewrite lookup_from_spec.
    destruct (list_find _ cmd_table) as [[i d]|]; reflexivity. }
  assert (Hdispatch : forall fk c rest rc fg,
             dispatch w fk (c :: rest) rc fg =
             match list_find (fun d => cmd d = c) cmd_table with
             | Some (_, d) => call w (fun_ d) (c :: rest)
             | None => exec_func w fk (c :: rest) rc fg
             end).
  { intros fk c rest rc fg. unfold dispatch.
    replace (tokens_get_token (c :: rest) 0) with (Some c) by reflexivity.
    rewrite Hlookup.
    destruct (list_find (fun d => cmd d = c) cmd_table) as [[i d]|] eqn:E.
    - apply list_find_Some in E. destruct E as (Hi & _ & _).
      destruct (Z.leb_spec 0 (Z.of_nat i)); [|lia].
      rewrite Nat2Z.id, Hi. reflexivity.
    - reflexivity. }
  split; [reflexivity|]. split; [exact Hlookup|]. split; [exact Hdispatch|].
  split; [reflexivity|].
  intros fk rest rc fg. rewrite Hdispatch. reflexivity.
Qed.

Arguments fd_lookup : simpl never.
Arguments pretty : simpl never.

(** ** Reasoning with pre- and postconditions *)

Lemma triple_bind {A B} P (m : M A) (k : A -> M B) Q R E :
  triple P m Q E -> (forall a, triple (Q a) (k a) R E) -> triple P (bind m k) R E.
Proof.
  intros Hm Hk s HP. unfold bind. specialize (Hm s HP).
  destruct (m s) as [a s1|h s1]; [apply Hk; exact Hm | exact Hm].
Qed.

(** An invariant carried through a sequence. *)
Lemma triple_seq {A B} (I : state -> Prop) (m : M A) (k : A -> M B) R E :
  triple I m (fun _ => I) E -> (forall a, triple I (k a) R E) ->
  triple I (bind m k) R E.
Proof. intros Hm Hk. eapply triple_bind; [exact Hm | exact Hk]. Qed.

(** Evaluating what depends on the tokens of a given line only. *)
Ltac eval_term t :=
  let v := eval vm_compute in t in
  let H := fresh "Heval" in
  assert (H : t = v) by (vm_compute; reflexivity);
  rewrite !H; clear H.

Ltac eval_tokens :=
  repeat match goal with
    | |- context [tokens_get_token ?l ?n] => progress eval_term (tokens_get_token l n)
    | |- context [tokens_get_length ?l] => progress eval_term (tokens_get_length l)
    | |- context [is_str ?p ?lit] => progress eval_term (is_str p lit)
    | |- context [lookup ?c] => progress eval_term (lookup c)
    | |- context [strcmp ?a ?b] => progress eval_term (strcmp a b)
    | |- context [cmd_table !! ?n] => progress eval_term (cmd_table !! n)
    end.

Ltac small_steps :=
  cbn [Z.eqb Z.leb Z.ltb Z.compare Pos.eqb Pos.compare Pos.compare_cont negb andb orb
       fst snd call fun_].

(** The working directory as an invariant of calls that always return. *)
Ltac cwd_leaf :=
  let s := fresh "s" in
  let Hs := fresh "Hs" in
  intros s Hs;
  unfold bind, deref, int_incr, fprintf_stdout, signal, dup2, gets, modify, ret, halt;
  repeat (cbn [cwd log_event set_errno set_fds]; case_innermost);
  cbn [cwd log_event set_errno set_fds]; try exact Hs.

Ltac cwd_steps :=
  repeat (first [ apply triple_seq; [solve [cwd_leaf] | intros ?]
                | match goal with
                  | |- triple _ (if ?b then _ else _) _ _ => destruct b
                  end
                | solve [cwd_leaf] ]).

(** C6: [cd] wants at least one argument and looks at the first only.
    Without an argument it prints an error and leaves the working directory
    as it is; with an argument whose [chdir] fails it prints an error with
    the system's error text and leaves the working directory as it is,
    whatever follows the argument; [cmd_cd] always returns to the loop, and
    the loop goes on. *)
Theorem C6_cd_errors (w : World) (s : state) :
  (forall c,
      exists s',
        cmd_cd w [c] s = Ret 0 s'
        /\ cwd s' = cwd s
        /\ trace s' = trace s
             ++ [EWrite (fd_lookup (fds s) 1) ("cd error: no arguments" +:+ nl)])
  /\ (forall c path extra,
        resolve_dir w (cwd s) path = None ->
        exists s',
          cmd_cd w (c :: path :: extra) s = Ret 1 s'
          /\ cwd s' = cwd s
          /\ trace s' = trace s
               ++ [EChdir (Some path) (-1);
                   EWrite (fd_lookup (fds s) 1)
                     ("chdir error: "
                      +:+ strerror w (chdir_errno w (cwd s) path) +:+ nl)])
  /\ (forall c path extra dir,
        resolve_dir w (cwd s) path = Some dir ->
        exists s',
          cmd_cd w (c :: path :: extra) s = Ret 1 s'
          /\ cwd s' = dir
          /\ trace s' = trace s ++ [EChdir (Some path) 0])
  /\ (forall tokens, returns (cmd_cd w tokens s) = true)
  /\ (forall fk line_num,
        exists n s',
          main_loop_body w fk ["cd"] line_num s = Ret n s' /\ cwd s' = cwd s)
  /\ (forall fk line_num path,
        resolve_dir w (cwd s) path = None ->
        exists n s',
          main_loop_body w fk ["cd"; path] line_num s = Ret n s' /\ cwd s' = cwd s).
Proof.
  assert (Hlen : forall c path extra,
             (tokens_get_length (c :: path :: extra) =? 1) = false).
  { intros c path extra. unfold tokens_get_length. cbn [length].
    apply Z.eqb_neq. lia. }
  assert (Htok : forall c path extra,
             tokens_get_token (c :: path :: extra) 1 = Some path).
  { intros c path extra. change 1 with (Z.of_nat 1).
    rewrite tokens_get_token_nat. reflexivity. }
  assert (Hfail : forall c path extra s0,
             resolve_dir w (cwd s0) path = None ->
             exists s',
               cmd_cd w (c :: path :: extra) s0 = Ret 1 s'
               /\ cwd s' = cwd s0
               /\ trace s' = trace s0
                    ++ [EChdir (Some path) (-1);
                        EWrite (fd_lookup (fds s0) 1)
                          ("chdir error: "
                           +:+ strerror w (chdir_errno w (cwd s0) path) +:+ nl)]).
  { intros c path extra s0 Hres.
    unfold cmd_cd. rewrite Hlen, Htok.
    unfold bind, chdir, gets, fprintf_stdout, modify, ret.
    rewrite Hres. small_steps.
    eexists. split; [reflexivity|].
    cbn [cwd trace fds log_event set_errno]. rewrite <- app_assoc.
    split; reflexivity. }
  split; [|split; [|split; [|split; [|split]]]].
  - intros c. eexists. split; [reflexivity|]. split; reflexivity.
  - intros c path extra. apply Hfail.
  - intros c path extra dir Hres.
    unfold cmd_cd. rewrite Hlen, Htok.
    unfold bind, chdir, gets, fprintf_stdout, modify, ret.
    rewrite Hres. small_steps.
    eexists. split; [reflexivity|]. split; reflexivity.
  - intros tokens. unfold cmd_cd, bind, chdir, gets, fprintf_stdout, modify, ret.
    destruct (tokens_get_length tokens =? 1); [reflexivity|].
    destruct (tokens_get_token tokens 1) as [p|]; [|reflexivity].
    destruct (resolve_dir w (cwd s) p); reflexivity.
  - intros fk line_num.
    assert (Ht : triple (fun s0 => cwd s0 = cwd s) (main_loop_body w fk ["cd"] line_num)
                   (fun _ s' => cwd s' = cwd s) never).
    { unfold main_loop_body, redirect, dispatch. eval_tokens. small_steps.
      unfold cmd_cd. eval_tokens. small_steps.
      cwd_steps. }
    specialize (Ht s eq_refl).
    destruct (main_loop_body w fk ["cd"] line_num s) as [n s'|h s'];
      [exists n, s'; split; [reflexivity | exact Ht] | destruct Ht].
  - intros fk line_num path Hres.
    assert (Ht : triple (fun s0 => cwd s0 = cwd s)
                   (main_loop_body w fk ["cd"; path] line_num)
                   (fun _ s' => cwd s' = cwd s) never).
    { unfold main_loop_body, redirect, dispatch. eval_tokens. small_steps.
      cwd_steps.
      apply triple_seq; [|intros ?; cwd_steps].
      intros s0 Hs0. rewrite <- Hs0 in Hres.
      destruct (Hfail "cd" path [] s0 Hres) as (s' & Hcd & Hcwd & _).
      rewrite Hcd. congruence. }
    specialize (Ht s eq_refl).
    destruct (main_loop_body w fk ["cd"; path] line_num s) as [n s'|h s'];
      [exists n, s'; split; [reflexivity | exact Ht] | destruct Ht].
Qed.

(** C6 at [cd /does-not-exist] and at [cd] alone, from the directory
    [/home]. *)
Lemma C6_cd_errors_witness :
  (exists s',
      cmd_cd Sample.world ["cd"; "/does-not-exist"] Sample.shell = Ret 1 s'
      /\ cwd s' = cwd Sample.shell
      /\ trace s' = trace Sample.shell
           ++ [EChdir (Some "/does-not-exist") (-1);
               EWrite (fd_lookup (fds Sample.shell) 1)
                 ("chdir error: "
                  +:+ strerror Sample.world
                        (chdir_errno Sample.world (cwd Sample.shell) "/does-not-exist")
                  +:+ nl)])
  /\ (exists s',
        cmd_cd Sample.world ["cd"; "/tmp"; "extra"] Sample.shell = Ret 1 s'
        /\ cwd s' = "/tmp"
        /\ trace s' = trace Sample.shell ++ [EChdir (Some "/tmp") 0])
  /\ (exists n s',
        main_loop_body Sample.world (ForkFailed 0) ["cd"; "/does-not-exist"] 3
          Sample.shell = Ret n s'
        /\ cwd s' = cwd Sample.shell).
Proof.
  pose proof (C6_cd_errors Sample.world Sample.shell) as (_ & Hb & Hc & _ & _ & He).
  split; [exact (Hb "cd" "/does-not-exist" [] eq_refl)|].
  split; [exact (Hc "cd" "/tmp" ["extra"] "/tmp" eq_refl)|].
  apply He; reflexivity.
Defined.

(** C6 as the claim words it fails at [cd /tmp extra]: [cd] does not
    require exactly one argument.  With two arguments it prints no error and
    changes the working directory to the first. *)
Lemma C6_counterexample :
  exists s',
    cmd_cd Sample.world ["cd"; "/tmp"; "extra"] Sample.shell = Ret 1 s'
    /\ List.filter is_write (trace s') = []
    /\ cwd s' = "/tmp"
    /\ cwd s' <> cwd Sample.shell.
Proof.
  eexists. split; [vm_compute; reflexivity|].
  split; [reflexivity|]. split; [reflexivity|]. discriminate.
Qed.

(** C7: a redirection whose target cannot be opened is not reported: the
    null stream that [fopen] returned is handed to [fileno], and the shell
    stops there.  Nothing is written, neither by the shell nor by the
    command, which is never run. *)
Theorem C7_failed_open_reaches_fileno :
  let run :=
    main_loop_body Sample.world (ForkParent 7)
      ["echo"; "hi"; ">"; "/nonexistent/out.txt"] 0 Sample.shell in
  (exists s', run = Halt (Undefined "fileno(NULL)") s')
  /\ List.filter is_write (trace (final run)) = []
  /\ last (trace (final run)) = Some (EDup 1 3)
  /\ In (EFopen (Some "/nonexistent/out.txt") "w" None) (trace (final run)).
Proof.
  cbv zeta. split; [|split; [|split]].
  - eexists. vm_compute. reflexivity.
  - vm_compute. reflexivity.
  - vm_compute. reflexivity.
  - vm_compute. auto 20.
Qed.

(** ** The argument vector *)




Lemma exec_func_child_stuck w p tokens rc fg s :
  (tokens_get_token tokens 0 = None
   \/ exists name, tokens_get_token tokens 0 = Some name
                   /\ search_candidates w name = None) ->
  exists what s',
    exec_func w (ForkChild p) tokens rc fg s = Halt (Undefined what) s'
    /\ trace s' = trace s ++ child_prologue (Z.pos p).
Proof.
  intros H. destruct (child_start_facts w p s) as (Htr & _).
  unfold child_start in Htr.
  unfold exec_func, bind, fork, getpid, setpgid, signal, modify, gets, ret in *.
  cbn [final pid set_pid log_event set_children Z.eqb] in *.
  destruct H as [Hnone|(name & Hname & Hc)].
  - rewrite Hnone. unfold deref, halt. do 2 eexists. split; [reflexivity|exact Htr].
  - rewrite Hname. unfold deref, ret. rewrite strncpy1_absolute.
    unfold search_candidates in Hc.
    destruct (is_absolute name); [discriminate|].
    destruct (env_PATH w); [discriminate|].
    unfold halt. do 2 eexists. split; [reflexivity|exact Htr].
Qed.





(** ** Allocation and installation of descriptors *)

Lemma fd_lookup_nat (t : list (option ofile)) (k : nat) :
  fd_lookup t (Z.of_nat k) =
  match t !! k with
  | Some (Some f) => Some f
  | _ => None
  end.
Proof.
  unfold fd_lookup. destruct (Z.ltb_spec (Z.of_nat k) 0); [lia|].
  rewrite Nat2Z.id. reflexivity.
Qed.

Lemma fd_lookup_Some_nat (t : list (option ofile)) (k : Z) (x : ofile) :
  fd_lookup t k = Some x -> 0 <= k /\ t !! Z.to_nat k = Some (Some x).
Proof.
  unfold fd_lookup. destruct (Z.ltb_spec k 0) as [Hneg|Hpos]; [discriminate|].
  destruct (t !! Z.to_nat k) as [[f|]|]; intros Heq; inversion Heq; subst.
  split; [lia | reflexivity].
Qed.

Lemma fd_alloc_spec (x : ofile) (t : list (option ofile)) :
  forall n t',
    fd_alloc x t = (n, t') ->
    fd_lookup t (Z.of_nat n) = None
    /\ fd_lookup t' (Z.of_nat n) = Some x
    /\ (forall k y, fd_lookup t k = Some y -> fd_lookup t' k = Some y).
Proof.
  induction t as [|[y|] t IH]; intros n t' H; cbn [fd_alloc] in H.
  - inversion H; subst. split; [reflexivity|]. split; [reflexivity|].
    intros k y Hk. apply fd_lookup_Some_nat in Hk.
    destruct Hk as [_ Hk]. rewrite lookup_nil in Hk. discriminate.
  - destruct (fd_alloc x t) as [i t''] eqn:E. inversion H; subst.
    destruct (IH i t'' eq_refl) as (H1 & H2 & H3).
    rewrite !fd_lookup_nat in *. cbn [lookup list_lookup].
    change ((Some y :: t) !! S i) with (t !! i).
    change ((Some y :: t'') !! S i) with (t'' !! i).
    split; [exact H1|]. split; [exact H2|].
    intros k z Hk. apply fd_lookup_Some_nat in Hk. destruct Hk as [Hk0 Hk].
    rewrite <- (Z2Nat.id k) by exact Hk0. rewrite fd_lookup_nat.
    destruct (Z.to_nat k) as [|k'].
    + cbn in Hk |- *. inversion Hk; subst. reflexivity.
    + change ((Some y :: t) !! S k') with (t !! k') in Hk.
      change ((Some y :: t'') !! S k') with (t'' !! k').
      specialize (H3 (Z.of_nat k') z). rewrite !fd_lookup_nat, Hk in H3.
      exact (H3 eq_refl).
  - inversion H; subst. rewrite !fd_lookup_nat. cbn.
    split; [reflexivity|]. split; [reflexivity|].
    intros k z Hk. apply fd_lookup_Some_nat in Hk. destruct Hk as [Hk0 Hk].
    rewrite <- (Z2Nat.id k) by exact Hk0. rewrite fd_lookup_nat.
    destruct (Z.to_nat k) as [|k']; cbn in Hk |- *.
    + discriminate.
    + rewrite Hk. reflexivity.
Qed.

Lemma fd_install_spec (k : nat) (x y : ofile) (t : list (option ofile)) :
  fd_lookup t (Z.of_nat k) = Some y ->
  fd_lookup (fd_install k x t) (Z.of_nat k) = Some x
  /\ (forall j, j <> Z.of_nat k -> fd_lookup (fd_install k x t) j = fd_lookup t j).
Proof.
  intros Hk. apply fd_lookup_Some_nat in Hk. destruct Hk as [_ Hk].
  rewrite Nat2Z.id in Hk. pose proof (lookup_lt_Some _ _ _ Hk) as Hlt.
  unfold fd_install. destruct (Nat.ltb_spec k (length t)); [|lia]. split.
  - rewrite fd_lookup_nat, list_lookup_insert_eq by exact Hlt. reflexivity.
  - intros j Hj. unfold fd_lookup. destruct (Z.ltb_spec j 0); [reflexivity|].
    rewrite list_lookup_insert_ne by lia. reflexivity.
Qed.

Lemma fd_lookup_install_same (k : nat) (x : ofile) (t : list (option ofile)) :
  fd_lookup (fd_install k x t) (Z.of_nat k) = Some x.
Proof.
  rewrite fd_lookup_nat. unfold fd_install.
  destruct (Nat.ltb_spec k (length t)) as [Hlt|Hge].
  - rewrite list_lookup_insert_eq by exact Hlt. reflexivity.
  - rewrite lookup_app_r by lia.
    rewrite lookup_app_r by (rewrite length_replicate; lia).
    rewrite length_replicate.
    replace (k - length t - (k - length t))%nat with 0%nat by lia. reflexivity.
Qed.

Lemma fd_lookup_install_other (k : nat) (x : ofile) (t : list (option ofile)) (j : Z) :
  j <> Z.of_nat k -> fd_lookup (fd_install k x t) j = fd_lookup t j.
Proof.
  intros Hj. unfold fd_install, fd_lookup.
  destruct (Z.ltb_spec j 0) as [Hneg|Hpos]; [reflexivity|].
  destruct (Nat.ltb_spec k (length t)) as [Hlt|Hge].
  - rewrite list_lookup_insert_ne by lia. reflexivity.
  - destruct (Nat.lt_ge_cases (Z.to_nat j) (length t)) as [Hin|Hout].
    + rewrite lookup_app_l by exact Hin. reflexivity.
    + rewrite (lookup_ge_None_2 t) by exact Hout.
      rewrite lookup_app_r by exact Hout.
      destruct (Nat.lt_ge_cases (Z.to_nat j - length t) (k - length t)) as [Hrep|Hlast].
      * rewrite lookup_app_l by (rewrite length_replicate; exact Hrep).
        rewrite lookup_replicate_2 by exact Hrep. reflexivity.
      * rewrite lookup_app_r by (rewrite length_replicate; exact Hlast).
        rewrite length_replicate.
        destruct (Z.to_nat j - length t - (k - length t))%nat as [|m] eqn:E; [lia|].
        reflexivity.
Qed.

Lemma open_count_alloc (x : ofile) (t : list (option ofile)) :
  forall n t', fd_alloc x t = (n, t') -> open_count t' = S (open_count t).
Proof.
  induction t as [|[y|] t IH]; intros n t' H; cbn [fd_alloc] in H.
  - inversion H; subst. reflexivity.
  - destruct (fd_alloc x t) as [i t''] eqn:E. inversion H; subst.
    cbn [open_count]. rewrite (IH i t'' eq_refl). reflexivity.
  - inversion H; subst. reflexivity.
Qed.

(** The descriptors below the one [fd_alloc] finds are all in use. *)
Lemma fd_alloc_le_count (x : ofile) (t : list (option ofile)) :
  forall n t', fd_alloc x t = (n, t') -> (n <= open_count t)%nat.
Proof.
  induction t as [|[y|] t IH]; intros n t' H; cbn [fd_alloc] in H.
  - inversion H; subst. cbn. lia.
  - destruct (fd_alloc x t) as [i t''] eqn:E. inversion H; subst.
    cbn [open_count]. specialize (IH i t'' eq_refl). lia.
  - inversion H; subst. cbn. lia.
Qed.

Lemma open_count_insert (x : ofile) (t : list (option ofile)) :
  forall (k : nat) (y : ofile),
    t !! k = Some (Some y) -> open_count (<[k := Some x]> t) = open_count t.
Proof.
  induction t as [|o t IH]; intros k y H; [discriminate|].
  destruct k as [|k].
  - cbn in H. inversion H; subst. reflexivity.
  - change ((o :: t) !! S k) with (t !! k) in H.
    change (<[S k := Some x]> (o :: t)) with (o :: <[k := Some x]> t).
    destruct o; cbn [open_count]; rewrite (IH k y H); reflexivity.
Qed.

Lemma open_count_install (k : nat) (x y : ofile) (t : list (option ofile)) :
  fd_lookup t (Z.of_nat k) = Some y ->
  open_count (fd_install k x t) = open_count t.
Proof.
  intros Hk. apply fd_lookup_Some_nat in Hk. destruct Hk as [_ Hk].
  rewrite Nat2Z.id in Hk. pose proof (lookup_lt_Some _ _ _ Hk) as Hlt.
  unfold fd_install. destruct (Nat.ltb_spec k (length t)); [|lia].
  exact (open_count_insert x t k y Hk).
Qed.

(** ** Redirection and restoring *)

Lemma bind_ret_inv {A B} (m : M A) (k : A -> M B) (s : state) (b : B) (s' : state) :
  bind m k s = Ret b s' ->
  exists a s1, m s = Ret a s1 /\ k a s1 = Ret b s'.
Proof.
  unfold bind. destruct (m s) as [a s1|h s1]; [|discriminate].
  intros H. exists a, s1. split; [reflexivity | exact H].
Qed.

Lemma preserves_ret_eq {A T} (f : state -> T) (m : M A) (s : state) (a : A) (s' : state) :
  preserves f m -> m s = Ret a s' -> f s' = f s.
Proof. intros Hp Hm. specialize (Hp s). rewrite Hm in Hp. exact Hp. Qed.

(** What [dup] did when it returned: nothing but the failure, or the
    lowest unused descriptor now refers to the same file. *)
Lemma dup_spec w fd s r s' :
  dup w fd s = Ret r s' ->
  (r = -1 /\ fds s' = fds s)
  \/ (exists x n,
        fd_lookup (fds s) fd = Some x
        /\ fd_alloc x (fds s) = (n, fds s')
        /\ (n < open_max w)%nat
        /\ r = Z.of_nat n).
Proof.
  unfold dup. destruct (fd_lookup (fds s) fd) as [x|].
  - destruct (fd_alloc x (fds s)) as [n t] eqn:E.
    destruct (Nat.ltb_spec n (open_max w)) as [Hlt|Hge];
      intros H; inversion H; subst.
    + right. exists x, n. split; [reflexivity|]. split; [exact E|].
      split; [exact Hlt | reflexivity].
    + left. split; reflexivity.
  - intros H; inversion H; subst. left. split; reflexivity.
Qed.

(** [dup] succeeds on an open descriptor when the descriptors in use are
    fewer than the limit. *)
Lemma dup_room w fd s r s' :
  dup w fd s = Ret r s' ->
  is_Some (fd_lookup (fds s) fd) ->
  (open_count (fds s) < open_max w)%nat ->
  0 <= r.
Proof.
  unfold dup. intros H [x Hx] Hroom. rewrite Hx in H.
  destruct (fd_alloc x (fds s)) as [n t] eqn:E.
  pose proof (fd_alloc_le_count _ _ _ _ E) as Hle.
  destruct (Nat.ltb_spec n (open_max w)) as [Hlt|Hge]; [|lia].
  inversion H; subst. lia.
Qed.

(** One redirection block of [main], taken apart: it returns only when
    [fopen] succeeded. *)
Lemma redirect_block_inv w (name : option string) (mode : string) (slot : nat)
    (s : state) (saved : Z) (s' : state) :
  (file <- fopen w name mode ;;
   saved <- dup w (Z.of_nat slot) ;;
   fd <- fileno file ;;
   dup2 fd (Z.of_nat slot) ;;
   ret saved) s = Ret saved s' ->
  exists n f s1 s2 r,
    name = Some n
    /\ fopen_errno w n mode = None
    /\ fd_alloc (Opened n mode) (fds s) = (f, fds s1)
    /\ (f < open_max w)%nat
    /\ dup w (Z.of_nat slot) s1 = Ret saved s2
    /\ dup2 (Z.of_nat f) (Z.of_nat slot) s2 = Ret r s'.
Proof.
  intros Hrun.
  apply bind_ret_inv in Hrun. destruct Hrun as (file & s1 & Hopen & Hrun).
  apply bind_ret_inv in Hrun. destruct Hrun as (sv & s2 & Hdup & Hrun).
  apply bind_ret_inv in Hrun. destruct Hrun as (fd & s3 & Hfileno & Hrun).
  apply bind_ret_inv in Hrun. destruct Hrun as (r & s4 & Hdup2 & Hrun).
  unfold ret in Hrun. inversion Hrun; subst sv s4. clear Hrun.
  destruct file as [f|]; [|discriminate].
  unfold fileno, ret in Hfileno. inversion Hfileno; subst fd s3. clear Hfileno.
  unfold fopen in Hopen. destruct name as [n|]; [|discriminate].
  destruct (fopen_errno w n mode) eqn:Eerr; [discriminate|].
  destruct (fd_alloc (Opened n mode) (fds s)) as [f' t1] eqn:Ealloc.
  destruct (Nat.ltb_spec f' (open_max w)) as [Hlt|Hge]; [|discriminate].
  inversion Hopen; subst f' s1. clear Hopen.
  exists n, f, (log_event (EFopen (Some n) mode (Some f)) (set_fds t1 s)), s2, r.
  split; [reflexivity|]. split; [exact Eerr|]. split; [exact Ealloc|].
  split; [exact Hlt|]. split; [exact Hdup | exact Hdup2].
Qed.

(** After a block that ran to its end the slot refers to the file that was
    opened and the other descriptors that were open refer to what they
    referred to; [saved] is -1 or a descriptor that was unused. *)
Lemma redirect_block_installs w (name : option string) (mode : string) (slot : nat)
    (s : state) (saved : Z) (s' : state) :
  (file <- fopen w name mode ;;
   saved <- dup w (Z.of_nat slot) ;;
   fd <- fileno file ;;
   dup2 fd (Z.of_nat slot) ;;
   ret saved) s = Ret saved s' ->
  exists n,
    name = Some n
    /\ fopen_errno w n mode = None
    /\ fd_lookup (fds s') (Z.of_nat slot) = Some (Opened n mode)
    /\ (forall k y, k <> Z.of_nat slot ->
          fd_lookup (fds s) k = Some y -> fd_lookup (fds s') k = Some y)
    /\ (saved = -1 \/ 0 <= saved)
    /\ (is_Some (fd_lookup (fds s) (Z.of_nat slot)) ->
        (open_count (fds s) + 2 <= open_max w)%nat -> 0 <= saved)
    /\ (is_Some (fd_lookup (fds s) (Z.of_nat slot)) ->
        open_count (fds s') =
        ((if (0 <=? saved)%Z then 2 else 1) + open_count (fds s))%nat).
Proof.
  intros Hrun.
  destruct (redirect_block_inv w name mode slot s saved s' Hrun)
    as (n & f & s1 & s2 & r & Hname & Herr & Ealloc & Hlim & Hdup & Hdup2).
  exists n. split; [exact Hname|]. split; [exact Herr|].
  destruct (fd_alloc_spec _ _ _ _ Ealloc) as (Hf_free & Hf_new & Hkeep1).
  pose proof (open_count_alloc _ _ _ _ Ealloc) as Hc1.
  assert (Hfile2 : fd_lookup (fds s2) (Z.of_nat f) = Some (Opened n mode)
                   /\ (forall k y, fd_lookup (fds s1) k = Some y ->
                                   fd_lookup (fds s2) k = Some y)).
  { destruct (dup_spec w _ _ _ _ Hdup) as [[_ Hsame]|(x & d & _ & Ea & _ & _)].
    - rewrite Hsame. split; [exact Hf_new | tauto].
    - destruct (fd_alloc_spec _ _ _ _ Ea) as (_ & _ & Hkeep2).
      split; [apply Hkeep2, Hf_new | exact Hkeep2]. }
  destruct Hfile2 as [Hfile2 Hkeep2].
  assert (Hfinal : fds s' =
                   if Z.of_nat f =? Z.of_nat slot then fds s2
                   else fd_install slot (Opened n mode) (fds s2)).
  { unfold dup2 in Hdup2. rewrite Hfile2 in Hdup2.
    destruct (Z.ltb_spec (Z.of_nat slot) 0); [lia|].
    destruct (Z.of_nat f =? Z.of_nat slot); inversion Hdup2; subst;
      cbn [fds log_event set_fds]; [reflexivity|].
    rewrite Nat2Z.id. reflexivity. }
  split.
  { rewrite Hfinal. destruct (Z.eqb_spec (Z.of_nat f) (Z.of_nat slot)) as [Heq|Hne].
    - rewrite <- Heq. exact Hfile2.
    - apply fd_lookup_install_same. }
  split.
  { intros k y Hk Hy. rewrite Hfinal.
    destruct (Z.of_nat f =? Z.of_nat slot).
    - apply Hkeep2, Hkeep1, Hy.
    - rewrite fd_lookup_install_other by exact Hk. apply Hkeep2, Hkeep1, Hy. }
  split.
  { destruct (dup_spec w _ _ _ _ Hdup) as [[Hr _]|(x & d & _ & _ & _ & Hr)];
      [left; exact Hr | right; lia]. }
  split.
  { intros [y Hy] Hroom. apply (dup_room w _ _ _ _ Hdup).
    - exists y. apply Hkeep1, Hy.
    - rewrite Hc1. lia. }
  intros [y Hy].
  assert (Hne : (Z.of_nat f =? Z.of_nat slot) = false).
  { apply Z.eqb_neq. intros Heq. rewrite Heq, Hy in Hf_free. discriminate. }
  rewrite Hne in Hfinal. rewrite Hfinal.
  rewrite (open_count_install slot _ y) by (apply Hkeep2, Hkeep1, Hy).
  destruct (dup_spec w _ _ _ _ Hdup) as [[Hr Hsame]|(x & d & _ & Ea & _ & Hr)].
  - subst saved. rewrite Hsame, Hc1. reflexivity.
  - pose proof (open_count_alloc _ _ _ _ Ea) as Hc2.
    destruct (Z.leb_spec 0 saved); [|lia]. rewrite Hc2, Hc1. reflexivity.
Qed.

(** When the slot was open and [dup] succeeded, the descriptor it saved
    refers to what the slot referred to. *)
Lemma redirect_block_spec w (name : option string) (mode : string) (slot : nat)
    (s : state) (x : ofile) (saved : Z) (s' : state) :
  fd_lookup (fds s) (Z.of_nat slot) = Some x ->
  (file <- fopen w name mode ;;
   saved <- dup w (Z.of_nat slot) ;;
   fd <- fileno file ;;
   dup2 fd (Z.of_nat slot) ;;
   ret saved) s = Ret saved s' ->
  0 <= saved ->
  fd_lookup (fds s') saved = Some x
  /\ fd_lookup (fds s) saved = None
  /\ is_Some (fd_lookup (fds s') (Z.of_nat slot))
  /\ (forall k y, k <> Z.of_nat slot ->
        fd_lookup (fds s) k = Some y -> fd_lookup (fds s') k = Some y).
Proof.
  intros Hslot Hrun Hsaved.
  destruct (redirect_block_installs w name mode slot s saved s' Hrun)
    as (n & _ & _ & Hfile & Hkeep & _ & _ & _).
  destruct (redirect_block_inv w name mode slot s saved s' Hrun)
    as (n' & f & s1 & s2 & r & _ & _ & Ealloc & _ & Hdup & Hdup2).
  destruct (fd_alloc_spec _ _ _ _ Ealloc) as (Hf_free & Hf_new & Hkeep1).
  destruct (dup_spec w _ _ _ _ Hdup) as [[Hr _]|(y & d & Hy & Ea & _ & Hr)]; [lia|].
  rewrite (Hkeep1 _ _ Hslot) in Hy. inversion Hy; subst y. clear Hy.
  destruct (fd_alloc_spec _ _ _ _ Ea) as (Hd_free & Hd_new & Hkeep2).
  assert (Hd_slot : saved <> Z.of_nat slot).
  { intros Heq. rewrite Hr in Heq. rewrite Heq, (Hkeep1 _ _ Hslot) in Hd_free.
    discriminate. }
  assert (Hfds' : fd_lookup (fds s') saved = fd_lookup (fds s2) saved).
  { unfold dup2 in Hdup2. rewrite (Hkeep2 _ _ Hf_new) in Hdup2.
    destruct (Z.ltb_spec (Z.of_nat slot) 0); [lia|].
    destruct (Z.of_nat f =? Z.of_nat slot); inversion Hdup2; subst r s';
      cbn [fds log_event set_fds]; [reflexivity|].
    rewrite Nat2Z.id. apply fd_lookup_install_other. exact Hd_slot. }
  split; [rewrite Hfds', Hr; exact Hd_new|].
  split.
  { destruct (fd_lookup (fds s) saved) as [z|] eqn:E; [|reflexivity].
    rewrite Hr in E. rewrite (Hkeep1 _ _ E) in Hd_free. discriminate. }
  split; [rewrite Hfile; eexists; reflexivity | exact Hkeep].
Qed.

Lemma is_str_exclusive (p : option string) :
  is_str p ">" = true -> is_str p "<" = false.
Proof.
  rewrite !is_str_eqb. destruct p as [str|]; [|discriminate].
  intros H. apply String.eqb_eq in H. subst str. reflexivity.
Qed.

Lemma redirect_spec w tokens rc s saved s' :
  redirect w tokens rc s = Ret saved s' ->
  (forall o0 o1,
      fd_lookup (fds s) 0 = Some o0 -> fd_lookup (fds s) 1 = Some o1 ->
      0 <= fst saved -> 0 <= snd saved ->
      saved_ok o0 o1 saved (fds s'))
  /\ (is_str rc ">" = false -> is_str rc "<" = false ->
      saved = (1, 0) /\ fds s' = fds s).
Proof.
  intros Hrun. unfold redirect in Hrun.
  apply bind_ret_inv in Hrun. destruct Hrun as (so & s1 & Hout & Hrun).
  apply bind_ret_inv in Hrun. destruct Hrun as (si & s2 & Hin & Hrun).
  unfold ret in Hrun. inversion Hrun; subst saved s2. clear Hrun.
  destruct (is_str rc ">") eqn:Egt.
  - rewrite (is_str_exclusive rc Egt) in Hin.
    unfold ret in Hin. inversion Hin; subst si s1. clear Hin.
    split; [|discriminate].
    intros o0 o1 H0 H1 Hso _. cbn [fst] in Hso.
    destruct (redirect_block_spec w _ "w" 1 s o1 so s' H1 Hout Hso)
      as (Hsaved & Hfree & Hslot & Hkeep).
    unfold saved_ok. cbn [fst snd].
    split; [exact Hsaved|]. split; [apply Hkeep; [lia | exact H0]|].
    split; [right; lia|]. split; [|exact Hslot].
    rewrite (Hkeep 0 o0) by (lia || exact H0). eexists; reflexivity.
  - unfold ret in Hout. inversion Hout; subst so s1. clear Hout.
    destruct (is_str rc "<") eqn:Elt.
    + split; [|discriminate].
      intros o0 o1 H0 H1 _ Hsi. cbn [snd] in Hsi.
      destruct (redirect_block_spec w _ "r" 0 s o0 si s' H0 Hin Hsi)
        as (Hsaved & Hfree & Hslot & Hkeep).
      unfold saved_ok. cbn [fst snd].
      split; [apply Hkeep; [lia | exact H1]|]. split; [exact Hsaved|].
      split; [left; reflexivity|]. split; [exact Hslot|].
      rewrite (Hkeep 1 o1) by (lia || exact H1). eexists; reflexivity.
    + unfold ret in Hin. inversion Hin; subst si s'. clear Hin.
      split.
      * intros o0 o1 H0 H1 _ _. unfold saved_ok. cbn [fst snd].
        rewrite H0, H1. repeat split; try (eexists; reflexivity). left; reflexivity.
      * intros _ _. split; reflexivity.
Qed.

Lemma dup2_trace oldfd newfd s r s' :
  dup2 oldfd newfd s = Ret r s' -> trace s' = trace s ++ [EDup2 oldfd newfd r].
Proof.
  unfold dup2. destruct (fd_lookup (fds s) oldfd).
  - destruct (newfd <? 0); [intros H; inversion H; reflexivity|].
    destruct (oldfd =? newfd); intros H; inversion H; reflexivity.
  - intros H; inversion H; reflexivity.
Qed.

Lemma dup2_same fd s r s' :
  dup2 fd fd s = Ret r s' -> fds s' = fds s.
Proof.
  unfold dup2. destruct (fd_lookup (fds s) fd).
  - destruct (fd <? 0); [intros H; inversion H; reflexivity|].
    rewrite Z.eqb_refl. intros H; inversion H; reflexivity.
  - intros H; inversion H; reflexivity.
Qed.

Lemma dup2_spec oldfd (slot : nat) s r s' x y :
  fd_lookup (fds s) oldfd = Some x ->
  fd_lookup (fds s) (Z.of_nat slot) = Some y ->
  dup2 oldfd (Z.of_nat slot) s = Ret r s' ->
  fd_lookup (fds s') (Z.of_nat slot) = Some x
  /\ (forall j, j <> Z.of_nat slot -> fd_lookup (fds s') j = fd_lookup (fds s) j).
Proof.
  intros Hold Hslot. unfold dup2. rewrite Hold.
  destruct (Z.ltb_spec (Z.of_nat slot) 0); [lia|].
  destruct (Z.eqb_spec oldfd (Z.of_nat slot)) as [->|Hne];
    intros Hd; inversion Hd; subst; cbn [fds log_event set_fds].
  - split; [exact Hold | reflexivity].
  - rewrite Nat2Z.id. apply (fd_install_spec slot x y). exact Hslot.
Qed.

Lemma restore_spec o0 o1 saved s r1 s1 r2 s2 :
  saved_ok o0 o1 saved (fds s) ->
  dup2 (fst saved) 1 s = Ret r1 s1 ->
  dup2 (snd saved) 0 s1 = Ret r2 s2 ->
  fd_lookup (fds s2) 0 = Some o0 /\ fd_lookup (fds s2) 1 = Some o1.
Proof.
  intros (Hso & Hsi & Hdis & [y0 H0] & [y1 H1]) Hd1 Hd2.
  destruct (dup2_spec (fst saved) 1 s r1 s1 o1 y1 Hso H1 Hd1) as (Hone & Hrest1).
  assert (Hsi1 : fd_lookup (fds s1) (snd saved) = Some o0).
  { destruct Hdis as [Heq|Hne].
    - rewrite Heq in Hd1. rewrite (dup2_same 1 s r1 s1 Hd1). exact Hsi.
    - rewrite Hrest1 by exact Hne. exact Hsi. }
  assert (H01 : fd_lookup (fds s1) 0 = Some y0).
  { rewrite (Hrest1 0) by lia. exact H0. }
  destruct (dup2_spec (snd saved) 0 s1 r2 s2 o0 y0 Hsi1 H01 Hd2) as (Hzero & Hrest2).
  split; [exact Hzero|]. rewrite (Hrest2 1) by lia. exact Hone.
Qed.

Ltac invert_bind H :=
  let a := fresh "a" in
  let s1 := fresh "s" in
  let Hm := fresh "Hstep" in
  apply bind_ret_inv in H; destruct H as (a & s1 & Hm & H).

Lemma prompt_spec (line_num : Z) s n s' :
  (interactive <- gets shell_is_interactive ;;
   if interactive then
     n <- int_incr line_num ;;
     fprintf_stdout (pretty n +:+ ": ") ;;
     ret n
   else ret line_num) s = Ret n s' ->
  fds s' = fds s
  /\ (trace s' = trace s \/ exists text, trace s' = trace s ++ [EWrite (fd_lookup (fds s) 1) text]).
Proof.
  unfold bind, gets, int_incr, fprintf_stdout, modify, ret, halt.
  destruct (shell_is_interactive s).
  - intros H; inversion H; subst. split; [reflexivity|]. right. eexists. reflexivity.
  - intros H; inversion H; subst. split; [reflexivity|]. left. reflexivity.
Qed.

(** What a line that runs to its end has done, step by step. *)
Lemma main_loop_body_steps w fk tokens line_num s n s' :
  main_loop_body w fk tokens line_num s = Ret n s' ->
  let redirect_check :=
    tokens_get_token tokens (size_sub (tokens_get_length tokens) 2) in
  exists s1 saved s2 bg r s3 r1 s4 r2 s5,
    fds s1 = fds s
    /\ tokens_get_token tokens (size_sub (tokens_get_length tokens) 1) = Some bg
    /\ redirect w tokens redirect_check s1 = Ret saved s2
    /\ dispatch w fk tokens redirect_check (strcmp bg "&") s2 = Ret r s3
    /\ dup2 (fst saved) 1 s3 = Ret r1 s4
    /\ dup2 (snd saved) 0 s4 = Ret r2 s5
    /\ fds s' = fds s5
    /\ (trace s' = trace s5
        \/ exists text, trace s' = trace s5 ++ [EWrite (fd_lookup (fds s5) 1) text]).
Proof.
  intros Hrun. cbv zeta. unfold main_loop_body in Hrun.
  do 8 (let a := fresh "a" in
        let s1 := fresh "s" in
        let Hm := fresh "Hsig" in
        apply bind_ret_inv in Hrun; destruct Hrun as (a & s1 & Hm & Hrun);
        apply (preserves_ret_eq fds) in Hm; [|solve [auto with shell_pres]]).
  invert_bind Hrun. apply deref_ret in Hstep. destruct Hstep as [Hbg ->].
  invert_bind Hrun. rename Hstep into Hredirect.
  invert_bind Hrun. rename Hstep into Hdispatch.
  invert_bind Hrun. rename Hstep into Hd1.
  invert_bind Hrun. rename Hstep into Hd2.
  apply prompt_spec in Hrun. destruct Hrun as [Hfds Htrace].
  do 10 eexists. split; [|split; [exact Hbg|]].
  2: { split; [exact Hredirect|]. split; [exact Hdispatch|]. split; [exact Hd1|].
       split; [exact Hd2|]. split; [exact Hfds | exact Htrace]. }
  congruence.
Qed.

(** C9: the saved descriptor is not always put back.  Under a limit of 16
    descriptors, after six lines [pwd > /tmp/out] fifteen descriptors are in
    use and descriptor 1 still is the original standard output.  On the
    seventh such line [fopen] takes the last descriptor, [dup(1)] fails and
    [std_out] is -1; [dup2(-1, 1)] then restores nothing, descriptor 1 is
    left on the file, and the output of the next line, a plain [pwd], is
    sent to the file. *)
Theorem C9_restore_fails_at_descriptor_limit :
  let w := world_ulimit_16 in
  let redirected := (["pwd"; ">"; "/tmp/out"], ForkFailed 0) in
  let six := main w (replicate 6 redirected) Sample.shell in
  let seven := main w (replicate 7 redirected) Sample.shell in
  let next := main w (replicate 7 redirected ++ [(["pwd"], ForkFailed 0)])
                Sample.shell in
  (returns six = true
   /\ fd_lookup (fds (final six)) 1 = Some (Inherited 1)
   /\ open_count (fds (final six)) = 15%nat)
  /\ (returns seven = true
      /\ drop (length (trace (final six))) (trace (final seven))
         = ignored_signals
           ++ [ EFopen (Some "/tmp/out") "w" (Some 15%nat);
                EDup 1 (-1);
                EDup2 15 1 1;
                EWrite (Some (Opened "/tmp/out" "w")) ("/home" +:+ nl);
                EDup2 (-1) 1 (-1);
                EDup2 0 0 0;
                EWrite (Some (Opened "/tmp/out" "w")) "7: " ]
      /\ fd_lookup (fds (final seven)) 1 = Some (Opened "/tmp/out" "w"))
  /\ (returns next = true
      /\ List.filter is_write (drop (length (trace (final seven))) (trace (final next)))
         = [ EWrite (Some (Opened "/tmp/out" "w")) ("/home" +:+ nl);
             EWrite (Some (Opened "/tmp/out" "w")) "8: " ]).
Proof.
  cbv zeta. repeat split; vm_compute; reflexivity.
Qed.

(** * Further properties of the code *)

(** ** The builtins *)

Lemma cmd_help_loop_spec (table : list fun_desc_t) (s : state) :
  exists s',
    cmd_help_loop table s = Ret tt s'
    /\ trace s' = trace s ++ map (EWrite (fd_lookup (fds s) 1)) (help_lines table)
    /\ fds s' = fds s /\ cwd s' = cwd s /\ children s' = children s
    /\ num_bprocesses s' = num_bprocesses s.
Proof.
  revert s. induction table as [|d rest IH]; intros s.
  - exists s. cbn. rewrite app_nil_r. repeat split.
  - cbn [cmd_help_loop]. unfold bind, fprintf_stdout, modify.
    destruct (IH (log_event (EWrite (fd_lookup (fds s) 1)
                               (cmd d +:+ " - " +:+ doc d +:+ nl)) s))
      as (s' & Hrun & Htr & Hfds & Hcwd & Hch & Hn).
    exists s'. split; [exact Hrun|]. cbn [fds trace cwd children num_bprocesses log_event] in *.
    rewrite Htr, <- app_assoc. repeat split; assumption.
Qed.

(** X1: [cmd_help] ignores its tokens: it writes one line [name - description]
    per entry of the table, in the order of the table, to what descriptor 1
    refers to, returns 1 and touches nothing else. *)
Theorem cmd_help_lists_table (tokens : list string) (s : state) :
  exists s',
    cmd_help tokens s = Ret 1 s'
    /\ trace s' = trace s ++ map (EWrite (fd_lookup (fds s) 1)) (help_lines cmd_table)
    /\ map cmd cmd_table = ["?"; "exit"; "pwd"; "cd"; "wait"]
    /\ length (help_lines cmd_table) = 5%nat
    /\ fds s' = fds s /\ cwd s' = cwd s /\ children s' = children s
    /\ num_bprocesses s' = num_bprocesses s.
Proof.
  destruct (cmd_help_loop_spec cmd_table s) as (s' & Hrun & Htr & Hrest).
  exists s'. unfold cmd_help, bind. rewrite Hrun.
  split; [reflexivity|]. split; [exact Htr|]. split; [reflexivity|].
  split; [reflexivity | exact Hrest].
Qed.

(** X2: [cmd_pwd] always returns 1 and leaves the working directory alone: it
    writes the directory and a newline when [getcwd] succeeds and
    "getcwd error: " with the system's error text when it fails. *)
Theorem cmd_pwd_prints_cwd (w : World) (tokens : list string) (s : state) :
  exists s',
    cmd_pwd w tokens s = Ret 1 s'
    /\ cwd s' = cwd s
    /\ fds s' = fds s
    /\ trace s' = trace s
         ++ [EWrite (fd_lookup (fds s) 1)
               (match getcwd_errno w (cwd s) with
                | None => cwd s +:+ nl
                | Some e => "getcwd error: " +:+ strerror w e +:+ nl
                end)].
Proof.
  unfold cmd_pwd, bind, getcwd, gets, fprintf_stdout, modify, ret.
  destruct (getcwd_errno w (cwd s)); eexists; (split; [reflexivity|]); repeat split.
Qed.

(** X3: After a [cd] whose [chdir] succeeds nothing is written and [pwd]
    prints the directory that was entered. *)
Theorem cd_then_pwd (w : World) (c path dir : string) (extra tokens' : list string)
    (s : state) :
  resolve_dir w (cwd s) path = Some dir ->
  getcwd_errno w dir = None ->
  exists s1 s2,
    cmd_cd w (c :: path :: extra) s = Ret 1 s1
    /\ cwd s1 = dir
    /\ trace s1 = trace s ++ [EChdir (Some path) 0]
    /\ cmd_pwd w tokens' s1 = Ret 1 s2
    /\ cwd s2 = dir
    /\ trace s2 = trace s1 ++ [EWrite (fd_lookup (fds s) 1) (dir +:+ nl)].
Proof.
  intros Hres Hcwd.
  assert (Hlen : (tokens_get_length (c :: path :: extra) =? 1) = false).
  { unfold tokens_get_length. cbn [length]. apply Z.eqb_neq. lia. }
  assert (Htok : tokens_get_token (c :: path :: extra) 1 = Some path).
  { change 1 with (Z.of_nat 1). rewrite tokens_get_token_nat. reflexivity. }
  unfold cmd_cd. rewrite Hlen, Htok.
  unfold bind, chdir. rewrite Hres. cbn [Z.eqb]. unfold ret.
  do 2 eexists. split; [reflexivity|]. cbn [cwd trace log_event set_cwd].
  split; [reflexivity|]. split; [reflexivity|].
  unfold cmd_pwd, bind, getcwd, gets, fprintf_stdout, modify, ret.
  cbn [cwd log_event set_cwd]. rewrite Hcwd.
  split; [reflexivity|]. split; reflexivity.
Qed.

Lemma cd_then_pwd_witness :
  exists s1 s2,
    cmd_cd Sample.world ["cd"; "/tmp"] Sample.shell = Ret 1 s1
    /\ cwd s1 = "/tmp"
    /\ trace s1 = trace Sample.shell ++ [EChdir (Some "/tmp") 0]
    /\ cmd_pwd Sample.world ["pwd"] s1 = Ret 1 s2
    /\ cwd s2 = "/tmp"
    /\ trace s2 = trace s1 ++ [EWrite (fd_lookup (fds Sample.shell) 1) ("/tmp" +:+ nl)].
Proof.
  apply (cd_then_pwd Sample.world "cd" "/tmp" "/tmp" [] ["pwd"] Sample.shell);
    reflexivity.
Defined.

(** X4: [cmd_cd] looks at its first argument only: further arguments change
    nothing. *)
Theorem cmd_cd_ignores_further_arguments (w : World) (c path : string)
    (extra : list string) (s : state) :
  cmd_cd w (c :: path :: extra) s = cmd_cd w [c; path] s.
Proof.
  assert (Hlen : forall l, (tokens_get_length (c :: path :: l) =? 1) = false).
  { intros l. unfold tokens_get_length. cbn [length]. apply Z.eqb_neq. lia. }
  assert (Htok : forall l, tokens_get_token (c :: path :: l) 1 = Some path).
  { intros l. change 1 with (Z.of_nat 1). rewrite tokens_get_token_nat. reflexivity. }
  unfold cmd_cd. rewrite !Hlen, !Htok. reflexivity.
Qed.

(** ** The ways the shell can stop *)

Lemma halts_only_bind {A B} P (m : M A) (k : A -> M B) :
  halts_only P m -> (forall a, halts_only P (k a)) -> halts_only P (bind m k).
Proof.
  intros Hm Hk s h s' H. unfold bind in H.
  destruct (m s) as [a s1|h1 s1] eqn:E.
  - exact (Hk a s1 h s' H).
  - inversion H; subst. exact (Hm s h s' E).
Qed.

Ltac case_innermost_in H :=
  match type of H with
  | context [match ?x with _ => _ end] =>
      lazymatch x with
      | context [match _ with _ => _ end] => fail
      | _ => destruct x
      end
  end.

Ltac halt_leaf :=
  let s := fresh "s" in
  let h := fresh "h" in
  let s' := fresh "s" in
  let H := fresh "H" in
  intros s h s' H;
  unfold fprintf_stdout, getpid, getpgrp, setpgid, signal, execv, fork, wait,
    tcsetpgrp, kill, isatty, tcgetattr_shell_tmodes, chdir, getcwd, fopen,
    fileno, dup, dup2, exit, int_incr, deref, modify, gets, ret, halt in H;
  repeat case_innermost_in H;
  try discriminate H; inversion H; subst; try exact I; try reflexivity.

Ltac halts_step :=
  lazymatch goal with
  | |- halts_only _ (bind _ _) => apply halts_only_bind; [|intros ?]
  | |- halts_only _ (if ?b then _ else _) => destruct b
  | |- halts_only _ (match ?x with _ => _ end) => destruct x
  end.

Create HintDb shell_halts.

Ltac halts := repeat halts_step; try solve [halt_leaf]; auto with shell_halts.

Lemma cmd_wait_loop_returns w s : exists s', cmd_wait_loop w s = Ret tt s'.
Proof.
  destruct (Z.le_gt_cases (num_bprocesses s) 0) as [Hle|Hgt].
  - exists s. apply cmd_wait_loop_idle. exact Hle.
  - destruct (cmd_wait_loop_spec w (Z.to_nat (num_bprocesses s)) s)
      as (rs & s' & Hrun & _); [lia|].
    exists s'. exact Hrun.
Qed.

Lemma cmd_wait_loop_halts w P : halts_only P (cmd_wait_loop w).
Proof.
  intros s h s' H. destruct (cmd_wait_loop_returns w s) as (s1 & Hs1).
  rewrite Hs1 in H. discriminate.
Qed.

Lemma cmd_help_loop_halts table P : halts_only P (cmd_help_loop table).
Proof.
  intros s h s' H. destruct (cmd_help_loop_spec table s) as (s1 & Hs1 & _).
  rewrite Hs1 in H. discriminate.
Qed.

Lemma try_all_halts w argv cands : halts_only exits_zero (try_all w argv cands).
Proof.
  induction cands as [|c rest IH]; intros s h s' H; cbn [try_all] in H.
  - discriminate.
  - unfold execv in H. destruct (executable w c).
    + inversion H; subst. exact I.
    + exact (IH _ _ _ H).
Qed.

Lemma path_loop_halts w path argv tokens save :
  halts_only exits_zero (path_loop w path argv tokens save).
Proof.
  intros s h s' H.
  rewrite (path_loop_try_all w path argv (String.length save)) in H by lia.
  exact (try_all_halts _ _ _ _ _ _ H).
Qed.

Lemma init_shell_loop_halts answers : halts_only exits_zero (init_shell_loop answers).
Proof.
  induction answers as [|fg rest IH]; cbn [init_shell_loop].
  - halt_leaf.
  - halts; try exact IH.
Qed.

#[export] Hint Resolve cmd_wait_loop_halts cmd_help_loop_halts path_loop_halts
  init_shell_loop_halts : shell_halts.

Lemma exec_func_halts w fk tokens rc fg :
  halts_only exits_zero (exec_func w fk tokens rc fg).
Proof. unfold exec_func. halts. Qed.

Lemma call_halts w f tokens : halts_only exits_zero (call w f tokens).
Proof.
  destruct f; unfold call, cmd_help, cmd_exit, cmd_pwd, cmd_cd, cmd_wait; halts.
Qed.

Lemma dispatch_halts w fk tokens rc fg :
  halts_only exits_zero (dispatch w fk tokens rc fg).
Proof.
  unfold dispatch. destruct (0 <=? lookup (tokens_get_token tokens 0)).
  - destruct (cmd_table !! Z.to_nat (lookup (tokens_get_token tokens 0))).
    + apply call_halts.
    + halt_leaf.
  - apply exec_func_halts.
Qed.

Lemma redirect_halts w tokens rc : halts_only exits_zero (redirect w tokens rc).
Proof. unfold redirect. halts. Qed.

#[export] Hint Resolve dispatch_halts redirect_halts : shell_halts.

Lemma main_loop_body_halts w fk tokens line_num :
  halts_only exits_zero (main_loop_body w fk tokens line_num).
Proof. unfold main_loop_body. halts. Qed.

Lemma main_loop_outcome w lines :
  forall line_num s,
    match main_loop w lines line_num s with
    | Ret r _ => r = 0
    | Halt h _ => exits_zero h
    end.
Proof.
  induction lines as [|[tokens fk] rest IH]; intros line_num s; cbn [main_loop].
  - reflexivity.
  - unfold bind.
    destruct (main_loop_body w fk tokens line_num s) as [n s1|h s1] eqn:E.
    + apply IH.
    + exact (main_loop_body_halts w fk tokens line_num s h s1 E).
Qed.

(** X5: Whatever the input, a status the shell ends with by its own doing
    is 0: when [main] returns it returns 0, and when the process calls
    [exit] the status it passes is 0. *)
Theorem shell_exit_status_zero (w : World)
    (lines : list (list string * fork_outcome)) (s : state) :
  match main w lines s with
  | Ret r _ => r = 0
  | Halt h _ => exits_zero h
  end.
Proof.
  unfold main. unfold bind at 1.
  destruct (init_shell w s) as [[] s1|h s1] eqn:Einit.
  - unfold bind at 1. unfold gets at 1. unfold bind at 1.
    match goal with
    | |- context [match ?m s1 with _ => _ end] =>
        destruct (m s1) as [[] s2|h s2] eqn:Eprompt
    end.
    + apply main_loop_outcome.
    + destruct (shell_is_interactive s1); unfold fprintf_stdout, modify, ret in Eprompt;
        discriminate.
  - assert (Hh : halts_only exits_zero (init_shell w)) by (unfold init_shell; halts).
    exact (Hh s h s1 Einit).
Qed.

(** ** Lines that stop the shell, and failures it survives *)

Lemma lookup_find (c : string) :
  lookup (Some c) =
  match list_find (fun d => cmd d = c) cmd_table with
  | Some (i, _) => Z.of_nat i
  | None => -1
  end.
Proof.
  unfold lookup. rewrite lookup_from_spec.
  destruct (list_find _ cmd_table) as [[i d]|]; reflexivity.
Qed.

Lemma dispatch_cons w fk c rest rc fg :
  dispatch w fk (c :: rest) rc fg =
  match list_find (fun d => cmd d = c) cmd_table with
  | Some (_, d) => call w (fun_ d) (c :: rest)
  | None => exec_func w fk (c :: rest) rc fg
  end.
Proof.
  unfold dispatch.
  replace (tokens_get_token (c :: rest) 0) with (Some c) by reflexivity.
  rewrite lookup_find.
  destruct (list_find (fun d => cmd d = c) cmd_table) as [[i d]|] eqn:E.
  - apply list_find_Some in E. destruct E as (Hi & _ & _).
    destruct (Z.leb_spec 0 (Z.of_nat i)); [|lia].
    rewrite Nat2Z.id, Hi. reflexivity.
  - reflexivity.
Qed.

Lemma main_loop_body_preserves {T} (f : state -> T) w fk tokens line_num :
  (forall sig h, preserves f (signal sig h)) ->
  (forall rc, preserves f (redirect w tokens rc)) ->
  (forall rc fg, preserves f (dispatch w fk tokens rc fg)) ->
  (forall a b, preserves f (dup2 a b)) ->
  (forall text, preserves f (fprintf_stdout text)) ->
  preserves f (main_loop_body w fk tokens line_num).
Proof. intros Hsig Hred Hdis Hdup Hpr. unfold main_loop_body. pres. Qed.

Lemma redirect_preserves_children w tokens rc : preserves children (redirect w tokens rc).
Proof. unfold redirect. pres. Qed.

Lemma bind_halt_inv {A B} (m : M A) (k : A -> M B) (s : state) h (s' : state) :
  bind m k s = Halt h s' ->
  m s = Halt h s' \/ exists a s1, m s = Ret a s1 /\ k a s1 = Halt h s'.
Proof.
  unfold bind. destruct (m s) as [a s1|h1 s1].
  - intros H. right. exists a, s1. split; [reflexivity | exact H].
  - intros H. left. inversion H; subst. reflexivity.
Qed.

Lemma redirect_halt_reason w tokens rc s h s' :
  redirect w tokens rc s = Halt h s' ->
  h = Undefined "fileno(NULL)" /\ (is_str rc ">" = true \/ is_str rc "<" = true).
Proof.
  intros H. split.
  - assert (Hh : halts_only (fun h0 => h0 = Undefined "fileno(NULL)")
                   (redirect w tokens rc)) by (unfold redirect; halts).
    exact (Hh _ _ _ H).
  - unfold redirect in H. destruct (is_str rc ">"); [left; reflexivity|].
    destruct (is_str rc "<"); [right; reflexivity|].
    unfold bind, ret in H. discriminate.
Qed.

(** Where a line stops when it does not run to its end: at the [strcmp] on
    an absent last token, in a redirection block, or in the dispatch. *)
Lemma main_loop_body_halt_cases w fk tokens line_num s h s' :
  main_loop_body w fk tokens line_num s = Halt h s' ->
  let redirect_check :=
    tokens_get_token tokens (size_sub (tokens_get_length tokens) 2) in
  (tokens_get_token tokens (size_sub (tokens_get_length tokens) 1) = None
   /\ h = Undefined "strcmp(NULL, ...)")
  \/ (exists s1, redirect w tokens redirect_check s1 = Halt h s')
  \/ (exists s1 saved s2 fg,
        redirect w tokens redirect_check s1 = Ret saved s2
        /\ dispatch w fk tokens redirect_check fg s2 = Halt h s').
Proof.
  intros Hrun. cbv zeta. unfold main_loop_body in Hrun.
  do 8 (apply bind_halt_inv in Hrun;
        destruct Hrun as [Hrun|(? & ? & _ & Hrun)];
        [unfold signal, modify in Hrun; discriminate|]).
  cbv zeta in Hrun.
  apply bind_halt_inv in Hrun. destruct Hrun as [Hrun|(bg & sa & Hbg & Hrun)].
  { left. unfold deref, ret, halt in Hrun.
    destruct (tokens_get_token tokens _); [discriminate|].
    inversion Hrun; subst. split; reflexivity. }
  right.
  apply bind_halt_inv in Hrun. destruct Hrun as [Hrun|(saved & sr & Hred & Hrun)].
  { left. eexists. exact Hrun. }
  right.
  apply bind_halt_inv in Hrun. destruct Hrun as [Hrun|(r & sd & _ & Hrun)].
  - do 4 eexists. split; [exact Hred | exact Hrun].
  - exfalso.
    match type of Hrun with
    | ?m sd = _ => assert (Hm : halts_only (fun _ => False) m) by halts
    end.
    exact (Hm _ _ _ Hrun).
Qed.

Lemma last_token_exists (c : string) (rest : list string) :
  Z.of_nat (length rest) + 1 < SIZE_MOD ->
  is_Some (tokens_get_token (c :: rest)
             (size_sub (tokens_get_length (c :: rest)) 1)).
Proof.
  intros Hlen. unfold tokens_get_length, size_sub. cbn [length].
  replace ((Z.of_nat (S (length rest)) - 1) mod SIZE_MOD)
    with (Z.of_nat (length rest)) by (rewrite Z.mod_small; lia).
  rewrite tokens_get_token_nat. apply lookup_lt_is_Some. cbn [length]. lia.
Qed.

(** X6: A line whose first token is [exit] never returns to the loop and
    leaves the background jobs as they are, neither waited for nor counted
    down.  The dispatch of such a line is [exit(0)]; the line ends the
    shell with status 0 unless a redirection block stops it before the
    dispatch, in [fileno] on a stream that could not be opened, which can
    happen only when the token before the last is [>] or [<]. *)
Theorem exit_line_ends_shell (w : World) (fk : fork_outcome) (rest : list string)
    (line_num : Z) (s : state) :
  Z.of_nat (length rest) + 1 < SIZE_MOD ->
  let tokens := "exit" :: rest in
  let redirect_check :=
    tokens_get_token tokens (size_sub (tokens_get_length tokens) 2) in
  (forall rc fg s0, dispatch w fk tokens rc fg s0 = Halt (Exited 0) s0)
  /\ exists h s',
       main_loop_body w fk tokens line_num s = Halt h s'
       /\ (h = Exited 0 \/ h = Undefined "fileno(NULL)")
       /\ (is_str redirect_check ">" = false ->
           is_str redirect_check "<" = false -> h = Exited 0)
       /\ children s' = children s
       /\ num_bprocesses s' = num_bprocesses s.
Proof.
  intros Hlen tokens redirect_check.
  assert (Hd : forall rc fg s0,
             dispatch w fk tokens rc fg s0 = Halt (Exited 0) s0).
  { intros rc fg s0. unfold tokens. rewrite dispatch_cons. reflexivity. }
  split; [exact Hd|].
  assert (Hch : children (final (main_loop_body w fk tokens line_num s)) = children s).
  { apply (main_loop_body_preserves children); intros;
      first [ apply redirect_preserves_children
            | intros s0; rewrite Hd; reflexivity
            | prim ]. }
  assert (Hnum : num_bprocesses (final (main_loop_body w fk tokens line_num s))
                 = num_bprocesses s).
  { apply (main_loop_body_preserves num_bprocesses); intros;
      first [ apply redirect_preserves_counter
            | intros s0; rewrite Hd; reflexivity
            | prim ]. }
  destruct (main_loop_body w fk tokens line_num s) as [n s'|h s'] eqn:E.
  { destruct (main_loop_body_steps _ _ _ _ _ _ _ E)
      as (s1 & saved & s2 & bg & r & s3 & r1 & s4 & r2 & s5
          & _ & _ & _ & Hdis & _).
    rewrite Hd in Hdis. discriminate. }
  cbn [final] in Hch, Hnum. exists h, s'. split; [reflexivity|].
  destruct (main_loop_body_halt_cases _ _ _ _ _ _ _ E)
    as [[Hnone _]|[(s1 & Hred)|(s1 & saved & s2 & fg & _ & Hdis)]].
  - destruct (last_token_exists "exit" rest Hlen) as [x Hx].
    unfold tokens in Hnone. rewrite Hx in Hnone. discriminate.
  - destruct (redirect_halt_reason _ _ _ _ _ _ Hred) as [-> Hop].
    split; [right; reflexivity|]. split; [|split; assumption].
    fold redirect_check in Hop. intros Hgt Hlt.
    destruct Hop as [Hop|Hop]; congruence.
  - rewrite Hd in Hdis. inversion Hdis; subst.
    split; [left; reflexivity|]. split; [reflexivity | split; assumption].
Qed.

Lemma exit_line_ends_shell_witness :
  let tokens := "exit" :: ["now"] in
  let redirect_check :=
    tokens_get_token tokens (size_sub (tokens_get_length tokens) 2) in
  (forall rc fg s0,
      dispatch Sample.world (ForkFailed 0) tokens rc fg s0 = Halt (Exited 0) s0)
  /\ exists h s',
       main_loop_body Sample.world (ForkFailed 0) tokens 0 Sample.shell_with_job
       = Halt h s'
       /\ (h = Exited 0 \/ h = Undefined "fileno(NULL)")
       /\ (is_str redirect_check ">" = false ->
           is_str redirect_check "<" = false -> h = Exited 0)
       /\ children s' = children Sample.shell_with_job
       /\ num_bprocesses s' = num_bprocesses Sample.shell_with_job.
Proof.
  apply (exit_line_ends_shell Sample.world (ForkFailed 0) ["now"] 0
           Sample.shell_with_job).
  vm_compute. reflexivity.
Defined.

(** X7: When [fork] fails, [exec_func] writes "fork error", returns 0 and leaves
    the children, the counter, the descriptors and the terminal alone. *)
Theorem fork_failure_skips_command (w : World) (e : Z) (tokens : list string)
    (rc : option string) (fg : Z) (s : state) :
  exists s',
    exec_func w (ForkFailed e) tokens rc fg s = Ret 0 s'
    /\ trace s' = trace s
         ++ [EFork (-1); EWrite (fd_lookup (fds s) 1) ("fork error" +:+ nl)]
    /\ errno s' = e
    /\ children s' = children s
    /\ num_bprocesses s' = num_bprocesses s
    /\ fds s' = fds s
    /\ pid s' = pid s.
Proof.
  unfold exec_func, bind, fork, fprintf_stdout, modify, ret. cbn [Z.eqb].
  eexists. split; [reflexivity|].
  cbn [trace errno children num_bprocesses fds pid log_event set_errno].
  rewrite <- app_assoc. repeat split.
Qed.

(** X8: On a line without tokens [main] hands the absent last token to
    [strcmp]: the shell stops there, after it has set the signal
    dispositions and before it has opened, forked or written anything. *)
Theorem empty_line_stops_shell (w : World) (fk : fork_outcome) (line_num : Z)
    (s : state) :
  exists s',
    main_loop_body w fk [] line_num s = Halt (Undefined "strcmp(NULL, ...)") s'
    /\ trace s' = trace s ++ ignored_signals
    /\ fds s' = fds s
    /\ children s' = children s
    /\ num_bprocesses s' = num_bprocesses s.
Proof.
  unfold main_loop_body. eval_tokens.
  unfold bind, signal, modify, deref, halt. cbn beta iota.
  eexists. split; [reflexivity|].
  cbn [trace fds children num_bprocesses log_event set_errno].
  rewrite <- !app_assoc. repeat split.
Qed.

(** X9: [lookup] returns -1 or the index of an entry of the table, and then the
    name of that entry is the token: the access [cmd_table[fundex]] of
    [main] is always within the table.  An absent token gives -1. *)
Theorem lookup_within_table (c : option string) :
  lookup None = -1
  /\ (lookup c = -1
      \/ exists str d,
           c = Some str
           /\ 0 <= lookup c < Z.of_nat (length cmd_table)
           /\ cmd_table !! Z.to_nat (lookup c) = Some d
           /\ cmd d = str).
Proof.
  split; [reflexivity|].
  destruct c as [str|]; [|left; reflexivity].
  destruct (lookup_some_cases str) as [[Hl _]|(i & d & Hl & Hd & Hc)].
  - left. exact Hl.
  - right. exists str, d. rewrite Hl, Nat2Z.id.
    pose proof (lookup_lt_Some _ _ _ Hd) as Hlt.
    repeat split; try assumption; lia.
Qed.

(** X10: With PATH unset, a command name that does not begin with ['/'] takes
    the child to [strtok(NULL, ":")] with nothing saved: the child stops
    there, before any [execv] and without an error message. *)
Theorem unset_PATH_stops_child (w : World) (p : positive) (tokens : list string)
    (rc : option string) (fg : Z) (s : state) (name : string) :
  tokens_get_token tokens 0 = Some name ->
  is_absolute name = false ->
  env_PATH w = None ->
  exists what s',
    exec_func w (ForkChild p) tokens rc fg s = Halt (Undefined what) s'
    /\ trace s' = trace s ++ child_prologue (Z.pos p).
Proof.
  intros Htok Habs Henv. apply exec_func_child_stuck.
  right. exists name. split; [exact Htok|].
  unfold search_candidates. rewrite Habs, Henv. reflexivity.
Qed.

Lemma unset_PATH_stops_child_witness :
  exists what s',
    exec_func world_without_PATH (ForkChild 7) ["ls"] None 1 Sample.shell
    = Halt (Undefined what) s'
    /\ trace s' = trace Sample.shell ++ child_prologue 7.
Proof.
  apply (unset_PATH_stops_child world_without_PATH 7 ["ls"] None 1 Sample.shell "ls");
    reflexivity.
Defined.

(** ** Redirection: failure, the descriptor it installs, and what it leaks *)

Lemma last_two_tokens (front : list string) (op file : string) :
  Z.of_nat (length front) + 2 < SIZE_MOD ->
  tokens_get_token (front ++ [op; file])
    (size_sub (tokens_get_length (front ++ [op; file])) 2) = Some op
  /\ tokens_get_token (front ++ [op; file])
       (size_sub (tokens_get_length (front ++ [op; file])) 1) = Some file.
Proof.
  intros Hlen. unfold tokens_get_length, size_sub.
  rewrite length_app. cbn [length].
  replace ((Z.of_nat (length front + 2) - 2) mod SIZE_MOD)
    with (Z.of_nat (length front)) by (rewrite Z.mod_small; lia).
  replace ((Z.of_nat (length front + 2) - 1) mod SIZE_MOD)
    with (Z.of_nat (S (length front))) by (rewrite Z.mod_small; lia).
  rewrite !tokens_get_token_nat. split.
  - rewrite lookup_app_r by lia. rewrite Nat.sub_diag. reflexivity.
  - rewrite lookup_app_r by lia.
    replace (S (length front) - length front)%nat with 1%nat by lia. reflexivity.
Qed.

Lemma redirect_failed_open w tokens op file e s :
  op = ">" \/ op = "<" ->
  tokens_get_token tokens (size_sub (tokens_get_length tokens) 1) = Some file ->
  fopen_errno w file (redirect_mode op) = Some e ->
  exists r s',
    redirect w tokens (Some op) s = Halt (Undefined "fileno(NULL)") s'
    /\ trace s' = trace s
         ++ [EFopen (Some file) (redirect_mode op) None; EDup (redirect_slot op) r]
    /\ children s' = children s
    /\ num_bprocesses s' = num_bprocesses s.
Proof.
  intros Hop Hfile Hfail. unfold redirect. rewrite Hfile.
  destruct Hop as [-> | ->].
  - change (is_str (Some ">") ">") with true. cbv iota.
    change (redirect_mode ">") with "w" in *.
    change (redirect_slot ">") with 1.
    unfold bind at 1. unfold bind at 1. unfold fopen. rewrite Hfail.
    unfold bind, dup, fileno, halt. cbn [fds log_event set_errno].
    destruct (fd_lookup (fds s) 1) as [x|].
    + destruct (fd_alloc x (fds s)) as [n t] eqn:Ealloc.
      destruct (n <? open_max w)%nat.
      * do 2 eexists. split; [reflexivity|].
        cbn [trace children num_bprocesses log_event set_errno set_fds].
        rewrite <- app_assoc. repeat split.
      * do 2 eexists. split; [reflexivity|].
        cbn [trace children num_bprocesses log_event set_errno set_fds].
        rewrite <- app_assoc. repeat split.
    + do 2 eexists. split; [reflexivity|].
      cbn [trace children num_bprocesses log_event set_errno set_fds].
      rewrite <- app_assoc. repeat split.
  - change (is_str (Some "<") ">") with false.
    change (is_str (Some "<") "<") with true. cbv iota.
    change (redirect_mode "<") with "r" in *.
    change (redirect_slot "<") with 0.
    unfold bind at 1. unfold ret at 1. unfold bind at 1. unfold bind at 1.
    unfold fopen. rewrite Hfail.
    unfold bind, dup, fileno, halt. cbn [fds log_event set_errno].
    destruct (fd_lookup (fds s) 0) as [x|].
    + destruct (fd_alloc x (fds s)) as [n t] eqn:Ealloc.
      destruct (n <? open_max w)%nat.
      * do 2 eexists. split; [reflexivity|].
        cbn [trace children num_bprocesses log_event set_errno set_fds].
        rewrite <- app_assoc. repeat split.
      * do 2 eexists. split; [reflexivity|].
        cbn [trace children num_bprocesses log_event set_errno set_fds].
        rewrite <- app_assoc. repeat split.
    + do 2 eexists. split; [reflexivity|].
      cbn [trace children num_bprocesses log_event set_errno set_fds].
      rewrite <- app_assoc. repeat split.
Qed.

(** X11: When the file of a redirection cannot be opened, for [>] as for [<],
    the null stream reaches [fileno] and the shell stops: the line has
    then only set the signal dispositions, tried the open and duplicated
    the descriptor; no command has run and nothing was written. *)
Theorem failed_open_stops_shell (w : World) (fk : fork_outcome)
    (front : list string) (op file : string) (e : Z) (line_num : Z) (s : state) :
  op = ">" \/ op = "<" ->
  Z.of_nat (length front) + 2 < SIZE_MOD ->
  fopen_errno w file (redirect_mode op) = Some e ->
  exists r s',
    main_loop_body w fk (front ++ [op; file]) line_num s
    = Halt (Undefined "fileno(NULL)") s'
    /\ trace s' = trace s ++ ignored_signals
         ++ [EFopen (Some file) (redirect_mode op) None; EDup (redirect_slot op) r]
    /\ children s' = children s
    /\ num_bprocesses s' = num_bprocesses s.
Proof.
  intros Hop Hlen Hfail.
  destruct (last_two_tokens front op file Hlen) as [Hrc Hfile].
  unfold main_loop_body. cbv zeta. rewrite Hrc, Hfile.
  unfold bind, signal, modify, deref, ret. cbn beta iota.
  match goal with
  | |- context [redirect w ?t (Some op) ?S] =>
      destruct (redirect_failed_open w t op file e S Hop Hfile Hfail)
        as (r & s' & Hrun & Htrace & Hchildren & Hnum)
  end.
  rewrite Hrun. exists r, s'. split; [reflexivity|].
  rewrite Htrace, Hchildren, Hnum.
  cbn [trace children num_bprocesses log_event set_errno].
  unfold ignored_signals. rewrite <- !app_assoc. repeat split.
Qed.

Lemma failed_open_stops_shell_witness :
  exists r s',
    main_loop_body Sample.world (ForkParent 7)
      (["sort"] ++ ["<"; "/nonexistent/in.txt"]) 0 Sample.shell
    = Halt (Undefined "fileno(NULL)") s'
    /\ trace s' = trace Sample.shell ++ ignored_signals
         ++ [EFopen (Some "/nonexistent/in.txt") (redirect_mode "<") None;
             EDup (redirect_slot "<") r]
    /\ children s' = children Sample.shell
    /\ num_bprocesses s' = num_bprocesses Sample.shell.
Proof.
  apply (failed_open_stops_shell Sample.world (ForkParent 7) ["sort"] "<"
           "/nonexistent/in.txt" 2 0 Sample.shell).
  - right. reflexivity.
  - vm_compute. reflexivity.
  - vm_compute. reflexivity.
Defined.

Lemma redirect_installs w tokens op file s saved s' :
  op = ">" \/ op = "<" ->
  tokens_get_token tokens (size_sub (tokens_get_length tokens) 1) = Some file ->
  redirect w tokens (Some op) s = Ret saved s' ->
  exists sv,
    saved = (if String.eqb op ">" then (sv, 0) else (1, sv))
    /\ fopen_errno w file (redirect_mode op) = None
    /\ fd_lookup (fds s') (redirect_slot op) = Some (Opened file (redirect_mode op))
    /\ (forall k y, k <> redirect_slot op ->
          fd_lookup (fds s) k = Some y -> fd_lookup (fds s') k = Some y)
    /\ (sv = -1 \/ 0 <= sv)
    /\ (is_Some (fd_lookup (fds s) (redirect_slot op)) ->
        (open_count (fds s) + 2 <= open_max w)%nat -> 0 <= sv)
    /\ (is_Some (fd_lookup (fds s) (redirect_slot op)) ->
        open_count (fds s') =
        ((if (0 <=? sv)%Z then 2 else 1) + open_count (fds s))%nat).
Proof.
  intros Hop Hfile Hrun. unfold redirect in Hrun. rewrite Hfile in Hrun.
  apply bind_ret_inv in Hrun. destruct Hrun as (so & s1 & Hout & Hrun).
  apply bind_ret_inv in Hrun. destruct Hrun as (si & s2 & Hin & Hrun).
  unfold ret in Hrun. inversion Hrun; subst saved s2. clear Hrun.
  destruct Hop as [-> | ->].
  - change (is_str (Some ">") ">") with true in Hout.
    change (is_str (Some ">") "<") with false in Hin. cbv iota in Hout, Hin.
    unfold ret in Hin. inversion Hin; subst si s1. clear Hin.
    destruct (redirect_block_installs w _ "w" 1 s so s' Hout)
      as (n & Hn & Hrest).
    inversion Hn; subst n. exists so. split; [reflexivity | exact Hrest].
  - change (is_str (Some "<") ">") with false in Hout.
    change (is_str (Some "<") "<") with true in Hin. cbv iota in Hout, Hin.
    unfold ret in Hout. inversion Hout; subst so s1. clear Hout.
    destruct (redirect_block_installs w _ "r" 0 s si s' Hin)
      as (n & Hn & Hrest).
    inversion Hn; subst n. exists si. split; [reflexivity | exact Hrest].
Qed.






(** X21: When descriptors 0 and 1 are open before a line and two more
    descriptors are allowed by the limit, a line that runs to its end
    leaves descriptors 0 and 1 referring to the files they referred to
    before it, whatever the command was and with or without a
    redirection.  On a line without a redirection operator the saved
    values are 1 and 0 and the whole descriptor table is as it was, with no
    condition. *)
Theorem descriptors_restored_with_room (w : World) (fk : fork_outcome)
    (tokens : list string) (line_num : Z) (s : state) (n : Z) (s' : state) :
  main_loop_body w fk tokens line_num s = Ret n s' ->
  let redirect_check :=
    tokens_get_token tokens (size_sub (tokens_get_length tokens) 2) in
  (forall o0 o1,
      fd_lookup (fds s) 0 = Some o0 -> fd_lookup (fds s) 1 = Some o1 ->
      (open_count (fds s) + 2 <= open_max w)%nat ->
      fd_lookup (fds s') 0 = Some o0 /\ fd_lookup (fds s') 1 = Some o1)
  /\ (is_str redirect_check ">" = false -> is_str redirect_check "<" = false ->
      fds s' = fds s).
Proof.
  intros Hrun redirect_check.
  destruct (main_loop_body_steps w fk tokens line_num s n s' Hrun)
    as (s1 & saved & s2 & bg & r & s3 & r1 & s4 & r2 & s5
        & Hfds1 & Hbg & Hredirect & Hdispatch & Hd1 & Hd2 & Hfds5 & _).
  fold redirect_check in Hredirect, Hdispatch.
  destruct (redirect_spec w tokens redirect_check s1 saved s2 Hredirect)
    as [Hsaved Hplain].
  pose proof (preserves_ret_eq fds _ _ _ _
                (dispatch_preserves_fds w fk tokens redirect_check (strcmp bg "&"))
                Hdispatch) as Hfds3.
  split.
  - intros o0 o1 H0 H1 Hroom. rewrite <- Hfds1 in H0, H1, Hroom.
    assert (Hnonneg : 0 <= fst saved /\ 0 <= snd saved).
    { destruct (is_str redirect_check ">") eqn:Egt;
        [|destruct (is_str redirect_check "<") eqn:Elt].
      - rewrite is_str_eqb in Egt.
        destruct redirect_check as [op|] eqn:Erc; [|discriminate].
        apply String.eqb_eq in Egt. subst op.
        destruct (redirect_installs w tokens ">" bg s1 saved s2
                    (or_introl eq_refl) Hbg Hredirect)
          as (sv & -> & _ & _ & _ & _ & Hsv & _).
        cbn [fst snd String.eqb Ascii.eqb Bool.eqb]. split; [|lia].
        apply Hsv; [eexists; exact H1 | exact Hroom].
      - rewrite is_str_eqb in Elt.
        destruct redirect_check as [op|] eqn:Erc; [|discriminate].
        apply String.eqb_eq in Elt. subst op.
        destruct (redirect_installs w tokens "<" bg s1 saved s2
                    (or_intror eq_refl) Hbg Hredirect)
          as (sv & -> & _ & _ & _ & _ & Hsv & _).
        cbn [fst snd String.eqb Ascii.eqb Bool.eqb]. split; [lia|].
        apply Hsv; [eexists; exact H0 | exact Hroom].
      - destruct (Hplain eq_refl eq_refl) as [-> _]. cbn [fst snd]. lia. }
    destruct Hnonneg as [Hn1 Hn0].
    specialize (Hsaved o0 o1 H0 H1 Hn1 Hn0). rewrite <- Hfds3 in Hsaved.
    destruct (restore_spec o0 o1 saved s3 r1 s4 r2 s5 Hsaved Hd1 Hd2) as [Hz Ho].
    rewrite Hfds5. split; [exact Hz | exact Ho].
  - intros Hgt Hlt. destruct (Hplain Hgt Hlt) as [-> Hfds2].
    cbn [fst snd] in Hd1, Hd2.
    rewrite Hfds5, (dup2_same 0 s4 r2 s5 Hd2), (dup2_same 1 s3 r1 s4 Hd1).
    congruence.
Qed.

Lemma descriptors_restored_with_room_witness :
  let s' := final (main_loop_body Sample.world (ForkParent 7)
                     ["ls"; ">"; "out.txt"] 0 Sample.shell) in
  fd_lookup (fds s') 0 = Some (Inherited 0)
  /\ fd_lookup (fds s') 1 = Some (Inherited 1).
Proof.
  assert (Hrun : main_loop_body Sample.world (ForkParent 7) ["ls"; ">"; "out.txt"] 0
                   Sample.shell
                 = Ret 1 (final (main_loop_body Sample.world (ForkParent 7)
                                   ["ls"; ">"; "out.txt"] 0 Sample.shell)))
    by (vm_compute; reflexivity).
  apply (proj1 (descriptors_restored_with_room _ _ _ _ _ _ _ Hrun)
           (Inherited 0) (Inherited 1)).
  - reflexivity.
  - reflexivity.
  - vm_compute. lia.
Defined.

(** ** Who runs the program *)

#[export] Hint Extern 3 (preserves _ (execv _ _ _)) => solve [prim] : shell_pres.
#[export] Hint Extern 3 (preserves _ (fprintf_stdout _)) => solve [prim] : shell_pres.
#[export] Hint Extern 3 (preserves _ (cmd_wait_body _)) =>
  solve [unfold cmd_wait_body; pres] : shell_pres.

Lemma halts_only_weaken {A} (P Q : halt_reason -> Prop) (m : M A) :
  (forall h, P h -> Q h) -> halts_only P m -> halts_only Q m.
Proof. intros HPQ Hm s h s' H. exact (HPQ h (Hm s h s' H)). Qed.

Lemma redirect_crashes w tokens rc : halts_only undefined_only (redirect w tokens rc).
Proof. unfold redirect. halts. Qed.

Lemma restore_and_prompt_crashes (std_out std_in line_num : Z) :
  halts_only undefined_only
    (dup2 std_out 1 ;;
     dup2 std_in 0 ;;
     interactive <- gets shell_is_interactive ;;
     if interactive then
       n <- int_incr line_num ;;
       fprintf_stdout (pretty n +:+ ": ") ;;
       ret n
     else ret line_num).
Proof. halts. Qed.

(** Where a line stops when it stops in a new program image: the
    redirections were set up, and the stop is inside the dispatch. *)
Lemma main_loop_body_replaced w fk tokens line_num s path argv s' :
  main_loop_body w fk tokens line_num s = Halt (Replaced path argv) s' ->
  let redirect_check :=
    tokens_get_token tokens (size_sub (tokens_get_length tokens) 2) in
  exists s1 saved s2 fg,
    fds s1 = fds s
    /\ redirect w tokens redirect_check s1 = Ret saved s2
    /\ dispatch w fk tokens redirect_check fg s2 = Halt (Replaced path argv) s'.
Proof.
  intros Hrun. cbv zeta. unfold main_loop_body in Hrun.
  do 8 (let a := fresh "a" in
        let s1 := fresh "s" in
        let Hm := fresh "Hsig" in
        apply bind_halt_inv in Hrun;
        destruct Hrun as [Hrun|(a & s1 & Hm & Hrun)];
        [unfold signal, modify in Hrun; discriminate|];
        apply (preserves_ret_eq fds) in Hm; [|solve [auto with shell_pres]]).
  cbv zeta in Hrun.
  apply bind_halt_inv in Hrun. destruct Hrun as [Hrun|(bg & sa & Hbg & Hrun)].
  { unfold deref, ret, halt in Hrun.
    destruct (tokens_get_token tokens _); discriminate. }
  apply deref_ret in Hbg. destruct Hbg as [_ Hsa]. subst sa.
  apply bind_halt_inv in Hrun. destruct Hrun as [Hrun|(saved & sr & Hred & Hrun)].
  { destruct (redirect_crashes _ _ _ _ _ _ Hrun). }
  apply bind_halt_inv in Hrun. destruct Hrun as [Hrun|(r & sd & _ & Hrun)].
  - match type of Hred with
    | redirect _ _ _ ?st = _ => exists st, saved, sr, (strcmp bg "&")
    end.
    split; [congruence|]. split; [exact Hred | exact Hrun].
  - destruct (restore_and_prompt_crashes _ _ _ _ _ _ Hrun).
Qed.

Lemma call_not_replaced w f tokens : halts_only not_replaced (call w f tokens).
Proof.
  destruct f; unfold call, cmd_help, cmd_exit, cmd_pwd, cmd_cd, cmd_wait; halts.
Qed.

Lemma exec_func_child_replaced w p tokens rc fg s path argv s' :
  exec_func w (ForkChild p) tokens rc fg s = Halt (Replaced path argv) s' ->
  pid s' = Z.pos p.
Proof.
  intros Hrun.
  destruct (tokens_get_token tokens 0) as [name|] eqn:Htok.
  - destruct (search_candidates w name) as [cands|] eqn:Hc.
    + rewrite (exec_func_child w p tokens rc fg s name cands Htok Hc) in Hrun.
      pose proof (try_all_preserves pid w (build_argv tokens (argv_len tokens rc))
                    cands) as Hpid.
      specialize (Hpid ltac:(intros c; prim) (child_start w p s)).
      destruct (try_all w _ cands (child_start w p s)) as [r s1|h s1];
        [discriminate|].
      inversion Hrun; subst. cbn [final] in Hpid. rewrite Hpid.
      destruct (child_start_facts w p s) as (_ & _ & _ & Hp & _). exact Hp.
    + destruct (exec_func_child_stuck w p tokens rc fg s) as (what & s1 & Hs & _).
      { right. exists name. split; [exact Htok | exact Hc]. }
      rewrite Hs in Hrun. discriminate.
  - destruct (exec_func_child_stuck w p tokens rc fg s) as (what & s1 & Hs & _).
    { left. exact Htok. }
    rewrite Hs in Hrun. discriminate.
Qed.

(** X13: A program started on a line with a redirection starts with the file on
    the redirected descriptor: at the [execv] that succeeds, descriptor 1
    (for [>]) or 0 (for [<]) of the child refers to the file the line
    names, opened for writing or for reading. *)
Theorem redirected_program_inherits_file (w : World) (p : positive)
    (front : list string) (op file : string) (line_num : Z) (s : state)
    (path : string) (argv : list (option string)) (s' : state) :
  op = ">" \/ op = "<" ->
  Z.of_nat (length front) + 2 < SIZE_MOD ->
  main_loop_body w (ForkChild p) (front ++ [op; file]) line_num s
  = Halt (Replaced path argv) s' ->
  pid s' = Z.pos p
  /\ fd_lookup (fds s') (redirect_slot op) = Some (Opened file (redirect_mode op)).
Proof.
  intros Hop Hlen Hrun.
  destruct (last_two_tokens front op file Hlen) as [Hrc Hfile].
  destruct (main_loop_body_replaced _ _ _ _ _ _ _ _ Hrun)
    as (s1 & saved & s2 & fg & _ & Hred & Hdis).
  rewrite Hrc in Hred, Hdis.
  destruct (redirect_installs w _ op file s1 saved s2 Hop Hfile Hred)
    as (sv & _ & _ & Hslot & _).
  pose proof (dispatch_preserves_fds w (ForkChild p) (front ++ [op; file])
                (Some op) fg s2) as Hfds.
  rewrite Hdis in Hfds. cbn [final] in Hfds. rewrite Hfds. split; [|exact Hslot].
  clear - Hdis. unfold dispatch in Hdis.
  destruct (0 <=? lookup (tokens_get_token (front ++ [op; file]) 0)).
  - destruct (cmd_table !! _) as [d|]; [|discriminate].
    destruct (call_not_replaced _ _ _ _ _ _ Hdis).
  - exact (exec_func_child_replaced _ _ _ _ _ _ _ _ _ Hdis).
Qed.

Lemma redirected_program_inherits_file_witness :
  let s' := final (main_loop_body Sample.world (ForkChild 7)
                     (["ls"; "-l"] ++ [">"; "/tmp/out"]) 0 Sample.shell) in
  pid s' = 7
  /\ fd_lookup (fds s') (redirect_slot ">")
     = Some (Opened "/tmp/out" (redirect_mode ">")).
Proof.
  apply (redirected_program_inherits_file Sample.world 7 ["ls"; "-l"] ">" "/tmp/out"
           0 Sample.shell "/bin/ls" [Some "ls"; Some "-l"; None]).
  - left. reflexivity.
  - vm_compute. reflexivity.
  - vm_compute. reflexivity.
Defined.

(** X14: The shell never replaces its own image: unless the process is the
    child [fork] created, a line that stops does not stop in [execv], and
    the process that goes on is the one that read the line. *)
Theorem shell_itself_never_replaced (w : World) (fk : fork_outcome)
    (tokens : list string) (line_num : Z) (s : state) :
  (forall p, fk <> ForkChild p) ->
  halts_only not_replaced (main_loop_body w fk tokens line_num)
  /\ pid (final (main_loop_body w fk tokens line_num s)) = pid s.
Proof.
  intros Hfk.
  assert (Hexec : forall rc fg,
             halts_only not_replaced (exec_func w fk tokens rc fg)
             /\ preserves pid (exec_func w fk tokens rc fg)).
  { intros rc fg. destruct fk as [e|p|c]; [|destruct (Hfk p eq_refl)|].
    - split; [|unfold exec_func; pres].
      intros s0 h s1 H. unfold exec_func, bind, fork, fprintf_stdout, modify, ret in H.
      cbn [Z.eqb Pos.eqb] in H. discriminate.
    - split; [|unfold exec_func; pres].
      intros s0 h s1 H.
      unfold exec_func, bind, fork, tcsetpgrp, wait, getpid, gets, int_incr,
        modify, ret, halt in H.
      cbn [Z.eqb Pos.eqb] in H. cbn beta iota in H.
      repeat case_innermost_in H; try discriminate H; inversion H; exact I. }
  assert (Hdis : forall rc fg,
             halts_only not_replaced (dispatch w fk tokens rc fg)
             /\ preserves pid (dispatch w fk tokens rc fg)).
  { intros rc fg. unfold dispatch.
    destruct (0 <=? lookup (tokens_get_token tokens 0)); [|apply Hexec].
    destruct (cmd_table !! _) as [d|].
    - split; [apply call_not_replaced|].
      destruct d as [[] c dc]; cbn [call fun_];
        unfold cmd_help, cmd_exit, cmd_pwd, cmd_cd, cmd_wait; pres.
    - split; [halt_leaf | apply preserves_halt]. }
  assert (Hred : forall rc, halts_only not_replaced (redirect w tokens rc)).
  { intros rc. apply (halts_only_weaken undefined_only); [|apply redirect_crashes].
    intros []; simpl; tauto. }
  split.
  - assert (Hd : forall rc fg, halts_only not_replaced (dispatch w fk tokens rc fg))
      by (intros; apply Hdis).
    unfold main_loop_body. halts.
  - apply (main_loop_body_preserves pid); intros;
      first [ apply Hdis | unfold redirect; pres | prim ].
Qed.

Lemma shell_itself_never_replaced_witness :
  halts_only not_replaced
    (main_loop_body Sample.world (ForkParent 7) ["ls"; "&"] 0)
  /\ pid (final (main_loop_body Sample.world (ForkParent 7) ["ls"; "&"] 0
                   Sample.shell)) = pid Sample.shell.
Proof.
  apply (shell_itself_never_replaced Sample.world (ForkParent 7) ["ls"; "&"] 0
           Sample.shell).
  intros p. discriminate.
Defined.

(** ** Start-up *)

Lemma init_shell_loop_spec (pre post : list Z) :
  forall s,
    Forall (fun a => a <> pgrp s) pre ->
    exists s',
      init_shell_loop (pre ++ pgrp s :: post) s = Ret tt s'
      /\ trace s' = trace s ++ replicate (length pre) (EKill (- pgrp s) SIGTTIN)
      /\ pid s' = pid s
      /\ pgrp s' = pgrp s
      /\ fds s' = fds s
      /\ shell_terminal s' = shell_terminal s
      /\ shell_is_interactive s' = shell_is_interactive s.
Proof.
  induction pre as [|a pre IH]; intros s Hpre.
  - cbn [app init_shell_loop]. unfold bind, getpgrp, gets, modify, ret.
    rewrite Z.eqb_refl. cbn [negb]. eexists. split; [reflexivity|].
    cbn [length replicate]. rewrite app_nil_r. repeat split.
  - inversion Hpre as [|a' pre' Ha Hrest]; subst.
    cbn [app init_shell_loop]. unfold bind at 1. unfold getpgrp, gets.
    unfold bind at 1. unfold modify at 1.
    apply Z.eqb_neq in Ha. rewrite Ha. cbn [negb].
    unfold bind at 1. unfold kill, modify.
    set (s1 := log_event (EKill (- pgrp s) SIGTTIN) (set_shell_pgid (pgrp s) s)).
    destruct (IH s1 Hrest) as (s' & Hrun & Htr & Hpid & Hpg & Hfds & Hterm & Hint).
    change (pgrp s1) with (pgrp s) in Hrun, Htr.
    exists s'. split; [exact Hrun|].
    rewrite Htr, Hpid, Hpg, Hfds, Hterm, Hint.
    cbn [length replicate]. unfold s1. cbn [trace log_event].
    rewrite <- app_assoc. repeat split.
Qed.

(** X15: On a terminal [init_shell] sends its own group SIGTTIN once for every
    answer of [tcgetpgrp] that is not its group, and when the terminal
    reports its group it makes itself the foreground group and saves the
    terminal modes.  The process group it records is its process id; it
    never calls [setpgid] for itself. *)
Theorem init_shell_takes_terminal (w : World) (s : state) (f : ofile)
    (pre post : list Z) :
  fd_lookup (fds s) 0 = Some f ->
  is_tty w f = true ->
  tcgetpgrp_answers w = pre ++ pgrp s :: post ->
  Forall (fun a => a <> pgrp s) pre ->
  exists s',
    init_shell w s = Ret tt s'
    /\ trace s' = trace s
         ++ replicate (length pre) (EKill (- pgrp s) SIGTTIN)
         ++ [ETcsetpgrp 0 (pid s); ETcgetattr 0]
    /\ shell_terminal s' = 0
    /\ shell_is_interactive s' = true
    /\ shell_pgid s' = pid s
    /\ pgrp s' = pgrp s
    /\ shell_tmodes s' = Some f
    /\ num_bprocesses s' = 0.
Proof.
  intros Hfd Htty Hans Hpre.
  unfold init_shell. rewrite Hans.
  unfold bind at 1. unfold modify at 1.
  unfold bind at 1. unfold gets at 1. cbn [shell_terminal set_shell_terminal].
  unfold bind at 1. unfold isatty, gets. cbn [fds set_shell_terminal].
  rewrite Hfd, Htty.
  unfold bind at 1. unfold modify at 1.
  set (s0 := set_shell_is_interactive true (set_shell_terminal 0 s)).
  destruct (init_shell_loop_spec pre post s0 Hpre)
    as (s1 & Hrun & Htr & Hpid & Hpg & Hfds & Hterm & Hint).
  change (pgrp s0) with (pgrp s) in Hrun, Htr.
  unfold bind at 1. unfold bind at 1. rewrite Hrun.
  unfold bind, getpid, gets, modify, tcsetpgrp, tcgetattr_shell_tmodes.
  eexists. split; [reflexivity|].
  cbn [trace shell_terminal shell_is_interactive shell_pgid pgrp shell_tmodes
       num_bprocesses fds log_event set_shell_pgid set_shell_tmodes
       set_num_bprocesses].
  rewrite Htr, Hpid, Hpg, Hfds, Hterm, Hint.
  change (fds s0) with (fds s). rewrite Hfd.
  rewrite <- !app_assoc. repeat split.
Qed.

Lemma init_shell_takes_terminal_witness :
  exists s',
    init_shell Sample.world Sample.shell = Ret tt s'
    /\ trace s' = trace Sample.shell
         ++ replicate (length (@nil Z)) (EKill (- pgrp Sample.shell) SIGTTIN)
         ++ [ETcsetpgrp 0 (pid Sample.shell); ETcgetattr 0]
    /\ shell_terminal s' = 0
    /\ shell_is_interactive s' = true
    /\ shell_pgid s' = pid Sample.shell
    /\ pgrp s' = pgrp Sample.shell
    /\ shell_tmodes s' = Some (Inherited 0)
    /\ num_bprocesses s' = 0.
Proof.
  apply (init_shell_takes_terminal Sample.world Sample.shell (Inherited 0) [] []).
  - reflexivity.
  - reflexivity.
  - reflexivity.
  - constructor.
Defined.

(** X16: When standard input is not a terminal, or is closed, [init_shell]
    makes no call on the terminal and sends no signal, and [main] on an
    empty input writes nothing: no prompt is printed. *)
Theorem init_shell_without_terminal (w : World) (s : state) :
  match fd_lookup (fds s) 0 with
  | Some f => is_tty w f = false
  | None => True
  end ->
  (exists s',
      init_shell w s = Ret tt s'
      /\ trace s' = trace s
      /\ shell_is_interactive s' = false
      /\ shell_pgid s' = shell_pgid s
      /\ shell_tmodes s' = shell_tmodes s
      /\ num_bprocesses s' = 0)
  /\ (exists s', main w [] s = Ret 0 s' /\ trace s' = trace s).
Proof.
  intros Hno.
  assert (Htty : match fd_lookup (fds s) 0 with
                 | Some f => is_tty w f
                 | None => false
                 end = false).
  { destruct (fd_lookup (fds s) 0); [exact Hno | reflexivity]. }
  assert (Hinit : init_shell w s
                  = Ret tt (set_num_bprocesses 0
                              (set_shell_is_interactive false
                                 (set_shell_terminal 0 s)))).
  { unfold init_shell, bind, modify, isatty, gets, ret.
    cbn [shell_terminal fds set_shell_terminal]. rewrite Htty. reflexivity. }
  split.
  - eexists. split; [exact Hinit|]. repeat split.
  - unfold main. unfold bind at 1. rewrite Hinit.
    unfold bind, gets, ret. cbn [shell_is_interactive set_num_bprocesses
                                 set_shell_is_interactive main_loop].
    eexists. split; [reflexivity|]. reflexivity.
Qed.

Lemma init_shell_without_terminal_witness :
  (exists s',
      init_shell Sample.world (set_fds [] Sample.shell) = Ret tt s'
      /\ trace s' = trace (set_fds [] Sample.shell)
      /\ shell_is_interactive s' = false
      /\ shell_pgid s' = shell_pgid (set_fds [] Sample.shell)
      /\ shell_tmodes s' = shell_tmodes (set_fds [] Sample.shell)
      /\ num_bprocesses s' = 0)
  /\ (exists s', main Sample.world [] (set_fds [] Sample.shell) = Ret 0 s'
                 /\ trace s' = trace (set_fds [] Sample.shell)).
Proof.
  apply (init_shell_without_terminal Sample.world (set_fds [] Sample.shell)).
  exact I.
Defined.

(** ** The prompt *)

Ltac dispatch_pres :=
  unfold dispatch;
  repeat lazymatch goal with
         | |- preserves _ (if ?b then _ else _) => destruct b
         | |- preserves _ (match ?x with _ => _ end) => destruct x
         end;
  [ lazymatch goal with
    | |- preserves _ (call _ (fun_ ?d) _) =>
        destruct d as [[] ? ?]; cbn [call fun_];
        unfold cmd_help, cmd_exit, cmd_pwd, cmd_cd, cmd_wait; pres
    end
  | apply preserves_halt
  | unfold exec_func; pres ].

Lemma main_loop_body_interactive w fk tokens line_num :
  preserves shell_is_interactive (main_loop_body w fk tokens line_num).
Proof.
  apply main_loop_body_preserves; intros;
    first [ dispatch_pres | unfold redirect; pres | prim ].
Qed.

(** X17: The number in the prompt counts the lines read: a line that runs to its
    end on a terminal adds one to [line_num] (as an [int]: the successor of
    [INT_MAX] is [INT_MIN]) and ends by writing the new number and ": " to
    standard output; off a terminal the number stays and no prompt is
    written.  Whether the shell is interactive never changes. *)
Theorem prompt_counts_lines (w : World) (fk : fork_outcome) (tokens : list string)
    (line_num : Z) (s : state) (n : Z) (s' : state) :
  main_loop_body w fk tokens line_num s = Ret n s' ->
  shell_is_interactive s' = shell_is_interactive s
  /\ if shell_is_interactive s
     then n = int_succ line_num
          /\ (line_num < INT_MAX -> n = line_num + 1)
          /\ exists before,
               trace s' = before
                 ++ [EWrite (fd_lookup (fds s') 1) (pretty n +:+ ": ")]
     else n = line_num.
Proof.
  intros Hrun.
  pose proof (main_loop_body_interactive w fk tokens line_num s) as Hint.
  rewrite Hrun in Hint. cbn [final] in Hint. split; [exact Hint|].
  rewrite <- Hint. clear Hint.
  unfold main_loop_body in Hrun.
  do 8 (apply bind_ret_inv in Hrun; destruct Hrun as (? & ? & _ & Hrun)).
  cbv zeta in Hrun.
  do 5 (apply bind_ret_inv in Hrun; destruct Hrun as (? & ? & _ & Hrun)).
  unfold bind, gets, int_incr, fprintf_stdout, modify, ret, halt in Hrun.
  match type of Hrun with
  | context [shell_is_interactive ?st] => destruct (shell_is_interactive st) eqn:Ei
  end.
  - inversion Hrun; subst. cbn [shell_is_interactive log_event]. rewrite Ei.
    split; [reflexivity|]. split; [apply int_succ_below|]. eexists. reflexivity.
  - inversion Hrun; subst. rewrite Ei. reflexivity.
Qed.

Lemma prompt_counts_lines_witness :
  let s' := final (main_loop_body Sample.world (ForkFailed 11) ["pwd"] 41
                     Sample.shell) in
  shell_is_interactive s' = shell_is_interactive Sample.shell
  /\ if shell_is_interactive Sample.shell
     then 42 = int_succ 41
          /\ (41 < INT_MAX -> 42 = 41 + 1)
          /\ exists before,
               trace s' = before
                 ++ [EWrite (fd_lookup (fds s') 1) (pretty 42 +:+ ": ")]
     else 42 = 41.
Proof.
  apply (prompt_counts_lines Sample.world (ForkFailed 11) ["pwd"] 41 Sample.shell 42).
  vm_compute. reflexivity.
Defined.

(** ** Builtins and the background marker *)

Lemma bind_ext {A B} (m : M A) (k k' : A -> M B) (s : state) :
  (forall a s1, k a s1 = k' a s1) -> bind m k s = bind m k' s.
Proof. intros H. unfold bind. destruct (m s); [apply H | reflexivity]. Qed.

(** X18: A builtin runs in the shell itself: when the first token is a name of
    the table, what [fork] would do makes no difference to the line, so no
    process is created, with or without a trailing [&]. *)
Theorem builtin_never_forks (w : World) (fk fk' : fork_outcome) (c : string)
    (rest : list string) (line_num : Z) (s : state) :
  In c (map cmd cmd_table) ->
  main_loop_body w fk (c :: rest) line_num s
  = main_loop_body w fk' (c :: rest) line_num s.
Proof.
  intros Hin.
  assert (Hd : forall rc fg s0,
             dispatch w fk (c :: rest) rc fg s0 = dispatch w fk' (c :: rest) rc fg s0).
  { intros rc fg s0. rewrite !dispatch_cons.
    destruct (list_find (fun d => cmd d = c) cmd_table) as [[i d]|] eqn:E;
      [reflexivity|].
    exfalso. apply list_find_None in E.
    apply in_map_iff in Hin. destruct Hin as (d & Hc & Hd).
    rewrite Forall_forall in E. exact (E d ltac:(apply list_elem_of_In; exact Hd) Hc). }
  unfold main_loop_body. cbv zeta.
  do 10 (apply bind_ext; intros ? ?).
  unfold bind at 1. unfold bind at 3. rewrite Hd. reflexivity.
Qed.

Lemma builtin_never_forks_witness :
  main_loop_body Sample.world (ForkParent 7) ("cd" :: ["/tmp"; "&"]) 0 Sample.shell
  = main_loop_body Sample.world (ForkFailed 11) ("cd" :: ["/tmp"; "&"]) 0 Sample.shell.
Proof.
  apply (builtin_never_forks Sample.world (ForkParent 7) (ForkFailed 11) "cd"
           ["/tmp"; "&"] 0 Sample.shell).
  cbn. tauto.
Defined.

Lemma cmd_wait_loop_no_children w :
  forall (n : nat) s,
    num_bprocesses s = Z.of_nat n ->
    children s = [] ->
    exists s',
      cmd_wait_loop w s = Ret tt s'
      /\ trace s' = trace s ++ replicate n (EWait (-1))
      /\ num_bprocesses s' = 0
      /\ children s' = []
      /\ (0 < n -> errno s' = ECHILD)%nat.
Proof.
  induction n as [|n IH]; intros s Hn Hc.
  - exists s. rewrite cmd_wait_loop_idle by lia.
    cbn [replicate]. rewrite app_nil_r. repeat split; try assumption. lia.
  - rewrite cmd_wait_loop_once.
    destruct (Z.ltb_spec 0 (num_bprocesses s)) as [_|Hle]; [|lia].
    unfold cmd_wait_body, bind, wait, modify. rewrite Hc.
    set (s1 := set_num_bprocesses _ _).
    destruct (IH s1) as (s' & Hrun & Htr & Hnum & Hch & Herr).
    { unfold s1. cbn [num_bprocesses set_num_bprocesses log_event set_errno]. lia. }
    { unfold s1. cbn [children set_num_bprocesses log_event set_errno]. exact Hc. }
    exists s'. split; [exact Hrun|]. rewrite Htr.
    unfold s1. cbn [trace set_num_bprocesses log_event set_errno replicate].
    rewrite <- app_assoc. repeat split; try assumption.
    intros _. destruct n as [|n'].
    + rewrite cmd_wait_loop_idle in Hrun
        by (unfold s1; cbn [num_bprocesses set_num_bprocesses log_event set_errno]; lia).
      inversion Hrun; subst s'. reflexivity.
    + apply Herr. lia.
Qed.

(** X19: The counter is not tied to the children there are: with a positive
    counter and no child left, [wait] calls [wait(NULL)] once per count,
    every call fails with ECHILD, and the counter is zero afterwards. *)
Theorem wait_without_children (w : World) (tokens : list string) (s : state) :
  children s = [] ->
  0 < num_bprocesses s ->
  exists s',
    cmd_wait w tokens s = Ret 1 s'
    /\ trace s' = trace s ++ replicate (Z.to_nat (num_bprocesses s)) (EWait (-1))
    /\ num_bprocesses s' = 0
    /\ errno s' = ECHILD.
Proof.
  intros Hc Hn.
  destruct (cmd_wait_loop_no_children w (Z.to_nat (num_bprocesses s)) s)
    as (s' & Hrun & Htr & Hnum & _ & Herr); [lia | exact Hc |].
  exists s'. unfold cmd_wait, bind, ret. rewrite Hrun.
  split; [reflexivity|]. split; [exact Htr|]. split; [exact Hnum|].
  apply Herr. lia.
Qed.

Lemma wait_without_children_witness :
  exists s',
    cmd_wait Sample.world ["wait"] (set_num_bprocesses 2 Sample.shell) = Ret 1 s'
    /\ trace s' = trace (set_num_bprocesses 2 Sample.shell)
         ++ replicate (Z.to_nat (num_bprocesses (set_num_bprocesses 2 Sample.shell)))
              (EWait (-1))
    /\ num_bprocesses s' = 0
    /\ errno s' = ECHILD.
Proof.
  apply (wait_without_children Sample.world ["wait"]
           (set_num_bprocesses 2 Sample.shell)).
  - reflexivity.
  - reflexivity.
Defined.

Lemma size_sub_small (n : nat) (k : Z) :
  0 <= k <= Z.of_nat n -> Z.of_nat n < SIZE_MOD ->
  size_sub (Z.of_nat n) k = Z.of_nat n - k.
Proof. intros Hk Hn. unfold size_sub. apply Z.mod_small. lia. Qed.


